(** * goftp: a shallow embedding of the FTP client and of its listing parsers

    The development follows [ftp.go] and the ISO-8859-15 transcoder of the
    package.  Go strings are byte sequences and are modelled by [string]
    (one [ascii] per byte); Go's [int] is a 64-bit machine integer modelled
    by [Z] with the wrap-around written out; maps are [gmap]s.  The sockets
    and the clock are an explicit environment. *)

From Stdlib Require Import ZArith String Ascii List Lia Bool DecimalString.
From stdpp Require Import gmap strings.
Import ListNotations.
Open Scope Z_scope.
Set Default Proof Using "Type".

(** ** Run-time faults and Go errors *)

(** The run-time panics the modelled code can raise. *)
Inductive panic :=
| IndexOutOfRange (i n : Z)        (* index out of range [i] with length n *)
| SliceOutOfRange (lo hi n : Z).   (* slice bounds out of range [lo:hi] with length n *)

(** Result of a pure Go computation: a value, or a panic. *)
Inductive outcome (A : Type) :=
| Ret (a : A)
| Panic (p : panic).
Arguments Ret {A} a.
Arguments Panic {A} p.

Definition obind {A B} (x : outcome A) (k : A -> outcome B) : outcome B :=
  match x with
  | Ret a => k a
  | Panic p => Panic p
  end.

#[global] Instance outcome_ret : MRet outcome := @Ret.
#[global] Instance outcome_bind : MBind outcome := fun A B k x => obind x k.

(** The error values that flow through the client. *)
Inductive error :=
| EOF                                        (* io.EOF *)
| NetError (msg : string)                    (* a failure reported by a socket *)
| TextprotoError (code : Z) (msg : string)   (* &textproto.Error{Code, Msg} *)
| ProtocolError (msg : string)               (* textproto.ProtocolError *)
| ErrorString (msg : string)                 (* errors.New, fmt.Errorf *)
| NumError (fn num : string) (range : bool)  (* *strconv.NumError: ErrSyntax or ErrRange *)
| TimeParseError (value : string)            (* *time.ParseError *)
| ErrTooLong.                                (* bufio.ErrTooLong *)

(** ** Bytes, machine integers and strings *)

Definition byte_val (a : ascii) : Z := Z.of_N (N_of_ascii a).

(** Go's [byte(r)]: the low eight bits. *)
Definition byte_of (z : Z) : ascii := ascii_of_N (Z.to_N (z mod 256)).

(** Go's [int] is 64 bits wide on the supported platforms; arithmetic wraps. *)
Definition int_min : Z := - 2 ^ 63.
Definition int_max : Z := 2 ^ 63 - 1.
Definition int_wrap (z : Z) : Z := (z + 2 ^ 63) mod 2 ^ 64 - 2 ^ 63.
Definition uint64_max : Z := 2 ^ 64 - 1.

Definition len (s : string) : Z := Z.of_nat (String.length s).

Fixpoint str_drop (n : nat) (s : string) : string :=
  match n, s with
  | O, _ => s
  | S k, String _ s' => str_drop k s'
  | S _, EmptyString => EmptyString
  end.

Fixpoint str_take (n : nat) (s : string) : string :=
  match n, s with
  | S k, String c s' => String c (str_take k s')
  | _, _ => EmptyString
  end.

(** [s[lo:hi]]: panics unless [0 <= lo <= hi <= len(s)]. *)
Definition slice (s : string) (lo hi : Z) : outcome string :=
  if (0 <=? lo) && (lo <=? hi) && (hi <=? len s)
  then Ret (str_take (Z.to_nat (hi - lo)) (str_drop (Z.to_nat lo) s))
  else Panic (SliceOutOfRange lo hi (len s)).

(** [s[i]]. *)
Definition byte_at (s : string) (i : Z) : outcome ascii :=
  match (if 0 <=? i then String.get (Z.to_nat i) s else None) with
  | Some c => Ret c
  | None => Panic (IndexOutOfRange i (len s))
  end.

(** [l[i]] on a slice of strings. *)
Definition elem_at (l : list string) (i : Z) : outcome string :=
  match (if 0 <=? i then l !! Z.to_nat i else None) with
  | Some x => Ret x
  | None => Panic (IndexOutOfRange i (Z.of_nat (length l)))
  end.

(** [l[i:]] on a slice of strings. *)
Definition elems_from (l : list string) (i : Z) : outcome (list string) :=
  if (0 <=? i) && (i <=? Z.of_nat (length l))
  then Ret (drop (Z.to_nat i) l)
  else Panic (SliceOutOfRange i (Z.of_nat (length l)) (Z.of_nat (length l))).

(** ** Package strings *)

Definition HasPrefix (s p : string) : bool := String.prefix p s.

Fixpoint index_first (sub s : string) : option nat :=
  if String.prefix sub s then Some O
  else match s with
       | EmptyString => None
       | String _ s' => option_map S (index_first sub s')
       end.

Fixpoint index_last (sub s : string) : option nat :=
  match s with
  | EmptyString => if String.prefix sub s then Some O else None
  | String _ s' =>
      match index_last sub s' with
      | Some i => Some (S i)
      | None => if String.prefix sub s then Some O else None
      end
  end.

Definition index_result (r : option nat) : Z :=
  match r with
  | Some i => Z.of_nat i
  | None => -1
  end.

(** [strings.Index]: position of the first instance of [sub], or -1. *)
Definition Index (s sub : string) : Z := index_result (index_first sub s).

(** [strings.LastIndex]: position of the last instance of [sub], or -1. *)
Definition LastIndex (s sub : string) : Z := index_result (index_last sub s).

Definition Contains (s sub : string) : bool := 0 <=? Index s sub.

(** [strings.Split] for a non-empty separator (every call site passes one):
    [skip] counts the bytes of a separator still to be stepped over. *)
Fixpoint split_go (sep : string) (skip : nat) (cur s : string) : list string :=
  match s with
  | EmptyString => [cur]
  | String c s' =>
      match skip with
      | S k => split_go sep k cur s'
      | O =>
          if String.prefix sep s
          then cur :: split_go sep (String.length sep - 1) EmptyString s'
          else split_go sep O (cur +:+ String c EmptyString) s'
      end
  end.

Definition Split (s sep : string) : list string := split_go sep O EmptyString s.

Fixpoint Join (elems : list string) (sep : string) : string :=
  match elems with
  | [] => EmptyString
  | [x] => x
  | x :: rest => x +:+ sep +:+ Join rest sep
  end.

Fixpoint mem_byte (c : ascii) (cutset : string) : bool :=
  match cutset with
  | EmptyString => false
  | String d t => Ascii.eqb c d || mem_byte c t
  end.

Fixpoint TrimLeft (s cutset : string) : string :=
  match s with
  | EmptyString => EmptyString
  | String c s' => if mem_byte c cutset then TrimLeft s' cutset else s
  end.

Fixpoint TrimRight (s cutset : string) : string :=
  match s with
  | EmptyString => EmptyString
  | String c s' =>
      match TrimRight s' cutset with
      | EmptyString => if mem_byte c cutset then EmptyString else String c EmptyString
      | t => String c t
      end
  end.

(** [strings.Trim] with a cutset of ASCII bytes. *)
Definition Trim (s cutset : string) : string := TrimRight (TrimLeft s cutset) cutset.

(** ** Package unicode/utf8 *)

Definition rune := Z.

Definition RuneError : rune := 0xFFFD.

(** The table [first] with [acceptRanges]: for a leading byte, the length of
    the sequence and the range allowed for the second byte; [None] for a byte
    that cannot start a multi-byte sequence. *)
Definition first (s0 : Z) : option (nat * Z * Z) :=
  if s0 <? 0xC2 then None
  else if s0 <? 0xE0 then Some (2%nat, 0x80, 0xBF)
  else if s0 =? 0xE0 then Some (3%nat, 0xA0, 0xBF)
  else if s0 <? 0xED then Some (3%nat, 0x80, 0xBF)
  else if s0 =? 0xED then Some (3%nat, 0x80, 0x9F)
  else if s0 <? 0xF0 then Some (3%nat, 0x80, 0xBF)
  else if s0 =? 0xF0 then Some (4%nat, 0x90, 0xBF)
  else if s0 <? 0xF4 then Some (4%nat, 0x80, 0xBF)
  else if s0 =? 0xF4 then Some (4%nat, 0x80, 0x8F)
  else None.

Definition is_cont (b : Z) : bool := (0x80 <=? b) && (b <=? 0xBF).

(** [utf8.DecodeRuneInString]: the first rune of [s] and its width in bytes;
    [(RuneError, 0)] on the empty string, [(RuneError, 1)] on an invalid
    encoding. *)
Definition DecodeRuneInString (s : string) : rune * nat :=
  match s with
  | EmptyString => (RuneError, O)
  | String c0 t =>
      let s0 := byte_val c0 in
      if s0 <? 0x80 then (s0, 1%nat)
      else
        match first s0 with
        | None => (RuneError, 1%nat)
        | Some (sz, lo, hi) =>
            if (String.length s <? sz)%nat then (RuneError, 1%nat)
            else
              match t with
              | EmptyString => (RuneError, 1%nat)
              | String c1 t1 =>
                  let s1 := byte_val c1 in
                  if (s1 <? lo) || (hi <? s1) then (RuneError, 1%nat)
                  else if (sz <=? 2)%nat
                  then (Z.lor (Z.shiftl (Z.land s0 0x1F) 6) (Z.land s1 0x3F), 2%nat)
                  else
                    match t1 with
                    | EmptyString => (RuneError, 1%nat)
                    | String c2 t2 =>
                        let s2 := byte_val c2 in
                        if negb (is_cont s2) then (RuneError, 1%nat)
                        else if (sz <=? 3)%nat
                        then (Z.lor (Z.lor (Z.shiftl (Z.land s0 0x0F) 12)
                                           (Z.shiftl (Z.land s1 0x3F) 6))
                                    (Z.land s2 0x3F), 3%nat)
                        else
                          match t2 with
                          | EmptyString => (RuneError, 1%nat)
                          | String c3 _ =>
                              let s3 := byte_val c3 in
                              if negb (is_cont s3) then (RuneError, 1%nat)
                              else (Z.lor (Z.lor (Z.lor (Z.shiftl (Z.land s0 0x07) 18)
                                                        (Z.shiftl (Z.land s1 0x3F) 12))
                                                 (Z.shiftl (Z.land s2 0x3F) 6))
                                          (Z.land s3 0x3F), 4%nat)
                          end
                    end
              end
        end
  end.

Definition bytes (l : list Z) : string :=
  fold_right (fun b s => String (byte_of b) s) EmptyString l.

(** The UTF-8 encoding of one rune, as [string(rune)] and [string([]rune)]
    produce it: runes out of range and surrogates become U+FFFD. *)
Definition EncodeRune (r : rune) : string :=
  if (r <? 0) || (0x10FFFF <? r) || ((0xD800 <=? r) && (r <=? 0xDFFF))
  then bytes [0xEF; 0xBF; 0xBD]
  else if r <=? 0x7F then bytes [r]
  else if r <=? 0x7FF
  then bytes [Z.lor 0xC0 (Z.shiftr r 6); Z.lor 0x80 (Z.land r 0x3F)]
  else if r <=? 0xFFFF
  then bytes [Z.lor 0xE0 (Z.shiftr r 12);
              Z.lor 0x80 (Z.land (Z.shiftr r 6) 0x3F);
              Z.lor 0x80 (Z.land r 0x3F)]
  else bytes [Z.lor 0xF0 (Z.shiftr r 18);
              Z.lor 0x80 (Z.land (Z.shiftr r 12) 0x3F);
              Z.lor 0x80 (Z.land (Z.shiftr r 6) 0x3F);
              Z.lor 0x80 (Z.land r 0x3F)].

(** [string(u)] for [u []rune]. *)
Fixpoint string_of_runes (u : list rune) : string :=
  match u with
  | [] => EmptyString
  | r :: u' => EncodeRune r +:+ string_of_runes u'
  end.

(** ** Package unicode and the rune-wise functions of package strings *)

(** [unicode.IsSpace]. *)
Definition IsSpace (r : rune) : bool :=
  ((0x09 <=? r) && (r <=? 0x0D)) || (r =? 0x20) || (r =? 0x85) || (r =? 0xA0)
  || (r =? 0x1680) || ((0x2000 <=? r) && (r <=? 0x200A))
  || (r =? 0x2028) || (r =? 0x2029) || (r =? 0x202F) || (r =? 0x205F)
  || (r =? 0x3000).

Definition flush (cur : string) : list string :=
  match cur with
  | EmptyString => []
  | _ => [cur]
  end.

(** [strings.Fields]: the maximal runs of non-space runes.  [skip] counts the
    remaining bytes of the rune being stepped over, [keep] tells whether they
    belong to the current field. *)
Fixpoint fields_go (skip : nat) (keep : bool) (cur s : string) : list string :=
  match s with
  | EmptyString => flush cur
  | String c s' =>
      match skip with
      | S k => fields_go k keep (if keep then cur +:+ String c EmptyString else cur) s'
      | O =>
          let '(r, w) := DecodeRuneInString s in
          if IsSpace r
          then flush cur ++ fields_go (w - 1) false EmptyString s'
          else fields_go (w - 1) true (cur +:+ String c EmptyString) s'
      end
  end.

Definition Fields (s : string) : list string := fields_go O false EmptyString s.

Definition is_ascii (c : ascii) : bool := byte_val c <? 0x80.

Fixpoint all_ascii (s : string) : bool :=
  match s with
  | EmptyString => true
  | String c s' => is_ascii c && all_ascii s'
  end.

Definition lower_byte (c : ascii) : ascii :=
  let b := byte_val c in
  if (0x41 <=? b) && (b <=? 0x5A) then byte_of (b + 0x20) else c.

Fixpoint map_bytes (f : ascii -> ascii) (s : string) : string :=
  match s with
  | EmptyString => EmptyString
  | String c s' => String (f c) (map_bytes f s')
  end.

(** ** Package strconv *)

Definition is_digit (c : ascii) : bool :=
  (0x30 <=? byte_val c) && (byte_val c <=? 0x39).

Fixpoint digits_value (acc : Z) (s : string) : option Z :=
  match s with
  | EmptyString => Some acc
  | String c s' =>
      if is_digit c then digits_value (acc * 10 + (byte_val c - 0x30)) s' else None
  end.

(** The value of a non-empty string of decimal digits. *)
Definition parse_digits (s : string) : option Z :=
  match s with
  | EmptyString => None
  | _ => digits_value 0 s
  end.

(** [strconv.ParseUint(s, 10, 0)]. *)
Definition ParseUint (s : string) : Z * option error :=
  match parse_digits s with
  | None => (0, Some (NumError "ParseUint" s false))
  | Some v =>
      if v <=? uint64_max then (v, None)
      else (uint64_max, Some (NumError "ParseUint" s true))
  end.

Definition strip_sign (s : string) : bool * string :=
  match s with
  | String c t =>
      if Ascii.eqb c "-" then (true, t)
      else if Ascii.eqb c "+" then (false, t)
      else (false, s)
  | EmptyString => (false, s)
  end.

(** [strconv.Atoi]: an optional sign and decimal digits; the value with a nil
    error, 0 with a syntax error, or the nearest bound with a range error. *)
Definition Atoi (s : string) : Z * option error :=
  let '(neg, ds) := strip_sign s in
  match parse_digits ds with
  | None => (0, Some (NumError "Atoi" s false))
  | Some v =>
      let n := if neg then - v else v in
      if n <? int_min then (int_min, Some (NumError "Atoi" s true))
      else if int_max <? n then (int_max, Some (NumError "Atoi" s true))
      else (n, None)
  end.

(** [strconv.Itoa], also the verb [%d] of the command formats. *)
Definition Itoa (z : Z) : string := NilZero.string_of_int (Z.to_int z).

(** ** Package time, for the two layouts the listing parser uses *)

(** A wall-clock reading in the local time zone. *)
Record Time := mkTime {
  t_year : Z;
  t_month : Z;
  t_day : Z;
  t_hour : Z;
  t_min : Z
}.

(** What [time.Now().Date()] gives the parser: the local year and month. *)
Record Clock := mkClock {
  now_year : Z;
  now_month : Z
}.

Definition shortMonthNames : list string :=
  ["Jan"; "Feb"; "Mar"; "Apr"; "May"; "Jun";
   "Jul"; "Aug"; "Sep"; "Oct"; "Nov"; "Dec"].

(** [time.match]: equality up to ASCII case, on strings of equal length. *)
Fixpoint time_match (s1 s2 : string) : bool :=
  match s1, s2 with
  | String c1 t1, String c2 t2 =>
      (Ascii.eqb c1 c2
       || (let l1 := Z.lor (byte_val c1) 0x20 in
           let l2 := Z.lor (byte_val c2) 0x20 in
           (l1 =? l2) && (0x61 <=? l1) && (l1 <=? 0x7A)))
      && time_match t1 t2
  | EmptyString, _ => true
  | _, EmptyString => false
  end.

(** [time.lookup]: the index of the first table entry that [val] starts
    with, and the rest of [val]. *)
Fixpoint time_lookup (tab : list string) (i : Z) (val : string) : option (Z * string) :=
  match tab with
  | [] => None
  | v :: tab' =>
      if (String.length v <=? String.length val)%nat
         && time_match (str_take (String.length v) val) v
      then Some (i, str_drop (String.length v) val)
      else time_lookup tab' (i + 1) val
  end.

(** [time.getnum]: one or two leading digits ([fixed]: exactly two). *)
Definition getnum (s : string) (fixed : bool) : option (Z * string) :=
  match s with
  | String c0 t0 =>
      if is_digit c0 then
        match t0 with
        | String c1 t1 =>
            if is_digit c1
            then Some ((byte_val c0 - 0x30) * 10 + (byte_val c1 - 0x30), t1)
            else if fixed then None else Some (byte_val c0 - 0x30, t0)
        | EmptyString => if fixed then None else Some (byte_val c0 - 0x30, t0)
        end
      else None
  | EmptyString => None
  end.

(** [time.skip] for the layout prefix [" "]: any run of spaces, or the end of
    the value. *)
Definition skip_space (value : string) : option string :=
  match value with
  | EmptyString => Some value
  | String c _ => if Ascii.eqb c " " then Some (TrimLeft value " ") else None
  end.

(** [time.skip] for the layout prefix [":"]. *)
Definition skip_colon (value : string) : option string :=
  match value with
  | String c t => if Ascii.eqb c ":" then Some t else None
  | EmptyString => None
  end.

(** The integer parser of package time: an optional sign and digits. *)
Definition time_atoi (s : string) : option Z :=
  let '(neg, t) := strip_sign s in
  match digits_value 0 t with
  | Some q => Some (if neg then - q else q)
  | None => None
  end.

(** The layout element [06]: two bytes, read in the window 1969..2068. *)
Definition std_year (value : string) : option (Z * string) :=
  if (String.length value <? 2)%nat then None
  else
    match time_atoi (str_take 2 value) with
    | Some y => Some (if 69 <=? y then y + 1900 else y + 2000, str_drop 2 value)
    | None => None
    end.

Definition isLeap (year : Z) : bool :=
  (year mod 4 =? 0) && (negb (year mod 100 =? 0) || (year mod 400 =? 0)).

Definition daysIn (month year : Z) : Z :=
  if (month =? 2) && isLeap year then 29
  else nth (Z.to_nat (month - 1)) [31; 28; 31; 30; 31; 30; 31; 31; 30; 31; 30; 31] 0.

Definition day_in_range (day month year : Z) : bool :=
  (1 <=? day) && (day <=? daysIn month year).

(** [time.Parse("02 Jan 06", value)]. *)
Definition Parse_02_Jan_06 (value : string) : Time + error :=
  let r : option Time :=
    '(day, v) ← getnum value true;
    v ← skip_space v;
    '(m, v) ← time_lookup shortMonthNames 0 v;
    v ← skip_space v;
    '(year, v) ← std_year v;
    if negb (String.eqb v EmptyString) then None
    else if negb (day_in_range day (m + 1) year) then None
    else Some (mkTime year (m + 1) day 0 0) in
  match r with
  | Some t => inl t
  | None => inr (TimeParseError value)
  end.

(** The layout element [_2] accepts one space before the day. *)
Definition under_day (value : string) : string :=
  match value with
  | String c t => if Ascii.eqb c " " then t else value
  | EmptyString => value
  end.

(** [time.ParseInLocation("_2 Jan 06 15:04", value, loc)] followed by
    [Local()], with [loc] the local zone: the wall-clock fields read. *)
Definition ParseInLocation__2_Jan_06_15_04 (value : string) : Time + error :=
  let r : option Time :=
    '(day, v) ← getnum (under_day value) false;
    v ← skip_space v;
    '(m, v) ← time_lookup shortMonthNames 0 v;
    v ← skip_space v;
    '(year, v) ← std_year v;
    v ← skip_space v;
    '(hour, v) ← getnum v false;
    if 24 <=? hour then None else
    v ← skip_colon v;
    '(minute, v) ← getnum v true;
    if 60 <=? minute then None
    else if negb (String.eqb v EmptyString) then None
    else if negb (day_in_range day (m + 1) year) then None
    else Some (mkTime year (m + 1) day hour minute) in
  match r with
  | Some t => inl t
  | None => inr (TimeParseError value)
  end.

(** ** The ISO-8859-15 transcoder *)

(** The [switch] of [ISO8859_15ToUTF8]: the rune of one ISO-8859-15 byte. *)
Definition iso_rune (r : Z) : rune :=
  match r with
  | 0xA4 => 0x20AC
  | 0xA6 => 0x0160
  | 0xA8 => 0x0161
  | 0xB4 => 0x017D
  | 0xB8 => 0x017E
  | 0xBC => 0x0152
  | 0xBD => 0x0153
  | 0xBE => 0x0178
  | _ => r
  end.

Fixpoint iso_runes (s : string) : list rune :=
  match s with
  | EmptyString => []
  | String c s' => iso_rune (byte_val c) :: iso_runes s'
  end.

Definition ISO8859_15ToUTF8 (s : string) : string := string_of_runes (iso_runes s).

(** The [switch] of [UTF8ToISO8859_15]: the byte written for one rune. *)
Definition iso_byte (r : rune) : ascii :=
  match r with
  | 0x20AC => byte_of 0xA4
  | 0x0160 => byte_of 0xA6
  | 0x0161 => byte_of 0xA8
  | 0x017D => byte_of 0xB4
  | 0x017E => byte_of 0xB8
  | 0x0152 => byte_of 0xBC
  | 0x0153 => byte_of 0xBD
  | 0x0178 => byte_of 0xBE
  | _ => byte_of r
  end.

(** The loop [for i, w := 0, 0; i < len(c); i += w]: [skip] counts the bytes
    of the rune decoded last that are still to be stepped over. *)
Fixpoint utf8_to_iso_go (skip : nat) (c : string) : string :=
  match c with
  | EmptyString => EmptyString
  | String _ c' =>
      match skip with
      | S k => utf8_to_iso_go k c'
      | O =>
          let '(r, w) := DecodeRuneInString c in
          String (iso_byte r) (utf8_to_iso_go (w - 1) c')
      end
  end.

Definition UTF8ToISO8859_15 (c : string) : string := utf8_to_iso_go O c.

(** ** The data model of the client *)

Inductive EntryType :=
| EntryTypeFile
| EntryTypeFolder
| EntryTypeLink.

Record ServerConn := mkServerConn {
  host : string;
  features : gmap string string;
  TranslateEncoding : bool;
  ListDotDirs : bool
}.

Record Entry := mkEntry {
  Name : string;
  Type_ : EntryType;
  Size : Z;
  Time_ : Time
}.

Record EntryEx := mkEntryEx {
  name : string;
  Facts : gmap string string
}.

Definition SetName (e : EntryEx) (s : string) : EntryEx :=
  mkEntryEx s (Facts e).

Definition has_feature (c : ServerConn) (k : string) : bool :=
  match features c !! k with
  | Some _ => true
  | None => false
  end.

Definition toServerEncoding (c : ServerConn) (s : string) : string :=
  let utf8Supported := has_feature c "UTF8" in
  if negb utf8Supported && TranslateEncoding c then UTF8ToISO8859_15 s else s.

Definition fromServerEncoding (c : ServerConn) (s : string) : string :=
  let utf8Supported := has_feature c "UTF8" in
  if negb utf8Supported && TranslateEncoding c then ISO8859_15ToUTF8 s else s.

(** ** The LIST parser *)

Definition entry_type_of (b : ascii) : option EntryType :=
  if Ascii.eqb b "-" then Some EntryTypeFile
  else if Ascii.eqb b "d" then Some EntryTypeFolder
  else if Ascii.eqb b "l" then Some EntryTypeLink
  else None.

Definition is_file (t : EntryType) : bool :=
  match t with
  | EntryTypeFile => true
  | _ => false
  end.

(** The year the parser assumes for an entry listed without one. *)
Definition setYear (now : Clock) (dateMon : Z) : Z :=
  if now_month now <? dateMon then now_year now - 1 else now_year now.

Definition parseListLine (c : ServerConn) (now : Clock) (line : string)
  : outcome (Entry + error) :=
  let fields := Fields line in
  if (length fields <? 9)%nat then Ret (inr (ErrorString "unsupported LIST line"))
  else
    f0 ← elem_at fields 0;
    b ← byte_at f0 0;
    match entry_type_of b with
    | None => Ret (inr (ErrorString "unknown entry type"))
    | Some ty =>
        sz ← (if is_file ty then f4 ← elem_at fields 4; Ret (ParseUint f4)
              else Ret (0, None));
        match sz with
        | (_, Some err) => Ret (inr err)
        | (size, None) =>
            f5 ← elem_at fields 5;
            match Parse_02_Jan_06 ("01 " +:+ f5 +:+ " 01") with
            | inr err => Ret (inr err)
            | inl ts =>
                let year := setYear now (t_month ts) in
                f7 ← elem_at fields 7;
                f6 ← elem_at fields 6;
                timeStr ←
                  (if Contains f7 ":"
                   then yy ← slice (Itoa year) 2 4;
                        Ret (f6 +:+ " " +:+ f5 +:+ " " +:+ yy +:+ " " +:+ f7)
                   else yy ← slice f7 2 4;
                        Ret (f6 +:+ " " +:+ f5 +:+ " " +:+ yy +:+ " " +:+ "00:00"));
                match ParseInLocation__2_Jan_06_15_04 timeStr with
                | inr err => Ret (inr err)
                | inl t =>
                    rest ← elems_from fields 8;
                    Ret (inl (mkEntry (fromServerEncoding c (Join rest " ")) ty size t))
                end
            end
        end
    end.

(** ** The sockets: a scripted environment and the monad of the client *)

(** One reply of the server on the control connection, as package textproto
    reads it: a code, whether the first line announces a multi-line reply,
    and the message; or a failure to read a well-formed reply. *)
Inductive reply :=
| Reply (code : Z) (continued : bool) (msg : string)
| ReadFail (e : error).

(** A data connection: the bytes the server sends on it, the error that ends
    the stream ([EOF] for a clean end) and what closing it returns. *)
Record DataConn := mkDataConn {
  dc_id : nat;
  dc_data : string;
  dc_tail : error;
  dc_close : option error
}.

Inductive event :=
| EvCmd (line : string)
| EvReadResponse (expect : Z)
| EvReadCodeLine (expect : Z)
| EvDial (addr : string)
| EvDataClose (id : nat)
| EvCtlClose.

Record World := mkWorld {
  w_replies : list reply;              (* the replies still to come *)
  w_writes : list (option error);      (* outcome of each write to come *)
  w_dials : list (DataConn + error);   (* outcome of each dial to come *)
  w_ctl_close : option error;          (* what closing the control socket returns *)
  w_open : list nat;                   (* the data sockets now open *)
  w_trace : list event                 (* what happened so far, oldest first *)
}.

Inductive Res (A : Type) :=
| Done (a : A) (w : World)
| Crash (p : panic) (w : World).
Arguments Done {A} a w.
Arguments Crash {A} p w.

Definition M (A : Type) : Type := World -> Res A.

#[global] Instance M_ret : MRet M := fun A a w => Done a w.
#[global] Instance M_bind : MBind M := fun A B k m w =>
  match m w with
  | Done a w' => k a w'
  | Crash p w' => Crash p w'
  end.

Definition lift {A} (o : outcome A) : M A := fun w =>
  match o with
  | Ret a => Done a w
  | Panic p => Crash p w
  end.

(** [defer cleanup] around [body]: [cleanup] runs when [body] returns and
    when it panics, and its own result is dropped. *)
Definition defer {A B} (cleanup : M B) (body : M A) : M A := fun w =>
  match body w with
  | Done a w' =>
      match cleanup w' with
      | Done _ w'' => Done a w''
      | Crash p w'' => Crash p w''
      end
  | Crash p w' =>
      match cleanup w' with
      | Done _ w'' => Crash p w''
      | Crash p' w'' => Crash p' w''
      end
  end.

Definition log (e : event) (w : World) : World :=
  mkWorld (w_replies w) (w_writes w) (w_dials w) (w_ctl_close w) (w_open w)
          (w_trace w ++ [e]).

(** [c.conn.Cmd]: one command line written to the control connection. *)
Definition conn_Cmd (line : string) : M (option error) := fun w =>
  let w := log (EvCmd line) w in
  match w_writes w with
  | [] => Done None w
  | r :: rest =>
      Done r (mkWorld (w_replies w) rest (w_dials w) (w_ctl_close w) (w_open w) (w_trace w))
  end.

(** The expected-code check of package textproto. *)
Definition code_mismatch (expect code : Z) : bool :=
  ((1 <=? expect) && (expect <? 10) && negb (code / 100 =? expect))
  || ((10 <=? expect) && (expect <? 100) && negb (code / 10 =? expect))
  || ((100 <=? expect) && (expect <? 1000) && negb (code =? expect)).

Definition next_reply (w : World) : reply * World :=
  match w_replies w with
  | [] => (ReadFail EOF, w)
  | r :: rest =>
      (r, mkWorld rest (w_writes w) (w_dials w) (w_ctl_close w) (w_open w) (w_trace w))
  end.

(** [c.conn.ReadResponse(expect)]. *)
Definition conn_ReadResponse (expect : Z) : M (Z * string * option error) := fun w =>
  let '(r, w) := next_reply (log (EvReadResponse expect) w) in
  match r with
  | ReadFail e => Done (0, EmptyString, Some e) w
  | Reply code _ msg =>
      Done (code, msg,
            if code_mismatch expect code then Some (TextprotoError code msg) else None) w
  end.

(** [c.conn.ReadCodeLine(expect)]: a single line; a multi-line reply is a
    protocol error. *)
Definition conn_ReadCodeLine (expect : Z) : M (Z * string * option error) := fun w =>
  let '(r, w) := next_reply (log (EvReadCodeLine expect) w) in
  match r with
  | ReadFail e => Done (0, EmptyString, Some e) w
  | Reply code continued msg =>
      Done (code, msg,
            if code_mismatch expect code then Some (TextprotoError code msg)
            else if continued
                 then Some (ProtocolError ("unexpected multi-line response: " +:+ msg))
                 else None) w
  end.

(** [c.conn.Close()]. *)
Definition conn_Close : M (option error) := fun w =>
  Done (w_ctl_close w) (log EvCtlClose w).

(** [net.Dial("tcp", addr)]. *)
Definition net_Dial (addr : string) : M (DataConn + error) := fun w =>
  let w := log (EvDial addr) w in
  match w_dials w with
  | [] => Done (inr (NetError "dial")) w
  | inr e :: rest =>
      Done (inr e) (mkWorld (w_replies w) (w_writes w) rest (w_ctl_close w) (w_open w)
                            (w_trace w))
  | inl dc :: rest =>
      Done (inl dc) (mkWorld (w_replies w) (w_writes w) rest (w_ctl_close w)
                             (dc_id dc :: w_open w) (w_trace w))
  end.

(** [conn.Close()] on a data connection. *)
Definition data_Close (dc : DataConn) : M (option error) := fun w =>
  let w := log (EvDataClose (dc_id dc)) w in
  Done (dc_close dc)
       (mkWorld (w_replies w) (w_writes w) (w_dials w) (w_ctl_close w)
                (filter (fun i => i ≠ dc_id dc) (w_open w)) (w_trace w)).

(** [net.JoinHostPort]. *)
Definition JoinHostPort (h port : string) : string :=
  if Contains h ":" then "[" +:+ h +:+ "]:" +:+ port else h +:+ ":" +:+ port.

Section Client.

(** The reply codes of the package, declared in a file of their own: they
    are parameters of the development. *)
Variables (StatusAlreadyOpen StatusAboutToSend StatusClosingDataConnection
           StatusPassiveMode StatusExtendedPassiveMode
           StatusRequestFilePending : Z).

(** [strings.Map(unicode.ToLower, s)], which [strings.ToLower] falls back to
    on a string with a byte outside ASCII: the case tables of package
    unicode are a parameter. *)
Variable unicode_ToLower : string -> string.

(** [strings.ToLower]. *)
Definition ToLower (s : string) : string :=
  if all_ascii s then map_bytes lower_byte s else unicode_ToLower s.

(** ** The MLSD/MLST parser *)

(** The body of the loop of [parseMListLine] over the items from index [idx]
    on; [n] is [len(fields)]. *)
Fixpoint mlist_items (c : ServerConn) (n idx : Z) (items : list string) (e : EntryEx)
  : EntryEx * option error :=
  match items with
  | [] => (e, None)
  | item :: rest =>
      if idx =? n - 1 then
        if HasPrefix item " "
        then mlist_items c n (idx + 1) rest
                         (SetName e (fromServerEncoding c (str_drop 1 item)))
        else (e, Some (ErrorString ("invalid filename " +:+ item)))
      else
        match Split item "=" with
        | [k; v] =>
            mlist_items c n (idx + 1) rest
                        (mkEntryEx (name e) (<[ToLower k := v]> (Facts e)))
        | _ => mlist_items c n (idx + 1) rest e
        end
  end.

(** The cutset [" \r\n\t"]. *)
Definition mlist_cutset : string :=
  String " " (String "013" (String "010" (String "009" EmptyString))).

Definition parseMListLine (c : ServerConn) (line : string) : EntryEx * option error :=
  let line := Trim line mlist_cutset in
  let fields := Split line ";" in
  mlist_items c (Z.of_nat (length fields)) 0 fields (mkEntryEx EmptyString ∅).

(** ** Commands on the control connection *)

(** [cmd]: [line] is the command already formatted. *)
Definition cmd (expected : Z) (line : string) : M (Z * string * option error) :=
  err ← conn_Cmd line;
  match err with
  | Some e => mret (0, EmptyString, Some e)
  | None => conn_ReadResponse expected
  end.

(** The parsing step of [epsv], on the text of the reply. *)
Definition epsv_port (line : string) : outcome (Z * option error) :=
  let start := Index line "|||" in
  let end_ := LastIndex line "|" in
  if (start =? -1) || (end_ =? -1)
  then Ret (0, Some (ErrorString "invalid EPSV response format"))
  else
    s ← slice line (start + 3) end_;
    Ret (Atoi s).

Definition epsv : M (Z * option error) :=
  '(_, line, err) ← cmd StatusExtendedPassiveMode "EPSV";
  match err with
  | Some e => mret (0, Some e)
  | None => lift (epsv_port line)
  end.

(** The parsing step of [pasv], on the text of the reply. *)
Definition pasv_port (line : string) : outcome (Z * option error) :=
  let start := Index line "(" in
  let end_ := LastIndex line ")" in
  if (start =? -1) || (end_ =? -1)
  then Ret (0, Some (ErrorString "invalid EPSV response format"))
  else
    s ← slice line (start + 1) end_;
    let pasvData := Split s "," in
    p4 ← elem_at pasvData 4;
    let '(portPart1, err1) := Atoi p4 in
    match err1 with
    | Some e => Ret (0, Some e)
    | None =>
        p5 ← elem_at pasvData 5;
        let '(portPart2, err2) := Atoi p5 in
        match err2 with
        | Some e => Ret (0, Some e)
        | None => Ret (int_wrap (portPart1 * 256 + portPart2), None)
        end
    end.

Definition pasv : M (Z * option error) :=
  '(_, line, err) ← cmd StatusPassiveMode "PASV";
  match err with
  | Some e => mret (0, Some e)
  | None => lift (pasv_port line)
  end.

Definition openDataConn (c : ServerConn) : M (DataConn + error) :=
  let nat6Supported := has_feature c "nat6" in
  let epsvSupported := has_feature c "EPSV" in
  port ← (if negb nat6Supported && negb epsvSupported
          then '(port, _) ← pasv; mret port
          else mret 0);
  r ← (if port =? 0 then epsv else mret (port, None));
  match r with
  | (_, Some e) => mret (inr e)
  | (port, None) => net_Dial (JoinHostPort (host c) (Itoa port))
  end.

(** [cmdDataConnFrom]: [line] is the transfer command already formatted. *)
Definition cmdDataConnFrom (c : ServerConn) (offset : Z) (line : string)
  : M (DataConn + error) :=
  r ← openDataConn c;
  match r with
  | inr e => mret (inr e)
  | inl conn =>
      err ← (if negb (offset =? 0)
             then '(_, _, err) ← cmd StatusRequestFilePending ("REST " +:+ Itoa offset);
                  mret err
             else mret None);
      match err with
      | Some e => mret (inr e)
      | None =>
          err ← conn_Cmd line;
          match err with
          | Some e => _ ← data_Close conn; mret (inr e)
          | None =>
              '(code, msg, err) ← conn_ReadCodeLine (-1);
              match err with
              | Some e => _ ← data_Close conn; mret (inr e)
              | None =>
                  if negb (code =? StatusAlreadyOpen) && negb (code =? StatusAboutToSend)
                  then _ ← data_Close conn; mret (inr (TextprotoError code msg))
                  else mret (inl conn)
              end
          end
      end
  end.

(** A [response]: the data connection; the session it points back to is the
    one of the environment. *)
Record response := mkResponse {
  r_conn : DataConn
}.

(** [response.Close]. *)
Definition Close (r : response) : M (option error) :=
  err ← data_Close (r_conn r);
  '(_, _, err2) ← conn_ReadResponse StatusClosingDataConnection;
  mret (match err2 with
        | Some e2 => Some e2
        | None => err
        end).

Definition RetrFrom (c : ServerConn) (path : string) (offset : Z) : M (response + error) :=
  let path := toServerEncoding c path in
  r ← cmdDataConnFrom c offset ("RETR " +:+ path);
  match r with
  | inr e => mret (inr e)
  | inl conn => mret (inl (mkResponse conn))
  end.

Definition Retr (c : ServerConn) (path : string) : M (response + error) :=
  RetrFrom c path 0.

Definition Quit : M (option error) :=
  _ ← conn_Cmd "QUIT";
  conn_Close.

(** ** Listings *)

Definition newline : ascii := "010".

(** The bytes of [s] up to and including the first newline, and the bytes
    after it; [None] when [s] has no newline. *)
Fixpoint cut_line (s : string) : option (string * string) :=
  match s with
  | EmptyString => None
  | String ch s' =>
      if Ascii.eqb ch newline then Some (String ch EmptyString, s')
      else match cut_line s' with
           | Some (line, rest) => Some (String ch line, rest)
           | None => None
           end
  end.

(** [bio.ReadString('\n')] on a reader with the bytes [bio] unread, over a
    stream that ends with the error [tail]: the line, the error, and the
    bytes left unread. *)
Definition ReadString (tail : error) (bio : string) : string * option error * string :=
  match cut_line bio with
  | Some (line, rest) => (line, None, rest)
  | None => (bio, Some tail, EmptyString)
  end.

Definition is_EOF (e : error) : bool :=
  match e with
  | EOF => true
  | _ => false
  end.

(** The read loop of [List].  Each turn reads one line and uses one unit of
    [fuel]; [List] gives one unit more than the stream has bytes, which is
    never used up (lemma [List_loop_lines]). *)
Fixpoint List_loop (fuel : nat) (c : ServerConn) (now : Clock) (tail : error)
  (bio : string) (entries : list Entry) : outcome (list Entry * option error) :=
  match fuel with
  | O => Ret (entries, None)
  | S fuel' =>
      let '(line, e, bio') := ReadString tail bio in
      match e with
      | Some e => if is_EOF e then Ret (entries, None) else Ret ([], Some e)
      | None =>
          r ← parseListLine c now line;
          List_loop fuel' c now tail bio'
                    (match r with
                     | inl entry => entries ++ [entry]
                     | inr _ => entries
                     end)
      end
  end.

Definition List (c : ServerConn) (now : Clock) (path : string)
  : M (list Entry * option error) :=
  let path := toServerEncoding c path in
  x ← cmdDataConnFrom c 0 ("LIST " +:+ path);
  match x with
  | inr err => mret ([], Some err)
  | inl conn =>
      let r := mkResponse conn in
      defer (Close r)
            (lift (List_loop (S (String.length (dc_data conn))) c now (dc_tail conn)
                             (dc_data conn) []))
  end.

(** The read loop of [MList], with fuel as for [List]. *)
Fixpoint MList_loop (fuel : nat) (c : ServerConn) (tail : error)
  (bio : string) (entries : list EntryEx) : list EntryEx * option error :=
  match fuel with
  | O => (entries, None)
  | S fuel' =>
      let '(line, e, bio') := ReadString tail bio in
      match e with
      | Some e => if is_EOF e then (entries, None) else ([], Some e)
      | None =>
          let '(entry, err) := parseMListLine c line in
          MList_loop fuel' c tail bio'
                     (match err with
                      | None =>
                          if (negb (String.eqb (name entry) ".")
                              && negb (String.eqb (name entry) ".."))
                             || ListDotDirs c
                          then entries ++ [entry] else entries
                      | Some _ => entries
                      end)
      end
  end.

Definition MList (c : ServerConn) (path : string) : M (list EntryEx * option error) :=
  let path := toServerEncoding c path in
  x ← cmdDataConnFrom c 0 ("MLSD " +:+ path);
  match x with
  | inr err => mret ([], Some err)
  | inl conn =>
      let r := mkResponse conn in
      defer (Close r)
            (mret (MList_loop (S (String.length (dc_data conn))) c (dc_tail conn)
                              (dc_data conn) []))
  end.

(** [bufio.MaxScanTokenSize]: the buffer of a [Scanner]. *)
Definition MaxScanTokenSize : Z := 64 * 1024.

(** [dropCR] of package bufio: one trailing carriage return is dropped. *)
Fixpoint dropCR (s : string) : string :=
  match s with
  | EmptyString => EmptyString
  | String c EmptyString => if Ascii.eqb c "013" then EmptyString else s
  | String c s' => String c (dropCR s')
  end.

(** The loop [for scanner.Scan()] of [NameList], with [bufio.ScanLines] as
    the split function: the entries appended and [scanner.Err()].  A line
    that fills the buffer before its newline arrives stops the scanner with
    [ErrTooLong]; a last line without a newline is a token all the same.
    The connection reports the end of the stream on a read of its own, so a
    last line of exactly the size of the buffer fills it first. *)
Fixpoint NameList_loop (fuel : nat) (c : ServerConn) (tail : error)
  (bio : string) (entries : list string) : list string * option error :=
  match fuel with
  | O => (entries, None)
  | S fuel' =>
      match cut_line bio with
      | Some (line, bio') =>
          if MaxScanTokenSize <? len line then (entries, Some ErrTooLong)
          else NameList_loop fuel' c tail bio'
                 (entries ++ [fromServerEncoding c
                                (dropCR (str_take (String.length line - 1) line))])
      | None =>
          if MaxScanTokenSize <=? len bio then (entries, Some ErrTooLong)
          else
            (match bio with
             | EmptyString => entries
             | _ => entries ++ [fromServerEncoding c (dropCR bio)]
             end,
             if is_EOF tail then None else Some tail)
      end
  end.

Definition NameList (c : ServerConn) (path : string) : M (list string * option error) :=
  let path := toServerEncoding c path in
  x ← cmdDataConnFrom c 0 ("NLST " +:+ path);
  match x with
  | inr err => mret ([], Some err)
  | inl conn =>
      let r := mkResponse conn in
      defer (Close r)
            (mret (NameList_loop (S (String.length (dc_data conn))) c (dc_tail conn)
                                 (dc_data conn) []))
  end.

(** ** Notions used to state the properties *)

(** A PASV reply whose text is [pre], a parenthesized group [six] and
    [post]. *)
Definition sextet (h1 h2 h3 h4 p1 p2 : string) : string :=
  h1 +:+ "," +:+ h2 +:+ "," +:+ h3 +:+ "," +:+ h4 +:+ "," +:+ p1 +:+ "," +:+ p2.

Definition pasv_line (pre six post : string) : string :=
  pre +:+ "(" +:+ six +:+ ")" +:+ post.

(** The next write on the control connection succeeds. *)
Definition write_succeeds (w : World) : Prop :=
  match w_writes w with
  | Some _ :: _ => False
  | _ => True
  end.

(** The characters of ISO-8859-15: those of Latin-1 but for the eight code
    points the standard replaced, and the eight characters that replace
    them. *)
Definition latin1_replaced : list rune :=
  [0xA4; 0xA6; 0xA8; 0xB4; 0xB8; 0xBC; 0xBD; 0xBE].

Definition latin9_added : list rune :=
  [0x20AC; 0x0160; 0x0161; 0x017D; 0x017E; 0x0152; 0x0153; 0x0178].

Definition in_ISO8859_15 (r : rune) : bool :=
  ((0 <=? r) && (r <=? 0xFF) && negb (existsb (Z.eqb r) latin1_replaced))
  || existsb (Z.eqb r) latin9_added.

Definition string_bytes (s : string) : list Z :=
  map byte_val (list_ascii_of_string s).

(** [s] is a sequence of one, two or three bytes that decodes to [r]. *)
Definition decodes_to (s : string) (r : rune) : bool :=
  match s with
  | String c0 EmptyString => (byte_val c0 <? 0x80) && (byte_val c0 =? r)
  | String c0 (String c1 EmptyString) =>
      negb (byte_val c0 <? 0x80)
      && match first (byte_val c0) with
         | Some (2%nat, lo, hi) =>
             (lo <=? byte_val c1) && (byte_val c1 <=? hi)
             && (Z.lor (Z.shiftl (Z.land (byte_val c0) 0x1F) 6)
                       (Z.land (byte_val c1) 0x3F) =? r)
         | _ => false
         end
  | String c0 (String c1 (String c2 EmptyString)) =>
      negb (byte_val c0 <? 0x80)
      && match first (byte_val c0) with
         | Some (3%nat, lo, hi) =>
             (lo <=? byte_val c1) && (byte_val c1 <=? hi) && is_cont (byte_val c2)
             && (Z.lor (Z.lor (Z.shiftl (Z.land (byte_val c0) 0x0F) 12)
                              (Z.shiftl (Z.land (byte_val c1) 0x3F) 6))
                       (Z.land (byte_val c2) 0x3F) =? r)
         | _ => false
         end
  | _ => false
  end.

(** The entries [List] makes of a list of lines: the lines that parse, in
    order; a panic of the parser ends it. *)
Fixpoint list_entries (c : ServerConn) (now : Clock) (lines : list string)
  (acc : list Entry) : outcome (list Entry) :=
  match lines with
  | [] => Ret acc
  | line :: lines' =>
      r ← parseListLine c now line;
      list_entries c now lines'
                   (match r with
                    | inl entry => acc ++ [entry]
                    | inr _ => acc
                    end)
  end.

(** The entries [MList] makes of a list of lines: the lines that parse and
    are not the dot entries, unless those are asked for. *)
Fixpoint mlist_entries (c : ServerConn) (lines : list string) (acc : list EntryEx)
  : list EntryEx :=
  match lines with
  | [] => acc
  | line :: lines' =>
      let '(entry, err) := parseMListLine c line in
      mlist_entries c lines'
                    (match err with
                     | None =>
                         if (negb (String.eqb (name entry) ".")
                             && negb (String.eqb (name entry) ".."))
                            || ListDotDirs c
                         then acc ++ [entry] else acc
                     | Some _ => acc
                     end)
  end.

(** The string of one newline. *)
Definition nl : string := String newline EmptyString.

(** The entry [NameList] makes of a line read with its newline. *)
Definition name_of_line (c : ServerConn) (line : string) : string :=
  fromServerEncoding c (dropCR (str_take (String.length line - 1) line)).

Fixpoint repeat_byte (n : nat) (b : ascii) : string :=
  match n with
  | O => EmptyString
  | S k => String b (repeat_byte k b)
  end.

(** A field of [strings.Fields]: not empty, and without a space byte. *)
Definition clean (f : string) : Prop := mem_byte " " f = false.

Definition is_field (f : string) : Prop := f <> EmptyString /\ clean f.

(** The first [k] bytes of [s] are no spaces. *)
Fixpoint lead_clean (k : nat) (s : string) : Prop :=
  match k, s with
  | S k', String b s' => b <> " "%char /\ lead_clean k' s'
  | _, _ => True
  end.

(** The reading of a two-digit year. *)
Definition pivot (y : Z) : Z := if 69 <=? y then y + 1900 else y + 2000.

(** The runes U+0000..U+00FF. *)
Definition latin1 : list rune := map Z.of_nat (seq 0 256).

(** The facts of a list of fields, in the words of the format: a field that
    splits around [=] into exactly a key and a value is the fact of the
    lowercased key, any other field says nothing. *)
Definition fact_of (item : string) : option (string * string) :=
  match Split item "=" with
  | [k; v] => Some (ToLower k, v)
  | _ => None
  end.

Definition add_fact (m : gmap string string) (kv : string * string) : gmap string string :=
  <[kv.1 := kv.2]> m.

Definition facts_of (items : list string) : gmap string string :=
  foldl add_fact ∅ (omap fact_of items).

(** What the final field makes of the entry built so far. *)
Definition with_final_field (c : ServerConn) (final : string) (e : EntryEx)
  : EntryEx * option error :=
  if HasPrefix final " "
  then (SetName e (fromServerEncoding c (str_drop 1 final)), None)
  else (e, Some (ErrorString ("invalid filename " +:+ final))).

(** The lines of a stream that end with a newline, each with its newline,
    and the bytes after the last newline. *)
Fixpoint stream_lines (s : string) : list string * string :=
  match s with
  | EmptyString => ([], EmptyString)
  | String ch s' =>
      let '(ls, partial) := stream_lines s' in
      if Ascii.eqb ch newline then (String ch EmptyString :: ls, partial)
      else match ls with
           | [] => ([], String ch partial)
           | l :: ls' => (String ch l :: ls', partial)
           end
  end.

(** ** The other commands of the session *)

(** More reply codes of the package, parameters like the first ones. *)
Variables (StatusLoggedIn StatusUserOK StatusCommandOK
           StatusRequestedFileActionOK StatusPathCreated StatusReady : Z).

Definition Login (user password : string) : M (option error) :=
  '(code, message, err) ← cmd (-1) ("USER " +:+ user);
  match err with
  | Some e => mret (Some e)
  | None =>
      r ← (if code =? StatusLoggedIn then mret None
           else if code =? StatusUserOK
                then '(_, _, err) ← cmd StatusLoggedIn ("PASS " +:+ password); mret err
                else mret (Some (ErrorString message)));
      match r with
      | Some e => mret (Some e)
      | None => '(_, _, err) ← cmd StatusCommandOK "TYPE I"; mret err
      end
  end.

Definition Rename (c : ServerConn) (from to : string) : M (option error) :=
  let from := toServerEncoding c from in
  let to := toServerEncoding c to in
  '(_, _, err) ← cmd StatusRequestFilePending ("RNFR " +:+ from);
  match err with
  | Some e => mret (Some e)
  | None => '(_, _, err) ← cmd StatusRequestedFileActionOK ("RNTO " +:+ to); mret err
  end.

(** The string of one double quote. *)
Definition quote : string := String "034" EmptyString.

Definition CurrentDir (c : ServerConn) : M (string * option error) :=
  '(_, msg, err) ← cmd StatusPathCreated "PWD";
  match err with
  | Some e => mret (EmptyString, Some e)
  | None =>
      let start := Index msg quote in
      let end_ := LastIndex msg quote in
      if (start =? -1) || (end_ =? -1)
      then mret (EmptyString, Some (ErrorString "unsupported PWD response format"))
      else
        s ← lift (slice msg (start + 1) end_);
        mret (fromServerEncoding c s, None)
  end.

Definition MInfo (c : ServerConn) (path : string) : M (EntryEx * option error) :=
  let path := toServerEncoding c path in
  '(_, resp, err) ← cmd StatusRequestedFileActionOK ("MLST " +:+ path);
  match err with
  | Some e => mret (mkEntryEx EmptyString ∅, Some e)
  | None =>
      let lines := Split resp nl in
      let unexpected : M (EntryEx * option error) :=
        mret (mkEntryEx EmptyString ∅,
              Some (ErrorString ("unexpected MLST response " +:+ resp))) in
      if (length lines =? 3)%nat then
        second ← lift (elem_at lines 1);
        if 1 <? len second
        then
          line ← lift (slice second 1 (len second));
          mret (parseMListLine c line)
        else unexpected
      else unexpected
  end.

Definition Lstat (c : ServerConn) (name : string) : M (EntryEx * option error) :=
  MInfo c name.

(** [StorFrom].  [copy] is what [io.Copy(conn, r)] returns: the error of the
    reader or of the socket that ended the copy, if any. *)
Definition StorFrom (c : ServerConn) (path : string) (copy : option error) (offset : Z)
  : M (option error) :=
  let path := toServerEncoding c path in
  x ← cmdDataConnFrom c offset ("STOR " +:+ path);
  match x with
  | inr err => mret (Some err)
  | inl conn =>
      _ ← data_Close conn;
      match copy with
      | Some err => mret (Some err)
      | None =>
          '(_, _, err) ← conn_ReadCodeLine StatusClosingDataConnection;
          mret err
      end
  end.

Definition Stor (c : ServerConn) (path : string) (copy : option error) : M (option error) :=
  StorFrom c path copy 0.

(** [ReadDir]: the entries of [MList], copied one by one into a slice of
    [os.FileInfo] when [MList] returned no error. *)
Definition ReadDir (c : ServerConn) (dirname : string) : M (list EntryEx * option error) :=
  '(dirEntries, err) ← MList c dirname;
  match err with
  | Some e => mret ([], Some e)
  | None => mret (map (fun fi => fi) dirEntries, None)
  end.

(** ** The accessors of [EntryEx] *)

Definition EntryEx_Size (e : EntryEx) : Z :=
  match Facts e !! "size" with
  | None => 0
  | Some sSize =>
      match Atoi sSize with
      | (_, Some _) => 0
      | (size, None) => size
      end
  end.

Definition EntryEx_IsDir (e : EntryEx) : bool :=
  match Facts e !! "type" with
  | None => false
  | Some eType =>
      String.eqb eType "dir" || String.eqb eType "cdir" || String.eqb eType "pdir"
  end.

(** [os.ModeDir]. *)
Definition ModeDir : Z := 2 ^ 31.

Definition EntryEx_Mode (e : EntryEx) : Z :=
  let mode :=
    match Facts e !! "perm" with
    | Some sPerm =>
        (if Contains sPerm "r" then 256 else 0)       (* 0400 *)
        + (if Contains sPerm "w" then 128 else 0)     (* 0200 *)
    | None => 0
    end in
  if EntryEx_IsDir e then mode + ModeDir else mode.

(** ** The features of the server and the start of a session *)

(** [strings.TrimSpace].  The bytes of ASCII are handled byte by byte; when
    the scan from the left, or then the scan from the right, meets a byte
    outside ASCII before it meets a byte that is no space, [TrimSpace] hands
    the bytes not yet trimmed to [strings.TrimFunc], or to
    [strings.TrimRightFunc], with [unicode.IsSpace]: these two are
    parameters. *)
Variables (TrimFunc_IsSpace TrimRightFunc_IsSpace : string -> string).

(** The table [asciiSpace]. *)
Definition asciiSpace (c : ascii) : bool :=
  let b := byte_val c in
  ((0x09 <=? b) && (b <=? 0x0D)) || (b =? 0x20).

(** The scan from the left: the bytes from the first that is no space on,
    on the left; or the bytes from a byte outside ASCII on, on the right. *)
Fixpoint trim_space_left (s : string) : string + string :=
  match s with
  | EmptyString => inl EmptyString
  | String c s' =>
      if 0x80 <=? byte_val c then inr s
      else if asciiSpace c then trim_space_left s'
      else inl s
  end.

(** The scan from the right. *)
Inductive trimmed :=
| AllSpace                 (* nothing but spaces of ASCII *)
| Kept (t : string)        (* the bytes up to the last that is no space *)
| NonASCII (t : string).   (* the bytes up to a byte outside ASCII *)

Fixpoint trim_space_right (s : string) : trimmed :=
  match s with
  | EmptyString => AllSpace
  | String c s' =>
      match trim_space_right s' with
      | Kept t => Kept (String c t)
      | NonASCII t => NonASCII (String c t)
      | AllSpace =>
          if 0x80 <=? byte_val c then NonASCII (String c EmptyString)
          else if asciiSpace c then AllSpace
          else Kept (String c EmptyString)
      end
  end.

Definition TrimSpace (s : string) : string :=
  match trim_space_left s with
  | inr t => TrimFunc_IsSpace t
  | inl t =>
      match trim_space_right t with
      | AllSpace => EmptyString
      | Kept u => u
      | NonASCII u => TrimRightFunc_IsSpace u
      end
  end.

(** [strings.SplitN(s, sep, 2)] for a separator that is not empty. *)
Definition SplitN_2 (s sep : string) : list string :=
  match index_first sep s with
  | None => [s]
  | Some m => [str_take m s; str_drop (m + String.length sep) s]
  end.

Variable StatusSystem : Z.

(** The body of the loop of [feat]: what one line of the reply makes of the
    features. *)
Definition feat_line (features : gmap string string) (line : string)
  : outcome (gmap string string) :=
  if negb (HasPrefix line " ") then Ret features
  else
    let line := TrimSpace line in
    let featureElements := SplitN_2 line " " in
    command ← elem_at featureElements 0;
    commandDesc ← (if (length featureElements =? 2)%nat
                   then elem_at featureElements 1
                   else Ret EmptyString);
    Ret (<[command := commandDesc]> features).

Fixpoint feat_lines (features : gmap string string) (lines : list string)
  : outcome (gmap string string) :=
  match lines with
  | [] => Ret features
  | line :: lines' =>
      features' ← feat_line features line;
      feat_lines features' lines'
  end.

(** [feat], on a session with the features [features]: the features it
    leaves and the error it returns. *)
Definition feat (features : gmap string string)
  : M (gmap string string * option error) :=
  '(code, message, err) ← cmd (-1) "FEAT";
  match err with
  | Some e => mret (features, Some e)
  | None =>
      if negb (code =? StatusSystem) then mret (features, None)
      else
        features' ← lift (feat_lines features (Split message nl));
        mret (features', None)
  end.

(** [Connect].  [dial] is the error of [textproto.Dial("tcp", addr)], if
    any, and [split] is what [net.SplitHostPort(addr)] returns: the host, or
    an error. *)
Definition Connect (dial : option error) (split : string + error)
  : M (ServerConn + error) :=
  match dial with
  | Some e => mret (inr e)
  | None =>
      match split with
      | inr e => _ ← conn_Close; mret (inr e)
      | inl host =>
          '(_, _, err) ← conn_ReadResponse StatusReady;
          match err with
          | Some e => _ ← Quit; mret (inr e)
          | None =>
              '(features, err) ← feat ∅;
              match err with
              | Some e => _ ← Quit; mret (inr e)
              | None => mret (inl (mkServerConn host features false false))
              end
          end
      end
  end.

(** ** More notions used to state the properties *)

(** The state a computation ends in. *)
Definition final {A} (r : Res A) : World :=
  match r with
  | Done _ w => w
  | Crash _ w => w
  end.

(** Whatever the state, [m] adds to the trace only events that satisfy
    [P]. *)
Definition emits {A} (P : event -> Prop) (m : M A) : Prop :=
  forall w, exists evs, w_trace (final (m w)) = w_trace w ++ evs /\ Forall P evs.

(** [m] leaves the part [f] of the state as it is. *)
Definition keeps {A B} (f : World -> B) (m : M A) : Prop :=
  forall w, f (final (m w)) = f w.

(** No data connection still to be dialled has the number of one that is
    open. *)
Definition fresh_dials (w : World) : Prop :=
  forall dc, In (inl dc) (w_dials w) -> ~ In (dc_id dc) (w_open w).

(** The commands written, in order. *)
Definition commands (evs : list event) : list string :=
  omap (fun ev => match ev with EvCmd l => Some l | _ => None end) evs.


(** The [n] runes from [r] on. *)
Fixpoint runes_from (n : nat) (r : rune) : list rune :=
  match n with
  | O => []
  | S k => r :: runes_from k (r + 1)
  end.

(** The runes of the Basic Multilingual Plane. *)
Definition bmp : list rune := runes_from (Z.to_nat 0x10000) 0.

Definition is_surrogate (r : rune) : bool := (0xD800 <=? r) && (r <=? 0xDFFF).

(** A byte of ASCII that is no space. *)
Definition printable (c : ascii) : bool :=
  (byte_val c <? 0x80) && negb (asciiSpace c).

Fixpoint last_byte (s : string) : option ascii :=
  match s with
  | EmptyString => None
  | String c EmptyString => Some c
  | String _ s' => last_byte s'
  end.

(** The lines of a reply to FEAT, in the words of RFC 2389: a line that
    does not start with a space announces nothing; a line that announces a
    feature is a space, the name of the feature and, after a space, its
    parameters when it has parameters. *)
Inductive feat_item :=
| NoFeature (line : string)
| Feature (name : string)
| FeatureWith (name params : string).

Definition feature_line (i : feat_item) : string :=
  match i with
  | NoFeature line => line
  | Feature name => " " +:+ name
  | FeatureWith name params => " " +:+ name +:+ " " +:+ params
  end.

(** A name is one or more printable bytes; parameters end with a printable
    byte. *)
Definition feature_name (name : string) : Prop :=
  name <> EmptyString /\ forallb printable (list_ascii_of_string name) = true.

Definition ends_printable (s : string) : Prop :=
  exists c, last_byte s = Some c /\ printable c = true.

Definition well_formed (i : feat_item) : Prop :=
  match i with
  | NoFeature line => HasPrefix line " " = false
  | Feature name => feature_name name
  | FeatureWith name params => feature_name name /\ ends_printable params
  end.

Definition announce (features : gmap string string) (i : feat_item) : gmap string string :=
  match i with
  | NoFeature _ => features
  | Feature name => <[name := EmptyString]> features
  | FeatureWith name params => <[name := params]> features
  end.
(** * Properties *)

(** ** Closing a transfer and quitting *)

Lemma next_reply_trace (w : World) : w_trace (next_reply w).2 = w_trace w.
Proof. unfold next_reply. destruct (w_replies w); reflexivity. Qed.

Lemma next_reply_open (w : World) : w_open (next_reply w).2 = w_open w.
Proof. unfold next_reply. destruct (w_replies w); reflexivity. Qed.

Lemma conn_ReadResponse_done (expect : Z) (w : World) :
  exists code msg err w',
    conn_ReadResponse expect w = Done (code, msg, err) w'
    /\ w_trace w' = w_trace w ++ [EvReadResponse expect]
    /\ w_open w' = w_open w.
Proof.
  unfold conn_ReadResponse.
  pose proof (next_reply_trace (log (EvReadResponse expect) w)) as Ht.
  pose proof (next_reply_open (log (EvReadResponse expect) w)) as Ho.
  destruct (next_reply (log (EvReadResponse expect) w)) as [r w1].
  simpl in Ht, Ho.
  destruct r as [code continued msg | e]; repeat eexists; eauto.
Qed.

(** C5. [Close] on the handle of a transfer first closes the data socket and
    then reads the closing reply of the control connection; an error of that
    read is what [Close] returns, whatever the socket returned, and without
    one [Close] returns what closing the socket returned. *)
Theorem Close_closes_then_reads_reply (r : response) (w : World) :
  exists w1 code msg err2 w2,
    data_Close (r_conn r) w = Done (dc_close (r_conn r)) w1
    /\ w_trace w1 = w_trace w ++ [EvDataClose (dc_id (r_conn r))]
    /\ conn_ReadResponse StatusClosingDataConnection w1 = Done (code, msg, err2) w2
    /\ w_trace w2 = w_trace w ++ [EvDataClose (dc_id (r_conn r));
                                  EvReadResponse StatusClosingDataConnection]
    /\ Close r w = Done (match err2 with
                         | Some e2 => Some e2
                         | None => dc_close (r_conn r)
                         end) w2
    /\ (forall e2, err2 = Some e2 -> Close r w = Done (Some e2) w2).
Proof.
  set (w1 := (mkWorld (w_replies w) (w_writes w) (w_dials w) (w_ctl_close w)
                      (filter (fun i => i ≠ dc_id (r_conn r)) (w_open w))
                      (w_trace w ++ [EvDataClose (dc_id (r_conn r))]))).
  destruct (conn_ReadResponse_done StatusClosingDataConnection w1)
    as (code & msg & err2 & w2 & Hread & Htrace & _).
  exists w1, code, msg, err2, w2.
  assert (Hclose : Close r w = Done (match err2 with
                                     | Some e2 => Some e2
                                     | None => dc_close (r_conn r)
                                     end) w2).
  { unfold Close, mbind, M_bind, data_Close. simpl. fold w1. rewrite Hread. reflexivity. }
  repeat split; try assumption; try reflexivity.
  - rewrite Htrace. subst w1. simpl. rewrite <- app_assoc. reflexivity.
  - intros e2 ->. exact Hclose.
Qed.

(** C10. [Quit] writes the QUIT command, reads no reply and closes the
    control socket; what it returns is what closing the socket returned,
    whether or not the write failed and whatever the server would have
    answered. *)
Theorem Quit_returns_close_result (w : World) :
  exists w',
    Quit w = Done (w_ctl_close w) w'
    /\ w_trace w' = w_trace w ++ [EvCmd "QUIT"; EvCtlClose]
    /\ w_replies w' = w_replies w.
Proof.
  unfold Quit, mbind, M_bind, conn_Cmd, conn_Close. simpl.
  destruct (w_writes w) as [|r rest];
    eexists; (split; [reflexivity|]); simpl;
    rewrite <- app_assoc; split; reflexivity.
Qed.

(** ** The REST step of a transfer *)

Lemma conn_Cmd_done (line : string) (w : World) :
  exists err w',
    conn_Cmd line w = Done err w'
    /\ w_trace w' = w_trace w ++ [EvCmd line]
    /\ w_open w' = w_open w
    /\ w_replies w' = w_replies w.
Proof.
  unfold conn_Cmd. simpl. destruct (w_writes w); repeat eexists.
Qed.

Lemma cmd_done (expected : Z) (line : string) (w : World) :
  exists code msg err w',
    cmd expected line w = Done (code, msg, err) w' /\ w_open w' = w_open w.
Proof.
  unfold cmd, mbind, M_bind.
  destruct (conn_Cmd_done line w) as (err & w1 & -> & _ & Ho & _).
  destruct err as [e|].
  - repeat eexists. exact Ho.
  - destruct (conn_ReadResponse_done expected w1) as (code & msg & err & w2 & -> & _ & Ho2).
    repeat eexists. congruence.
Qed.

(** When the server rejects REST, [cmdDataConnFrom] returns the error of the
    REST exchange in the state that exchange left: the data connection just
    opened is not closed. *)
Lemma cmdDataConnFrom_REST_error (c : ServerConn) (offset : Z) (line : string)
  (w w1 w2 : World) (conn : DataConn) (code : Z) (msg : string) (e : error) :
  offset <> 0 ->
  openDataConn c w = Done (inl conn) w1 ->
  cmd StatusRequestFilePending ("REST " +:+ Itoa offset) w1 = Done (code, msg, Some e) w2 ->
  cmdDataConnFrom c offset line w = Done (inr e) w2 /\ w_open w2 = w_open w1.
Proof.
  intros Hoff Hopen Hrest.
  split.
  - unfold cmdDataConnFrom, mbind, M_bind. rewrite Hopen.
    destruct (Z.eqb_spec offset 0) as [E|E]; [contradiction|].
    simpl. rewrite Hrest. reflexivity.
  - destruct (cmd_done StatusRequestFilePending ("REST " +:+ Itoa offset) w1)
      as (code' & msg' & err' & w' & Hc & Ho).
    rewrite Hrest in Hc. injection Hc as _ _ _ <-. exact Ho.
Qed.

(** ** Strings *)

Lemma str_app_cons (x : ascii) (a b : string) :
  String x a +:+ b = String x (a +:+ b).
Proof. reflexivity. Qed.

Lemma str_app_nil_l (a : string) : EmptyString +:+ a = a.
Proof. reflexivity. Qed.

Lemma str_app_byte (x : ascii) (a : string) : String x EmptyString +:+ a = String x a.
Proof. reflexivity. Qed.

Lemma str_app_assoc (a b c : string) : (a +:+ b) +:+ c = a +:+ (b +:+ c).
Proof.
  induction a as [|x a IH]; [reflexivity|].
  rewrite !str_app_cons. f_equal. exact IH.
Qed.

Lemma str_app_nil_r (a : string) : a +:+ EmptyString = a.
Proof.
  induction a as [|x a IH]; [reflexivity|].
  rewrite str_app_cons. f_equal. exact IH.
Qed.

Lemma str_length_app (a b : string) :
  String.length (a +:+ b) = (String.length a + String.length b)%nat.
Proof.
  induction a as [|x a IH]; [reflexivity|].
  rewrite str_app_cons. simpl. f_equal. exact IH.
Qed.

Lemma str_drop_app (a b : string) : str_drop (String.length a) (a +:+ b) = b.
Proof.
  induction a as [|x a IH]; [reflexivity|].
  rewrite str_app_cons. simpl. exact IH.
Qed.

Lemma str_take_app (a b : string) : str_take (String.length a) (a +:+ b) = a.
Proof.
  induction a as [|x a IH]; [now destruct b|].
  rewrite str_app_cons. simpl. f_equal. exact IH.
Qed.

Lemma prefix_byte (c d : ascii) (s : string) :
  String.prefix (String c EmptyString) (String d s) = Ascii.eqb c d.
Proof.
  simpl. destruct (ascii_dec c d) as [->|Hne].
  - rewrite Ascii.eqb_refl. now destruct s.
  - symmetry. now apply Ascii.eqb_neq.
Qed.

Lemma mem_byte_app (c : ascii) (a b : string) :
  mem_byte c (a +:+ b) = mem_byte c a || mem_byte c b.
Proof.
  induction a as [|x a IH]; [reflexivity|].
  rewrite str_app_cons. simpl. rewrite IH. now rewrite orb_assoc.
Qed.

Lemma index_first_byte (c : ascii) (s : string) :
  index_first (String c EmptyString) s = None <-> mem_byte c s = false.
Proof.
  induction s as [|d s IH].
  - simpl. split; reflexivity.
  - cbn [index_first mem_byte]. rewrite prefix_byte.
    destruct (Ascii.eqb c d); simpl; [split; discriminate|].
    rewrite <- IH. destruct (index_first (String c EmptyString) s); simpl; split;
      congruence.
Qed.

Lemma index_first_app (c : ascii) (a b : string) :
  mem_byte c a = false ->
  index_first (String c EmptyString) (a +:+ String c b) = Some (String.length a).
Proof.
  induction a as [|d a IH]; intros Ha.
  - rewrite str_app_nil_l. cbn [index_first]. rewrite prefix_byte, Ascii.eqb_refl.
    reflexivity.
  - cbn [mem_byte] in Ha. apply orb_false_iff in Ha as [Hd Ha].
    rewrite str_app_cons. cbn [index_first]. rewrite prefix_byte, Hd, (IH Ha).
    reflexivity.
Qed.

Lemma index_last_byte (c : ascii) (s : string) :
  index_last (String c EmptyString) s = None <-> mem_byte c s = false.
Proof.
  induction s as [|d s IH].
  - simpl. split; reflexivity.
  - cbn [index_last mem_byte]. rewrite prefix_byte.
    destruct (index_last (String c EmptyString) s) as [i|].
    + split; [discriminate|]. intros H. apply orb_false_iff in H as [_ H].
      apply IH in H. discriminate.
    + destruct IH as [IH _]. rewrite (IH eq_refl), orb_false_r.
      destruct (Ascii.eqb c d); split; congruence.
Qed.

Lemma index_last_app (c : ascii) (a b : string) :
  mem_byte c b = false ->
  index_last (String c EmptyString) (a +:+ String c b) = Some (String.length a).
Proof.
  intros Hb. apply index_last_byte in Hb.
  induction a as [|d a IH].
  - rewrite str_app_nil_l. cbn [index_last]. rewrite Hb, prefix_byte, Ascii.eqb_refl.
    reflexivity.
  - rewrite str_app_cons. cbn [index_last]. rewrite IH. reflexivity.
Qed.

Lemma Contains_byte (c : ascii) (s : string) :
  Contains s (String c EmptyString) = false <-> mem_byte c s = false.
Proof.
  rewrite <- index_first_byte. unfold Contains, Index.
  destruct (index_first (String c EmptyString) s) as [i|]; simpl.
  - split; [|discriminate]. intros H. apply Z.leb_gt in H. lia.
  - split; reflexivity.
Qed.

Lemma Index_absent (c : ascii) (s : string) :
  Contains s (String c EmptyString) = false -> Index s (String c EmptyString) = -1.
Proof.
  intros H. apply Contains_byte, index_first_byte in H. unfold Index. now rewrite H.
Qed.

Lemma LastIndex_absent (c : ascii) (s : string) :
  Contains s (String c EmptyString) = false -> LastIndex s (String c EmptyString) = -1.
Proof.
  intros H. apply Contains_byte, index_last_byte in H. unfold LastIndex. now rewrite H.
Qed.

Lemma slice_app (a b c : string) :
  slice (a +:+ b +:+ c) (len a) (len a + len b) = Ret b.
Proof.
  unfold slice, len. rewrite !str_length_app.
  destruct (Z.leb_spec 0 (Z.of_nat (String.length a))); [|lia].
  destruct (Z.leb_spec (Z.of_nat (String.length a))
                       (Z.of_nat (String.length a) + Z.of_nat (String.length b))); [|lia].
  destruct (Z.leb_spec (Z.of_nat (String.length a) + Z.of_nat (String.length b))
              (Z.of_nat (String.length a + (String.length b + String.length c)))); [|lia].
  simpl. rewrite Nat2Z.id, str_drop_app.
  replace (Z.to_nat (Z.of_nat (String.length a) + Z.of_nat (String.length b)
                     - Z.of_nat (String.length a))) with (String.length b) by lia.
  now rewrite str_take_app.
Qed.

Lemma split_byte_absent (c : ascii) (cur s : string) :
  mem_byte c s = false -> split_go (String c EmptyString) O cur s = [cur +:+ s].
Proof.
  revert cur. induction s as [|d s IH]; intros cur Hs.
  - simpl. now rewrite str_app_nil_r.
  - cbn [mem_byte] in Hs. apply orb_false_iff in Hs as [Hd Hs].
    cbn [split_go]. rewrite prefix_byte, Hd, (IH _ Hs), str_app_assoc. reflexivity.
Qed.

Lemma split_byte_app (c : ascii) (cur a b : string) :
  mem_byte c a = false ->
  split_go (String c EmptyString) O cur (a +:+ String c b)
  = (cur +:+ a) :: split_go (String c EmptyString) O EmptyString b.
Proof.
  revert cur. induction a as [|d a IH]; intros cur Ha.
  - rewrite str_app_nil_l. cbn [split_go].
    rewrite prefix_byte, Ascii.eqb_refl, str_app_nil_r. reflexivity.
  - cbn [mem_byte] in Ha. apply orb_false_iff in Ha as [Hd Ha].
    rewrite str_app_cons. cbn [split_go].
    rewrite prefix_byte, Hd, (IH _ Ha), str_app_assoc. reflexivity.
Qed.

Lemma Split_cons (c : ascii) (a b : string) :
  Contains a (String c EmptyString) = false ->
  Split (a +:+ String c b) (String c EmptyString) = a :: Split b (String c EmptyString).
Proof. intros H. apply Contains_byte in H. unfold Split. now rewrite split_byte_app. Qed.

Lemma Split_last (c : ascii) (a : string) :
  Contains a (String c EmptyString) = false -> Split a (String c EmptyString) = [a].
Proof. intros H. apply Contains_byte in H. unfold Split. now rewrite split_byte_absent. Qed.

Lemma split_go_nonempty (sep : string) (skip : nat) (cur s : string) :
  split_go sep skip cur s <> [].
Proof.
  revert skip cur. induction s as [|d s IH]; intros skip cur; [simpl; congruence|].
  cbn [split_go]. destruct skip; [|apply IH].
  destruct (String.prefix sep (String d s)); [congruence | apply IH].
Qed.

(** ** The PASV reply *)

Lemma digits_value_bytes (c : ascii) (s : string) (acc v : Z) :
  is_digit c = false -> digits_value acc s = Some v -> mem_byte c s = false.
Proof.
  intros Hc. revert acc. induction s as [|d s IH]; intros acc H; [reflexivity|].
  cbn [digits_value] in H. destruct (is_digit d) eqn:Hd; [|discriminate].
  cbn [mem_byte]. rewrite (IH _ H), orb_false_r.
  apply Ascii.eqb_neq. intros ->. congruence.
Qed.

Lemma parse_digits_bytes (c : ascii) (s : string) (v : Z) :
  is_digit c = false -> parse_digits s = Some v -> mem_byte c s = false.
Proof.
  intros Hc H. destruct s as [|d s]; [reflexivity|].
  exact (digits_value_bytes c _ _ _ Hc H).
Qed.

Lemma Atoi_ok_bytes (c : ascii) (s : string) (v : Z) :
  is_digit c = false -> Ascii.eqb c "-" = false -> Ascii.eqb c "+" = false ->
  Atoi s = (v, None) -> mem_byte c s = false.
Proof.
  intros Hc Hm Hp H. unfold Atoi in H.
  destruct (strip_sign s) as [neg ds] eqn:Hs.
  destruct (parse_digits ds) as [n|] eqn:Hd; [|discriminate].
  pose proof (parse_digits_bytes c ds n Hc Hd) as Hds.
  clear H. destruct s as [|d s]; [reflexivity|].
  cbn [strip_sign] in Hs. cbn [mem_byte].
  destruct (Ascii.eqb d "-") eqn:E1.
  { apply Ascii.eqb_eq in E1. subst d. injection Hs as _ <-. now rewrite Hm, Hds. }
  destruct (Ascii.eqb d "+") eqn:E2.
  { apply Ascii.eqb_eq in E2. subst d. injection Hs as _ <-. now rewrite Hp, Hds. }
  injection Hs as _ <-. exact Hds.
Qed.

Lemma Atoi_ok_no_comma (s : string) (v : Z) :
  Atoi s = (v, None) -> Contains s "," = false.
Proof. intros H. apply Contains_byte. now apply (Atoi_ok_bytes _ s v). Qed.

Lemma Split_sextet (h1 h2 h3 h4 p1 p2 : string) :
  Contains h1 "," = false -> Contains h2 "," = false ->
  Contains h3 "," = false -> Contains h4 "," = false ->
  Contains p1 "," = false -> Contains p2 "," = false ->
  Split (sextet h1 h2 h3 h4 p1 p2) "," = [h1; h2; h3; h4; p1; p2].
Proof.
  intros H1 H2 H3 H4 H5 H6. unfold sextet.
  rewrite !str_app_byte, !Split_cons by assumption. now rewrite Split_last.
Qed.

Lemma pasv_line_parentheses (pre six post : string) :
  Contains pre "(" = false -> Contains post ")" = false ->
  Index (pasv_line pre six post) "(" = len pre
  /\ LastIndex (pasv_line pre six post) ")" = len pre + 1 + len six
  /\ slice (pasv_line pre six post) (len pre + 1) (len pre + 1 + len six) = Ret six.
Proof.
  intros Hpre Hpost. apply Contains_byte in Hpre. apply Contains_byte in Hpost.
  unfold pasv_line. repeat split.
  - rewrite str_app_byte. unfold Index. now rewrite index_first_app.
  - rewrite (str_app_byte ")" post), <- !str_app_assoc. unfold LastIndex. rewrite index_last_app by assumption.
    simpl. unfold len. rewrite !str_length_app. simpl. lia.
  - rewrite <- (str_app_assoc pre "(").
    replace (len pre + 1) with (len (pre +:+ "(")).
    + apply slice_app.
    + unfold len. rewrite str_length_app. simpl. lia.
Qed.

Lemma pasv_port_sextet (pre h1 h2 h3 h4 p1 p2 post : string) (a b : Z) :
  Contains pre "(" = false -> Contains post ")" = false ->
  Contains h1 "," = false -> Contains h2 "," = false ->
  Contains h3 "," = false -> Contains h4 "," = false ->
  Atoi p1 = (a, None) -> Atoi p2 = (b, None) ->
  pasv_port (pasv_line pre (sextet h1 h2 h3 h4 p1 p2) post)
  = Ret (int_wrap (a * 256 + b), None).
Proof.
  intros Hpre Hpost H1 H2 H3 H4 Ha Hb.
  destruct (pasv_line_parentheses pre (sextet h1 h2 h3 h4 p1 p2) post Hpre Hpost)
    as (Hs & He & Hsl).
  unfold pasv_port. rewrite Hs, He.
  assert (0 <= len pre) by (unfold len; lia).
  assert (0 <= len (sextet h1 h2 h3 h4 p1 p2)) by (unfold len; lia).
  destruct (Z.eqb_spec (len pre) (-1)); [lia|].
  destruct (Z.eqb_spec (len pre + 1 + len (sextet h1 h2 h3 h4 p1 p2)) (-1)); [lia|].
  cbn [orb]. rewrite Hsl. cbn [mbind outcome_bind obind].
  rewrite Split_sextet by eauto using Atoi_ok_no_comma.
  change (elem_at [h1; h2; h3; h4; p1; p2] 4) with (Ret p1).
  change (elem_at [h1; h2; h3; h4; p1; p2] 5) with (Ret p2).
  cbn [mbind outcome_bind obind]. rewrite Ha. cbn [mbind outcome_bind obind].
  rewrite Hb. reflexivity.
Qed.

Lemma pasv_port_no_parenthesis (line : string) :
  Contains line "(" = false \/ Contains line ")" = false ->
  pasv_port line = Ret (0, Some (ErrorString "invalid EPSV response format")).
Proof.
  intros H. unfold pasv_port.
  destruct H as [H|H].
  - rewrite (Index_absent _ _ H). reflexivity.
  - rewrite (LastIndex_absent _ _ H), Z.eqb_refl, orb_true_r. reflexivity.
Qed.

Lemma int_wrap_small (z : Z) : int_min <= z <= int_max -> int_wrap z = z.
Proof.
  unfold int_min, int_max, int_wrap. intros H.
  rewrite Z.mod_small; lia.
Qed.

Lemma cmd_reply (expected : Z) (line : string) (w : World)
  (code : Z) (continued : bool) (msg : string) (rs : list reply) :
  write_succeeds w ->
  w_replies w = Reply code continued msg :: rs ->
  exists w',
    cmd expected line w
    = Done (code, msg,
            if code_mismatch expected code then Some (TextprotoError code msg) else None) w'
    /\ w_replies w' = rs
    /\ w_trace w' = w_trace w ++ [EvCmd line; EvReadResponse expected].
Proof.
  intros Hw Hr. unfold write_succeeds in Hw.
  unfold cmd, mbind, M_bind, conn_Cmd, conn_ReadResponse, next_reply. simpl.
  destruct (w_writes w) as [|[e|] ws]; [|contradiction|]; simpl; rewrite Hr;
    eexists; (split; [reflexivity|]); simpl; rewrite <- app_assoc; split; reflexivity.
Qed.

(** C2, amended.  When the first opening and the last closing parenthesis of
    a PASV reply enclose six comma-separated fields whose last two are
    numbers, [pasv] returns the port [p1*256+p2], computed in Go's [int]
    (exactly [p1*256+p2] when that fits); when the reply has no opening or
    no closing parenthesis, [pasv] returns the format error and the port 0. *)
Theorem pasv_reply_port (w : World) (code : Z) (continued : bool) (line : string)
  (rs : list reply) :
  write_succeeds w ->
  w_replies w = Reply code continued line :: rs ->
  code_mismatch StatusPassiveMode code = false ->
  (forall pre h1 h2 h3 h4 p1 p2 post a b,
      line = pasv_line pre (sextet h1 h2 h3 h4 p1 p2) post ->
      Contains pre "(" = false -> Contains post ")" = false ->
      Contains h1 "," = false -> Contains h2 "," = false ->
      Contains h3 "," = false -> Contains h4 "," = false ->
      Atoi p1 = (a, None) -> Atoi p2 = (b, None) ->
      exists w',
        pasv w = Done (int_wrap (a * 256 + b), None) w'
        /\ (int_min <= a * 256 + b <= int_max -> int_wrap (a * 256 + b) = a * 256 + b))
  /\ (Contains line "(" = false \/ Contains line ")" = false ->
      exists w',
        pasv w = Done (0, Some (ErrorString "invalid EPSV response format")) w').
Proof.
  intros Hw Hr Hcode.
  destruct (cmd_reply StatusPassiveMode "PASV" w code continued line rs Hw Hr)
    as (w' & Hcmd & _ & _).
  rewrite Hcode in Hcmd.
  split.
  - intros pre h1 h2 h3 h4 p1 p2 post a b -> Hpre Hpost H1 H2 H3 H4 Ha Hb.
    exists w'. split; [|apply int_wrap_small].
    unfold pasv, mbind at 1, M_bind. rewrite Hcmd. unfold lift.
    now rewrite (pasv_port_sextet pre h1 h2 h3 h4 p1 p2 post a b).
  - intros Hno. exists w'.
    unfold pasv, mbind at 1, M_bind. rewrite Hcmd. unfold lift.
    now rewrite (pasv_port_no_parenthesis line Hno).
Qed.

(** C8, amended.  On a reply with both parentheses, the parsing step of
    [pasv] faults exactly in these cases: the slice between the parentheses
    is out of range; it has fewer than five comma-separated fields (index 4
    is out of range); it has five and the fifth is a number (index 5 is out
    of range).  With five fields of which the fifth is not a number the
    error of [Atoi] is returned before index 5 is read, and with six or more
    fields nothing faults. *)
Theorem pasv_port_faults (line : string) :
  Index line "(" <> -1 -> LastIndex line ")" <> -1 ->
  match slice line (Index line "(" + 1) (LastIndex line ")") with
  | Panic p => pasv_port line = Panic p
  | Ret s =>
      let pasvData := Split s "," in
      let n := Z.of_nat (length pasvData) in
      (n < 5 -> pasv_port line = Panic (IndexOutOfRange 4 n))
      /\ (n = 5 ->
          forall f4, pasvData !! 4%nat = Some f4 ->
            match Atoi f4 with
            | (_, None) => pasv_port line = Panic (IndexOutOfRange 5 5)
            | (_, Some e) => pasv_port line = Ret (0, Some e)
            end)
      /\ (6 <= n -> exists r, pasv_port line = Ret r)
  end.
Proof.
  intros Hs He. unfold pasv_port.
  destruct (Z.eqb_spec (Index line "(") (-1)); [contradiction|].
  destruct (Z.eqb_spec (LastIndex line ")") (-1)); [contradiction|].
  cbn [orb].
  destruct (slice line (Index line "(" + 1) (LastIndex line ")")) as [s|p];
    [|reflexivity].
  cbn [mbind outcome_bind obind].
  destruct (Split s ",") as [|x0 [|x1 [|x2 [|x3 [|x4 [|x5 rest]]]]]];
    cbn [length]; (split; [|split]); try (intros; lia); try (intros _; reflexivity).
  - intros _ f4 [= <-].
    change (elem_at [x0; x1; x2; x3; x4] 4) with (Ret x4).
    cbn [mbind outcome_bind obind].
    destruct (Atoi x4) as [v [e|]]; reflexivity.
  - intros _.
    change (elem_at (x0 :: x1 :: x2 :: x3 :: x4 :: x5 :: rest) 4) with (Ret x4).
    change (elem_at (x0 :: x1 :: x2 :: x3 :: x4 :: x5 :: rest) 5) with (Ret x5).
    cbn [mbind outcome_bind obind].
    destruct (Atoi x4) as [v [e|]]; [eauto|].
    cbn [mbind outcome_bind obind].
    destruct (Atoi x5) as [v' [e|]]; eauto.
Qed.

(** ** The MLSD/MLST parser *)

Lemma mlist_items_init (c : ServerConn) (n : Z) (init : list string) (final : string) :
  forall (idx : Z) (e : EntryEx),
    n = idx + Z.of_nat (length init) + 1 ->
    mlist_items c n idx (init ++ [final]) e
    = with_final_field c final
        (mkEntryEx (name e) (foldl add_fact (Facts e) (omap fact_of init))).
Proof.
  induction init as [|item init IH]; intros idx e Hn.
  - simpl in Hn. cbn [app mlist_items omap list_omap foldl].
    destruct (Z.eqb_spec idx (n - 1)) as [E|E]; [|lia].
    unfold with_final_field. destruct e. now destruct (HasPrefix final " ").
  - rewrite <- app_comm_cons. cbn [mlist_items]. cbn [length] in Hn.
    destruct (Z.eqb_spec idx (n - 1)) as [E|E]; [lia|].
    cbn [omap list_omap].
    pose proof (eq_refl : fact_of item = match Split item "=" with
                                         | [k; v] => Some (ToLower k, v)
                                         | _ => None
                                         end) as Hf.
    destruct (Split item "=") as [|k [|v [|x rest]]];
      rewrite Hf, IH by lia; reflexivity.
Qed.

Lemma parseMListLine_fields (c : ServerConn) (line : string) (init : list string)
  (final : string) :
  Split (Trim line mlist_cutset) ";" = init ++ [final] ->
  parseMListLine c line
  = if HasPrefix final " "
    then (mkEntryEx (fromServerEncoding c (str_drop 1 final)) (facts_of init), None)
    else (mkEntryEx EmptyString (facts_of init),
          Some (ErrorString ("invalid filename " +:+ final))).
Proof.
  intros H. unfold parseMListLine. rewrite H.
  rewrite (mlist_items_init c _ init final 0) by (rewrite length_app; simpl; lia).
  unfold with_final_field. destruct (HasPrefix final " "); reflexivity.
Qed.


Lemma facts_of_stored (pre post : list string) (item k v : string) :
  Split item "=" = [k; v] ->
  facts_of (pre ++ item :: post)
  = foldl add_fact (<[ToLower k := v]> (facts_of pre)) (omap fact_of post).
Proof.
  intros H. unfold facts_of. rewrite omap_app, foldl_app. cbn [omap list_omap].
  replace (fact_of item) with (Some (ToLower k, v)) by (unfold fact_of; now rewrite H).
  reflexivity.
Qed.


(** ** The transcoder *)

Lemma in_latin1 (r : rune) : 0 <= r <= 0xFF -> In r latin1.
Proof.
  intros H. unfold latin1. apply in_map_iff. exists (Z.to_nat r).
  split; [lia|]. apply in_seq. lia.
Qed.

Lemma decodes_to_step (s : string) (r : rune) :
  decodes_to s r = true ->
  forall rest,
    utf8_to_iso_go O (s +:+ rest) = String (iso_byte r) (utf8_to_iso_go O rest).
Proof.
  intros H rest.
  destruct s as [|c0 [|c1 [|c2 [|c3 s]]]]; try discriminate H; cbn [decodes_to] in H.
  - apply andb_true_iff in H as [H0 Hr]. apply Z.eqb_eq in Hr. subst r.
    rewrite str_app_byte. cbn [utf8_to_iso_go DecodeRuneInString]. now rewrite H0.
  - apply andb_true_iff in H as [H0 H]. apply negb_true_iff in H0.
    destruct (first (byte_val c0)) as [[[sz lo] hi]|] eqn:Hf; [|discriminate].
    destruct sz as [|[|[|sz]]]; try discriminate.
    apply andb_true_iff in H as [H Hr]. apply andb_true_iff in H as [Hlo Hhi].
    apply Z.eqb_eq in Hr. subst r.
    rewrite !str_app_cons, str_app_nil_l.
    cbn [utf8_to_iso_go DecodeRuneInString]. rewrite H0, Hf.
    cbn [String.length Nat.ltb Nat.leb].
    destruct (Z.ltb_spec (byte_val c1) lo); [lia|].
    destruct (Z.ltb_spec hi (byte_val c1)); [lia|].
    reflexivity.
  - apply andb_true_iff in H as [H0 H]. apply negb_true_iff in H0.
    destruct (first (byte_val c0)) as [[[sz lo] hi]|] eqn:Hf; [|discriminate].
    destruct sz as [|[|[|[|sz]]]]; try discriminate.
    apply andb_true_iff in H as [H Hr]. apply andb_true_iff in H as [H Hc].
    apply andb_true_iff in H as [Hlo Hhi].
    apply Z.eqb_eq in Hr. subst r.
    rewrite !str_app_cons, str_app_nil_l.
    cbn [utf8_to_iso_go DecodeRuneInString]. rewrite H0, Hf.
    cbn [String.length Nat.ltb Nat.leb].
    destruct (Z.ltb_spec (byte_val c1) lo); [lia|].
    destruct (Z.ltb_spec hi (byte_val c1)); [lia|].
    rewrite Hc. reflexivity.
Qed.

Lemma EncodeRune_decodes (r : rune) :
  0 <= r <= 0xFF \/ In r latin9_added -> decodes_to (EncodeRune r) r = true.
Proof.
  assert (H : forallb (fun r => decodes_to (EncodeRune r) r) (latin1 ++ latin9_added) = true)
    by (vm_compute; reflexivity).
  rewrite forallb_forall in H. intros [Hr|Hr]; apply H, in_or_app.
  - left. now apply in_latin1.
  - now right.
Qed.

Lemma iso_byte_latin1 (r : rune) : 0 <= r <= 0xFF -> iso_byte r = byte_of r.
Proof.
  assert (H : forallb (fun r => Ascii.eqb (iso_byte r) (byte_of r)) latin1 = true)
    by (vm_compute; reflexivity).
  rewrite forallb_forall in H. intros Hr. apply Ascii.eqb_eq, H. now apply in_latin1.
Qed.

Lemma in_ISO8859_15_cases (r : rune) :
  in_ISO8859_15 r = true ->
  (0 <= r <= 0xFF /\ existsb (Z.eqb r) latin1_replaced = false) \/ In r latin9_added.
Proof.
  unfold in_ISO8859_15. intros H. apply orb_true_iff in H as [H|H].
  - left. apply andb_true_iff in H as [H Hn]. apply andb_true_iff in H as [H1 H2].
    apply negb_true_iff in Hn. split; [lia | exact Hn].
  - right. apply existsb_exists in H as (x & Hx & E). apply Z.eqb_eq in E. now subst.
Qed.

Lemma utf8_step (r : rune) :
  in_ISO8859_15 r = true ->
  forall rest,
    utf8_to_iso_go O (EncodeRune r +:+ rest) = String (iso_byte r) (utf8_to_iso_go O rest).
Proof.
  intros H. apply decodes_to_step, EncodeRune_decodes.
  destruct (in_ISO8859_15_cases r H) as [[Hr _]|Hr]; [now left | now right].
Qed.

Lemma iso_rune_iso_byte (r : rune) :
  in_ISO8859_15 r = true -> iso_rune (byte_val (iso_byte r)) = r.
Proof.
  assert (H : forallb (fun r => negb (in_ISO8859_15 r)
                                || (iso_rune (byte_val (iso_byte r)) =? r))
                      (latin1 ++ latin9_added) = true)
    by (vm_compute; reflexivity).
  rewrite forallb_forall in H. intros Hr.
  assert (Hin : In r (latin1 ++ latin9_added)).
  { apply in_or_app.
    destruct (in_ISO8859_15_cases r Hr) as [[Hb _]|Hb]; [left; now apply in_latin1 | now right]. }
  specialize (H r Hin). rewrite Hr in H. now apply Z.eqb_eq in H.
Qed.

Lemma UTF8ToISO8859_15_cons (r : rune) (u : list rune) :
  in_ISO8859_15 r = true ->
  UTF8ToISO8859_15 (string_of_runes (r :: u))
  = String (iso_byte r) (UTF8ToISO8859_15 (string_of_runes u)).
Proof. intros H. unfold UTF8ToISO8859_15. cbn [string_of_runes]. now apply utf8_step. Qed.

Lemma ISO8859_15ToUTF8_cons (b : ascii) (s : string) :
  ISO8859_15ToUTF8 (String b s) = EncodeRune (iso_rune (byte_val b)) +:+ ISO8859_15ToUTF8 s.
Proof. reflexivity. Qed.

Lemma transcode_there_and_back (u : list rune) :
  Forall (fun r => in_ISO8859_15 r = true) u ->
  ISO8859_15ToUTF8 (UTF8ToISO8859_15 (string_of_runes u)) = string_of_runes u.
Proof.
  induction 1 as [|r u Hr Hu IH]; [reflexivity|].
  rewrite UTF8ToISO8859_15_cons, ISO8859_15ToUTF8_cons, iso_rune_iso_byte, IH by assumption.
  reflexivity.
Qed.

Lemma UTF8ToISO8859_15_latin1 (u : list rune) :
  Forall (fun r => 0 <= r <= 0xFF) u ->
  UTF8ToISO8859_15 (string_of_runes u) = bytes u.
Proof.
  induction 1 as [|r u Hr Hu IH]; [reflexivity|].
  unfold UTF8ToISO8859_15 in *. cbn [string_of_runes bytes fold_right].
  rewrite (decodes_to_step _ r) by (apply EncodeRune_decodes; now left).
  rewrite iso_byte_latin1 by assumption. f_equal. exact IH.
Qed.

Lemma iso_rune_unmapped (c : ascii) :
  ~ In (byte_val c) latin1_replaced -> iso_rune (byte_val c) = byte_val c.
Proof.
  destruct c as [[] [] [] [] [] [] [] []]; vm_compute; intros H;
    try reflexivity; exfalso; apply H; simpl; auto 10.
Qed.

Lemma ISO8859_15ToUTF8_unmapped (s : string) :
  Forall (fun b => ~ In b latin1_replaced) (string_bytes s) ->
  ISO8859_15ToUTF8 s = string_of_runes (string_bytes s).
Proof.
  unfold ISO8859_15ToUTF8, string_bytes. intros H. f_equal.
  induction s as [|c s IH]; [reflexivity|].
  cbn [list_ascii_of_string map] in H. inversion H as [|? ? Hc Hs]; subst.
  cbn [iso_runes list_ascii_of_string map]. now rewrite iso_rune_unmapped, IH.
Qed.

(** C7.  On a session without the UTF8 feature and with translation enabled,
    [toServerEncoding] is [UTF8ToISO8859_15] and [fromServerEncoding] is
    [ISO8859_15ToUTF8]; a string of characters of ISO-8859-15 survives the
    trip to the server encoding and back.  A character that is not one of
    the eight added ones is sent as the byte of its code point, and a byte
    that is not one of the eight replaced ones is received as the character
    of that code point. *)
Theorem transcoder_round_trip (c : ServerConn) (u : list rune) :
  has_feature c "UTF8" = false ->
  TranslateEncoding c = true ->
  Forall (fun r => in_ISO8859_15 r = true) u ->
  toServerEncoding c (string_of_runes u) = UTF8ToISO8859_15 (string_of_runes u)
  /\ fromServerEncoding c (toServerEncoding c (string_of_runes u)) = string_of_runes u
  /\ (Forall (fun r => ~ In r latin9_added) u ->
      toServerEncoding c (string_of_runes u) = bytes u)
  /\ (forall s,
         Forall (fun b => ~ In b latin1_replaced) (string_bytes s) ->
         fromServerEncoding c s = ISO8859_15ToUTF8 s
         /\ ISO8859_15ToUTF8 s = string_of_runes (string_bytes s)).
Proof.
  intros Hf Ht Hu.
  assert (Hto : forall s, toServerEncoding c s = UTF8ToISO8859_15 s)
    by (intros s; unfold toServerEncoding; now rewrite Hf, Ht).
  assert (Hfrom : forall s, fromServerEncoding c s = ISO8859_15ToUTF8 s)
    by (intros s; unfold fromServerEncoding; now rewrite Hf, Ht).
  split; [apply Hto|]. split; [|split].
  - rewrite Hto, Hfrom. now apply transcode_there_and_back.
  - intros Hn. rewrite Hto. apply UTF8ToISO8859_15_latin1.
    rewrite Forall_forall in *. intros r Hr.
    destruct (in_ISO8859_15_cases r (Hu r Hr)) as [[H _]|H]; [exact H|].
    now destruct (Hn r Hr).
  - intros s Hs. split; [apply Hfrom | now apply ISO8859_15ToUTF8_unmapped].
Qed.

(** ** The fields of a LIST line *)

Lemma clean_app (a b : string) : clean a -> clean b -> clean (a +:+ b).
Proof. unfold clean. intros Ha Hb. now rewrite mem_byte_app, Ha, Hb. Qed.

Lemma clean_byte (c : ascii) : c <> " "%char -> clean (String c EmptyString).
Proof.
  intros H. unfold clean. cbn [mem_byte]. rewrite orb_false_r.
  apply Ascii.eqb_neq. congruence.
Qed.

Lemma flush_fields (cur : string) : clean cur -> Forall is_field (flush cur).
Proof.
  intros H. destruct cur; constructor; [|constructor]. split; [discriminate | exact H].
Qed.

Lemma first_lo (s0 : Z) (sz : nat) (lo hi : Z) :
  first s0 = Some (sz, lo, hi) -> 0x80 <= lo.
Proof.
  unfold first.
  repeat match goal with
         | |- context [if ?b then _ else _] => destruct b
         end; intros [= <- <- <-] || discriminate; lia.
Qed.

Lemma not_space_byte (c : ascii) : 0x80 <= byte_val c -> c <> " "%char.
Proof. intros H ->. vm_compute in H. now apply H. Qed.

Lemma is_cont_not_space (c : ascii) : is_cont (byte_val c) = true -> c <> " "%char.
Proof. unfold is_cont. intros H. apply not_space_byte. lia. Qed.

Lemma decode_lead_clean (c : ascii) (s : string) :
  lead_clean ((DecodeRuneInString (String c s)).2 - 1) s.
Proof.
  cbn [DecodeRuneInString].
  destruct (byte_val c <? 0x80); [exact I|].
  destruct (first (byte_val c)) as [[[sz lo] hi]|] eqn:Hf; [|exact I].
  apply first_lo in Hf.
  destruct (String.length (String c s) <? sz)%nat; [exact I|].
  destruct s as [|c1 s1]; [exact I|].
  destruct (Z.ltb_spec (byte_val c1) lo); [exact I|].
  destruct (Z.ltb_spec hi (byte_val c1)); [exact I|]. cbn [orb].
  assert (H1 : c1 <> " "%char) by (apply not_space_byte; lia).
  destruct (sz <=? 2)%nat; [now split|].
  destruct s1 as [|c2 s2]; [exact I|].
  destruct (is_cont (byte_val c2)) eqn:H2; [|exact I]. cbn [negb].
  apply is_cont_not_space in H2.
  destruct (sz <=? 3)%nat; [now repeat split|].
  destruct s2 as [|c3 s3]; [exact I|].
  destruct (is_cont (byte_val c3)) eqn:H3; [|exact I]. cbn [negb].
  apply is_cont_not_space in H3. now repeat split.
Qed.

Lemma decode_space (s : string) : (DecodeRuneInString (String " " s)).1 = 0x20.
Proof. reflexivity. Qed.

Lemma fields_go_fields (s : string) :
  forall skip keep cur,
    clean cur -> lead_clean skip s -> Forall is_field (fields_go skip keep cur s).
Proof.
  induction s as [|c s IH]; intros skip keep cur Hcur Hlead.
  - now apply flush_fields.
  - cbn [fields_go]. destruct skip as [|k].
    + pose proof (decode_lead_clean c s) as Hd.
      destruct (DecodeRuneInString (String c s)) as [r w] eqn:E. cbn [snd] in Hd.
      destruct (IsSpace r) eqn:Hsp.
      * apply Forall_app. split; [now apply flush_fields | now apply IH].
      * apply IH; [|exact Hd]. apply clean_app; [exact Hcur|].
        apply clean_byte. intros ->.
        pose proof (decode_space s) as Hr. rewrite E in Hr. cbn [fst] in Hr.
        subst r. discriminate.
    + destruct Hlead as [Hc Hlead]. apply IH; [|exact Hlead].
      destruct keep; [|exact Hcur]. apply clean_app; [exact Hcur | now apply clean_byte].
Qed.

Lemma Fields_fields (line : string) : Forall is_field (Fields line).
Proof. apply fields_go_fields; [reflexivity | exact I]. Qed.

Lemma elem_at_lookup (l : list string) (i : nat) (x : string) :
  l !! i = Some x -> elem_at l (Z.of_nat i) = Ret x.
Proof.
  intros H. unfold elem_at. destruct (Z.leb_spec 0 (Z.of_nat i)); [|lia].
  now rewrite Nat2Z.id, H.
Qed.

Lemma byte_at_field (f : string) : f <> EmptyString -> exists b, byte_at f 0 = Ret b.
Proof. destruct f as [|b f]; [congruence|]. intros _. now exists b. Qed.

(** ** The date of a LIST line *)

Lemma clean_cons (c : ascii) (s : string) :
  clean (String c s) <-> c <> " "%char /\ clean s.
Proof.
  unfold clean. cbn [mem_byte]. rewrite orb_false_iff, Ascii.eqb_neq.
  split; intros [H1 H2]; split; congruence.
Qed.

Lemma time_match_clean (s1 s2 : string) :
  time_match s1 s2 = true -> clean s2 -> clean s1.
Proof.
  revert s2. induction s1 as [|c1 t1 IH]; intros s2 H Hs2; [reflexivity|].
  destruct s2 as [|c2 t2]; [discriminate|].
  cbn [time_match] in H. apply andb_true_iff in H as [Hc Ht].
  apply clean_cons in Hs2 as [Hc2 Ht2]. apply clean_cons. split; [|now apply (IH t2)].
  intros ->. apply orb_true_iff in Hc as [Hc|Hc].
  - apply Ascii.eqb_eq in Hc. congruence.
  - cbv zeta in Hc.
    replace (0x61 <=? Z.lor (byte_val " ") 0x20) with false in Hc by reflexivity.
    now rewrite andb_false_r in Hc.
Qed.

Lemma time_lookup_inv (tab : list string) (i : Z) (val : string) (m : Z) (v : string) :
  time_lookup tab i val = Some (m, v) ->
  exists name,
    In name tab
    /\ time_match (str_take (String.length name) val) name = true
    /\ v = str_drop (String.length name) val
    /\ nth_error tab (Z.to_nat (m - i)) = Some name
    /\ i <= m.
Proof.
  revert i. induction tab as [|name tab IH]; intros i H; [discriminate|].
  cbn [time_lookup] in H.
  destruct ((String.length name <=? String.length val)%nat
            && time_match (str_take (String.length name) val) name) eqn:E.
  - injection H as <- <-. apply andb_true_iff in E as [_ E].
    exists name. rewrite Z.sub_diag. repeat split; [now left | exact E | lia].
  - destruct (IH _ H) as (n & Hin & Hm & Hv & Hnth & Hle).
    exists n. repeat split; [now right | exact Hm | exact Hv | | lia].
    replace (Z.to_nat (m - i)) with (S (Z.to_nat (m - (i + 1)))) by lia. exact Hnth.
Qed.

Lemma str_take_app_le (n : nat) (a b : string) :
  (n <= String.length a)%nat -> str_take n (a +:+ b) = str_take n a.
Proof.
  revert a. induction n as [|n IH]; intros a H; [reflexivity|].
  destruct a as [|x a]; [simpl in H; lia|].
  rewrite str_app_cons. cbn [str_take]. f_equal. apply IH. simpl in H. lia.
Qed.

Lemma str_drop_app_le (n : nat) (a b : string) :
  (n <= String.length a)%nat -> str_drop n (a +:+ b) = str_drop n a +:+ b.
Proof.
  revert a. induction n as [|n IH]; intros a H; [reflexivity|].
  destruct a as [|x a]; [simpl in H; lia|].
  rewrite str_app_cons. cbn [str_drop]. apply IH. simpl in H. lia.
Qed.

Lemma time_lookup_app (tab : list string) (i : Z) (a b : string) :
  Forall (fun name => (String.length name <= String.length a)%nat) tab ->
  time_lookup tab i (a +:+ b)
  = match time_lookup tab i a with
    | Some (m, v) => Some (m, v +:+ b)
    | None => None
    end.
Proof.
  intros H. revert i. induction H as [|name tab Hn Htab IH]; intros i; [reflexivity|].
  cbn [time_lookup]. rewrite str_length_app, str_take_app_le, str_drop_app_le by exact Hn.
  destruct (Nat.leb_spec (String.length name) (String.length a)); [|lia].
  destruct (Nat.leb_spec (String.length name) (String.length a + String.length b)); [|lia].
  cbn [andb]. destruct (time_match (str_take (String.length name) a) name); [reflexivity|].
  apply IH.
Qed.

Lemma shortMonthNames_shape :
  Forall (fun name => String.length name = 3%nat /\ clean name) shortMonthNames.
Proof. repeat constructor. Qed.

Lemma month_name_shape (name : string) :
  In name shortMonthNames -> String.length name = 3%nat /\ clean name.
Proof. intros H. exact (proj1 (List.Forall_forall _ _) shortMonthNames_shape name H). Qed.

Lemma TrimLeft_space_field (f rest : string) :
  is_field f -> TrimLeft (String " " (f +:+ rest)) " " = f +:+ rest.
Proof.
  intros [Hne Hc]. destruct f as [|c f]; [congruence|].
  apply clean_cons in Hc as [Hc _].
  rewrite str_app_cons. cbn [TrimLeft mem_byte]. rewrite Ascii.eqb_refl. cbn [orb].
  rewrite orb_false_r. destruct (Ascii.eqb_spec c " "); [contradiction | reflexivity].
Qed.

Lemma skip_space_field (f rest : string) :
  is_field f -> skip_space (String " " (f +:+ rest)) = Some (f +:+ rest).
Proof.
  intros H. unfold skip_space. rewrite Ascii.eqb_refl. now rewrite TrimLeft_space_field.
Qed.

Lemma skip_space_inside_field (f rest : string) :
  f <> EmptyString -> clean f -> skip_space (f +:+ rest) = None.
Proof.
  intros Hne Hc. destruct f as [|c f]; [congruence|].
  apply clean_cons in Hc as [Hc _]. rewrite str_app_cons. unfold skip_space.
  destruct (Ascii.eqb_spec c " "); [contradiction | reflexivity].
Qed.

(** A field that starts the text [f ++ " " ++ rest] and is read as a month
    followed by a space is one of the twelve names, up to case. *)
Lemma month_field (f rest : string) (m : Z) (v : string) :
  is_field f ->
  time_lookup shortMonthNames 0 (f +:+ String " " rest) = Some (m, v) ->
  skip_space v <> None ->
  String.length f = 3%nat
  /\ v = String " " rest
  /\ time_lookup shortMonthNames 0 f = Some (m, EmptyString)
  /\ 0 <= m < 12.
Proof.
  intros [Hne Hc] Hl Hsk.
  destruct (time_lookup_inv _ _ _ _ _ Hl) as (name & Hin & Hm & Hv & Hnth & Hle).
  assert (Hm12 : 0 <= m < 12).
  { split; [exact Hle|].
    assert (Hlt : (Z.to_nat (m - 0) < length shortMonthNames)%nat)
      by (apply nth_error_Some; congruence).
    simpl in Hlt. lia. }
  destruct (month_name_shape name Hin) as [Hlen Hcn]. rewrite Hlen in Hm, Hv.
  pose proof (time_match_clean _ _ Hm Hcn) as Hct.
  destruct f as [|a [|b [|c [|d f]]]].
  - congruence.
  - exfalso. rewrite str_app_cons in Hct. cbn in Hct.
    apply clean_cons in Hct as [_ Hct]. apply clean_cons in Hct as [Hct _]. congruence.
  - exfalso. rewrite !str_app_cons in Hct. cbn in Hct.
    apply clean_cons in Hct as [_ Hct]. apply clean_cons in Hct as [_ Hct].
    apply clean_cons in Hct as [Hct _]. congruence.
  - rewrite !str_app_cons, str_app_nil_l in Hv. cbn in Hv.
    repeat split; try assumption; try lia.
    rewrite (time_lookup_app _ _ (String a (String b (String c EmptyString)))
               (String " " rest)) in Hl.
    + destruct (time_lookup shortMonthNames 0 (String a (String b (String c EmptyString))))
        as [[m' v']|]; [|discriminate].
      injection Hl as <- Hv'. rewrite Hv in Hv'.
      destruct v'; [reflexivity|].
      rewrite str_app_cons in Hv'. injection Hv' as _ Hv'.
      apply (f_equal String.length) in Hv'. rewrite str_length_app in Hv'.
      simpl in Hv'. lia.
    + eapply Forall_impl; [exact shortMonthNames_shape|].
      intros x [Hx _]. simpl. lia.
  - exfalso. rewrite !str_app_cons in Hv. cbn in Hv. subst v.
    apply Hsk. rewrite <- str_app_cons. apply skip_space_inside_field; [discriminate|].
    do 3 (apply clean_cons in Hc as [_ Hc]). exact Hc.
Qed.

Lemma under_day_field (f rest : string) : is_field f -> under_day (f +:+ rest) = f +:+ rest.
Proof.
  intros [Hne Hc]. destruct f as [|c f]; [congruence|].
  apply clean_cons in Hc as [Hc _]. rewrite str_app_cons. unfold under_day.
  destruct (Ascii.eqb_spec c " "); [contradiction | reflexivity].
Qed.

(** After a day read from the field [f], the parser stands behind [f]. *)
Lemma day_field (f rest : string) (d : Z) (v v2 : string) :
  is_field f ->
  getnum (f +:+ String " " rest) false = Some (d, v) ->
  skip_space v = Some v2 ->
  v = String " " rest.
Proof.
  intros [Hne Hc] Hg Hs.
  assert (Hsp : is_digit " " = false) by reflexivity.
  destruct f as [|a [|b f]]; [congruence| |].
  - rewrite str_app_cons, str_app_nil_l in Hg. cbn [getnum] in Hg.
    rewrite Hsp in Hg. destruct (is_digit a); [|discriminate]. now injection Hg as _ <-.
  - apply clean_cons in Hc as [_ Hc]. apply clean_cons in Hc as [Hb Hc].
    rewrite !str_app_cons in Hg. cbn [getnum] in Hg.
    destruct (is_digit a); [|discriminate].
    destruct (is_digit b).
    + injection Hg as _ <-. destruct f as [|c f]; [reflexivity|].
      rewrite (skip_space_inside_field (String c f)) in Hs; [discriminate..|exact Hc].
    + injection Hg as _ <-. exfalso. cbn [skip_space] in Hs.
      destruct (Ascii.eqb_spec b " "); [contradiction | discriminate].
Qed.

Lemma std_year_field (yy rest : string) :
  String.length yy = 2%nat ->
  std_year (yy +:+ rest)
  = match time_atoi yy with
    | Some y => Some (pivot y, rest)
    | None => None
    end.
Proof.
  intros H. unfold std_year. rewrite str_length_app, H. cbn [Nat.add Nat.ltb Nat.leb].
  rewrite <- H, str_take_app, str_drop_app. reflexivity.
Qed.

Lemma month_probe (f5 : string) (ts : Time) :
  is_field f5 ->
  Parse_02_Jan_06 ("01 " +:+ f5 +:+ " 01") = inl ts ->
  exists m,
    time_lookup shortMonthNames 0 f5 = Some (m, EmptyString)
    /\ String.length f5 = 3%nat
    /\ t_month ts = m + 1
    /\ 0 <= m < 12.
Proof.
  intros Hf H. unfold Parse_02_Jan_06 in H.
  change ("01 " +:+ f5 +:+ " 01")
    with (String "0" (String "1" (String " " (f5 +:+ String " " "01")))) in H.
  change (getnum (String "0" (String "1" (String " " (f5 +:+ String " " "01")))) true)
    with (Some (1, String " " (f5 +:+ String " " "01"))) in H.
  cbn [mbind option_bind] in H. rewrite (skip_space_field _ _ Hf) in H.
  cbn [mbind option_bind] in H.
  destruct (time_lookup shortMonthNames 0 (f5 +:+ String " " "01")) as [[m v]|] eqn:Hl;
    [|discriminate].
  cbn [mbind option_bind] in H.
  destruct (skip_space v) as [v1|] eqn:Hs; [|discriminate].
  destruct (month_field f5 "01" m v Hf Hl) as (Hlen & _ & Hlook & Hm); [congruence|].
  exists m. repeat split; try assumption; try lia.
  cbn [mbind option_bind] in H. destruct (std_year v1) as [[y v2]|]; [|discriminate].
  cbn [mbind option_bind] in H.
  destruct (negb (String.eqb v2 EmptyString)); [discriminate|].
  destruct (negb (day_in_range 1 (m + 1) y)); [discriminate|].
  now injection H as <-.
Qed.

(** The time string of [parseListLine]: day field, month field, two bytes
    for the year and a rest. *)
Lemma list_time_parse (f6 f5 yy rest : string) (m : Z) (t : Time) :
  is_field f6 -> is_field f5 ->
  time_lookup shortMonthNames 0 f5 = Some (m, EmptyString) ->
  String.length f5 = 3%nat ->
  String.length yy = 2%nat -> clean yy ->
  ParseInLocation__2_Jan_06_15_04 (f6 +:+ " " +:+ f5 +:+ " " +:+ yy +:+ " " +:+ rest) = inl t ->
  exists y,
    time_atoi yy = Some y
    /\ t_year t = pivot y
    /\ t_month t = m + 1
    /\ (rest = "00:00" -> t_hour t = 0 /\ t_min t = 0).
Proof.
  intros Hf6 Hf5 Hlook Hlen Hyy Hcy H.
  assert (Hfy : is_field yy) by (split; [now destruct yy | exact Hcy]).
  unfold ParseInLocation__2_Jan_06_15_04 in H.
  rewrite !str_app_byte in H. rewrite (under_day_field _ _ Hf6) in H.
  destruct (getnum _ false) as [[day v]|] eqn:Hg in H; [|discriminate].
  cbn [mbind option_bind] in H.
  destruct (skip_space v) as [v1|] eqn:Hs; [|discriminate].
  pose proof (day_field _ _ _ _ _ Hf6 Hg Hs) as ->.
  rewrite (skip_space_field _ _ Hf5) in Hs. injection Hs as <-.
  cbn [mbind option_bind] in H.
  rewrite time_lookup_app, Hlook in H
    by (eapply Forall_impl; [exact shortMonthNames_shape | intros x [Hx _]; simpl; lia]).
  rewrite str_app_nil_l in H. cbn [mbind option_bind] in H.
  rewrite (skip_space_field _ _ Hfy) in H. cbn [mbind option_bind] in H.
  rewrite (std_year_field _ _ Hyy) in H.
  destruct (time_atoi yy) as [y|]; [|discriminate].
  exists y. split; [reflexivity|].
  cbn [mbind option_bind] in H.
  destruct (skip_space (String " " rest)) as [v2|] eqn:E1; [|discriminate].
  cbn [mbind option_bind] in H.
  destruct (getnum v2 false) as [[hour v3]|] eqn:E2; [|discriminate].
  cbn [mbind option_bind] in H.
  destruct (24 <=? hour); [discriminate|].
  destruct (skip_colon v3) as [v4|] eqn:E3; [|discriminate].
  cbn [mbind option_bind] in H.
  destruct (getnum v4 true) as [[minute v5]|] eqn:E4; [|discriminate].
  cbn [mbind option_bind] in H.
  destruct (60 <=? minute); [discriminate|].
  destruct (negb (String.eqb v5 EmptyString)); [discriminate|].
  destruct (negb (day_in_range day (m + 1) (pivot y))); [discriminate|].
  injection H as <-. cbn [t_year t_month t_hour t_min].
  split; [reflexivity|]. split; [reflexivity|].
  intros ->. vm_compute in E1. injection E1 as <-.
  vm_compute in E2. injection E2 as <- <-.
  vm_compute in E3. injection E3 as <-.
  vm_compute in E4. injection E4 as <- _. split; reflexivity.
Qed.

Lemma at_least_nine (l : list string) :
  (9 <= length l)%nat ->
  exists f0 f1 f2 f3 f4 f5 f6 f7 f8 rest,
    l = f0 :: f1 :: f2 :: f3 :: f4 :: f5 :: f6 :: f7 :: f8 :: rest.
Proof.
  intros H.
  destruct l as [|f0 [|f1 [|f2 [|f3 [|f4 [|f5 [|f6 [|f7 [|f8 rest]]]]]]]]];
    simpl in H; try lia.
  now exists f0, f1, f2, f3, f4, f5, f6, f7, f8, rest.
Qed.

(** The years whose last two digits are read back as the year itself. *)
Lemma year_digits (y : Z) :
  1969 <= y <= 2068 ->
  exists yy v,
    slice (Itoa y) 2 4 = Ret yy
    /\ String.length yy = 2%nat
    /\ clean yy
    /\ time_atoi yy = Some v
    /\ pivot v = y.
Proof.
  set (chk := fun y =>
    match slice (Itoa y) 2 4 with
    | Ret yy =>
        (String.length yy =? 2)%nat && negb (mem_byte " " yy)
        && match time_atoi yy with
           | Some v => pivot v =? y
           | None => false
           end
    | Panic _ => false
    end).
  assert (H : forallb chk (map (fun n => 1969 + Z.of_nat n) (seq 0 100)) = true)
    by (vm_compute; reflexivity).
  rewrite forallb_forall in H. intros Hy.
  assert (Hin : In y (map (fun n => 1969 + Z.of_nat n) (seq 0 100))).
  { apply in_map_iff. exists (Z.to_nat (y - 1969)). split; [lia|]. apply in_seq. lia. }
  specialize (H y Hin). unfold chk in H.
  destruct (slice (Itoa y) 2 4) as [yy|]; [|discriminate].
  apply andb_true_iff in H as [H Hv]. apply andb_true_iff in H as [Hl Hc].
  destruct (time_atoi yy) as [v|] eqn:Ha; [|discriminate].
  exists yy, v. split; [reflexivity|]. split; [now apply Nat.eqb_eq|].
  split; [now apply negb_true_iff|]. split; [exact Ha | now apply Z.eqb_eq].
Qed.

Lemma slice_2_4_shape (s yy : string) :
  slice s 2 4 = Ret yy -> String.length yy = 2%nat /\ (clean s -> clean yy).
Proof.
  unfold slice. intros H.
  destruct ((0 <=? 2) && (2 <=? 4) && (4 <=? len s)) eqn:E; [|discriminate].
  injection H as <-. apply andb_true_iff in E as [_ E]. apply Z.leb_le in E.
  unfold len in E.
  destruct s as [|a [|b [|c [|d s]]]]; simpl in E; try lia.
  change (str_take (Z.to_nat (4 - 2)) (str_drop (Z.to_nat 2) (String a (String b (String c (String d s))))))
    with (String c (String d EmptyString)).
  split; [reflexivity|]. intros Hc.
  do 2 (apply clean_cons in Hc as [_ Hc]). apply clean_cons in Hc as [Hc1 Hc].
  apply clean_cons in Hc as [Hc2 _]. apply clean_cons. split; [exact Hc1|].
  now apply clean_byte.
Qed.

Lemma slice_2_4_short (s : string) (p : panic) :
  slice s 2 4 = Panic p -> (String.length s < 4)%nat.
Proof.
  unfold slice, len. destruct (Z.leb_spec 4 (Z.of_nat (String.length s))); [discriminate|].
  intros _. lia.
Qed.

Lemma HasPrefix_byte (f : string) (c b : ascii) :
  HasPrefix f (String c EmptyString) = true -> byte_at f 0 = Ret b -> b = c.
Proof.
  destruct f as [|a f]; [discriminate|]. unfold HasPrefix. rewrite prefix_byte.
  intros H [= <-]. apply Ascii.eqb_eq in H. congruence.
Qed.

Lemma elems_from_le (l : list string) (i : nat) :
  (i <= length l)%nat -> elems_from l (Z.of_nat i) = Ret (drop i l).
Proof.
  intros H. unfold elems_from.
  destruct (Z.leb_spec 0 (Z.of_nat i)); [|lia].
  destruct (Z.leb_spec (Z.of_nat i) (Z.of_nat (length l))); [|lia].
  cbn [andb]. now rewrite Nat2Z.id.
Qed.

(** The steps of [parseListLine] on a line with the nine fields named, down
    to the choice between the two forms of the date. *)
Ltac list_line_steps c now line Hfields Hf0 :=
  unfold parseListLine; rewrite Hfields; cbv zeta;
  match goal with
  | |- context [elem_at ?l 0] =>
      match l with
      | ?f0 :: ?f1 :: ?f2 :: ?f3 :: ?f4 :: ?f5 :: ?f6 :: ?f7 :: ?f8 :: ?rest =>
          change (length l <? 9)%nat with false;
          change (elem_at l 0) with (Ret f0);
          change (elem_at l 4) with (Ret f4);
          change (elem_at l 5) with (Ret f5);
          change (elem_at l 6) with (Ret f6);
          change (elem_at l 7) with (Ret f7);
          change (elems_from l 8) with (elems_from l (Z.of_nat 8));
          rewrite (elems_from_le l 8) by (simpl; lia);
          change (drop 8 l) with (f8 :: rest)
      end
  end;
  cbn [mbind outcome_bind obind];
  let b := fresh "b" in
  let Hb := fresh "Hb" in
  destruct (byte_at_field _ Hf0) as [b Hb]; rewrite Hb;
  cbn [mbind outcome_bind obind].

(** C3, amended.  On a LIST line of at least nine fields whose field 7 has a
    colon, with the clock in the years 1970..2068, [parseListLine] does not
    panic, and an entry it returns has the month that field 5 names and the
    year of the clock, less one exactly when that month is later in the
    calendar than the month of the clock. *)
Theorem parseListLine_year_of_clock (c : ServerConn) (now : Clock) (line f5 f7 : string) :
  (9 <= length (Fields line))%nat ->
  Fields line !! 5%nat = Some f5 ->
  Fields line !! 7%nat = Some f7 ->
  Contains f7 ":" = true ->
  1970 <= now_year now <= 2068 ->
  exists r,
    parseListLine c now line = Ret r
    /\ forall e, r = inl e ->
         exists m,
           time_lookup shortMonthNames 0 f5 = Some (m - 1, EmptyString)
           /\ 1 <= m <= 12
           /\ t_month (Time_ e) = m
           /\ t_year (Time_ e)
              = (if now_month now <? m then now_year now - 1 else now_year now).
Proof.
  intros Hlen H5 H7 Hcolon Hclock.
  destruct (at_least_nine _ Hlen)
    as (f0 & f1 & f2 & f3 & f4 & g5 & f6 & g7 & f8 & rest & Hfields).
  rewrite Hfields in H5, H7. injection H5 as ->. injection H7 as ->.
  pose proof (Fields_fields line) as HF. rewrite Hfields in HF.
  apply Forall_cons in HF as [Hf0 HF]. do 4 (apply Forall_cons in HF as [_ HF]).
  apply Forall_cons in HF as [Hf5 HF]. apply Forall_cons in HF as [Hf6 _].
  list_line_steps c now line Hfields (proj1 Hf0).
  destruct (entry_type_of b) as [ty|];
    [|eexists; split; [reflexivity | intros e He; discriminate He]].
  assert (Hsz : exists sz,
             (if is_file ty then Ret (ParseUint f4) else Ret (0, None))
             = Ret sz) by (destruct (is_file ty); eexists; reflexivity).
  destruct Hsz as [[size err] ->]. cbn [mbind outcome_bind obind].
  destruct err as [err|]; [eexists; split; [reflexivity | intros e He; discriminate He]|].
  destruct (Parse_02_Jan_06 ("01 " +:+ f5 +:+ " 01")) as [ts|err] eqn:Hp;
    [|eexists; split; [reflexivity | intros e He; discriminate He]].
  destruct (month_probe f5 ts Hf5 Hp) as (m & Hlook & Hl3 & Hm & Hm12).
  rewrite Hcolon.
  assert (Hy : 1969 <= setYear now (t_month ts) <= 2068)
    by (unfold setYear; destruct (now_month now <? t_month ts); lia).
  destruct (year_digits _ Hy) as (yy & v & Hsl & Hyl & Hyc & Hya & Hpv).
  rewrite Hsl. cbn [mbind outcome_bind obind].
  destruct (ParseInLocation__2_Jan_06_15_04 _) as [t|err] eqn:Ht;
    [|eexists; split; [reflexivity | intros e He; discriminate He]].
  destruct (list_time_parse f6 f5 yy f7 m t Hf6 Hf5 Hlook Hl3 Hyl Hyc Ht)
    as (y & Hy' & Hty & Htm & _).
  rewrite Hya in Hy'. injection Hy' as <-.
  eexists. split; [reflexivity|]. intros e [= <-]. cbn [Time_].
  exists (m + 1). replace (m + 1 - 1) with m by lia.
  split; [exact Hlook|]. split; [lia|]. split; [exact Htm|].
  rewrite Hty, Hpv. unfold setYear. now rewrite Hm.
Qed.

(** C4, amended.  On a LIST line of at least nine fields whose field 7 has
    no colon, [parseListLine] panics only when field 7 is shorter than four
    bytes, and an entry it returns has the time 00:00 and the year its third
    and fourth bytes give as a two-digit year, read in 1969..2068: a year of
    that range written with four digits is the year of the entry.  When
    field 0 starts with [d] the entry is a folder of size 0. *)
Theorem parseListLine_year_listed (c : ServerConn) (now : Clock) (line f0 f7 : string) :
  (9 <= length (Fields line))%nat ->
  Fields line !! 0%nat = Some f0 ->
  Fields line !! 7%nat = Some f7 ->
  Contains f7 ":" = false ->
  match parseListLine c now line with
  | Panic p => (String.length f7 < 4)%nat
  | Ret (inr _) => True
  | Ret (inl e) =>
      t_hour (Time_ e) = 0 /\ t_min (Time_ e) = 0
      /\ (exists yy y,
             slice f7 2 4 = Ret yy /\ time_atoi yy = Some y
             /\ t_year (Time_ e) = pivot y)
      /\ (forall y, 1969 <= y <= 2068 -> f7 = Itoa y -> t_year (Time_ e) = y)
      /\ (HasPrefix f0 "d" = true -> Type_ e = EntryTypeFolder /\ Size e = 0)
  end.
Proof.
  intros Hlen H0 H7 Hcolon.
  destruct (at_least_nine _ Hlen)
    as (g0 & f1 & f2 & f3 & f4 & f5 & f6 & g7 & f8 & rest & Hfields).
  rewrite Hfields in H0, H7. injection H0 as ->. injection H7 as ->.
  pose proof (Fields_fields line) as HF. rewrite Hfields in HF.
  apply Forall_cons in HF as [Hf0 HF]. do 4 (apply Forall_cons in HF as [_ HF]).
  apply Forall_cons in HF as [Hf5 HF]. apply Forall_cons in HF as [Hf6 HF].
  apply Forall_cons in HF as [Hf7 _].
  list_line_steps c now line Hfields (proj1 Hf0).
  destruct (entry_type_of b) as [ty|] eqn:Hty; [|exact I].
  assert (Hsz : exists size err,
             (if is_file ty then Ret (ParseUint f4) else Ret (0, None))
             = Ret (size, err)
             /\ (is_file ty = false -> size = 0)).
  { destruct (is_file ty).
    - destruct (ParseUint f4) as [size err] eqn:E. exists size, err.
      split; [reflexivity | discriminate].
    - exists 0, None. split; reflexivity. }
  destruct Hsz as (size & err & -> & Hdir). cbn [mbind outcome_bind obind].
  destruct err as [err|]; [exact I|].
  destruct (Parse_02_Jan_06 ("01 " +:+ f5 +:+ " 01")) as [ts|err] eqn:Hp; [|exact I].
  destruct (month_probe f5 ts Hf5 Hp) as (m & Hlook & Hl3 & Hm & Hm12).
  rewrite Hcolon.
  destruct (slice f7 2 4) as [yy|p] eqn:Hsl; cbn [mbind outcome_bind obind];
    [|now apply (slice_2_4_short f7 p)].
  destruct (slice_2_4_shape f7 yy Hsl) as [Hyl Hyc]. specialize (Hyc (proj2 Hf7)).
  destruct (ParseInLocation__2_Jan_06_15_04 _) as [t|err] eqn:Ht; [|exact I].
  destruct (list_time_parse f6 f5 yy "00:00" m t Hf6 Hf5 Hlook Hl3 Hyl Hyc Ht)
    as (y & Hy & Hyear & _ & Hzero).
  destruct (Hzero eq_refl) as [Hh Hmin]. cbn [Time_ Type_ Size].
  split; [exact Hh|]. split; [exact Hmin|]. split; [|split].
  - now exists yy, y.
  - intros y' Hy' ->.
    destruct (year_digits y' Hy') as (yy' & v & Hsl' & _ & _ & Hv & Hpv).
    rewrite Hsl in Hsl'. injection Hsl' as <-. rewrite Hy in Hv. injection Hv as <-.
    now rewrite Hyear.
  - intros Hd. pose proof (HasPrefix_byte f0 "d" b Hd Hb) as ->.
    injection Hty as <-. split; [reflexivity | now apply Hdir].
Qed.

(** ** Listings and their last line *)

Lemma cut_line_none (s : string) : cut_line s = None <-> mem_byte newline s = false.
Proof.
  induction s as [|ch s IH]; [simpl; split; reflexivity|].
  cbn [cut_line mem_byte]. rewrite (Ascii.eqb_sym newline ch).
  destruct (Ascii.eqb ch newline); cbn [orb]; [split; discriminate|].
  rewrite <- IH. destruct (cut_line s) as [[l r]|]; split; congruence.
Qed.

Lemma cut_line_length (s line rest : string) :
  cut_line s = Some (line, rest) ->
  String.length s = (String.length line + String.length rest)%nat
  /\ (0 < String.length line)%nat.
Proof.
  revert line rest. induction s as [|ch s IH]; intros line rest H; [discriminate|].
  cbn [cut_line] in H. destruct (Ascii.eqb ch newline).
  - injection H as <- <-. simpl. lia.
  - destruct (cut_line s) as [[l r]|]; [|discriminate].
    injection H as <- <-. destruct (IH l r eq_refl). simpl. lia.
Qed.

Lemma stream_lines_cut_none (s : string) :
  cut_line s = None -> stream_lines s = ([], s).
Proof.
  induction s as [|ch s IH]; [reflexivity|].
  cbn [cut_line stream_lines]. destruct (Ascii.eqb ch newline); [discriminate|].
  destruct (cut_line s) as [[l r]|]; [discriminate|]. intros _. now rewrite IH.
Qed.

Lemma stream_lines_cut_some (s line rest : string) :
  cut_line s = Some (line, rest) ->
  stream_lines s = (line :: (stream_lines rest).1, (stream_lines rest).2).
Proof.
  revert line rest. induction s as [|ch s IH]; intros line rest H; [discriminate|].
  cbn [cut_line stream_lines] in *. destruct (Ascii.eqb ch newline).
  - injection H as <- <-. now destruct (stream_lines s).
  - destruct (cut_line s) as [[l r]|]; [|discriminate].
    injection H as <- <-. now rewrite (IH l r eq_refl).
Qed.

Lemma ReadString_line (tail : error) (bio line rest : string) :
  cut_line bio = Some (line, rest) -> ReadString tail bio = (line, None, rest).
Proof. intros H. unfold ReadString. now rewrite H. Qed.

Lemma ReadString_end (tail : error) (bio : string) :
  cut_line bio = None -> ReadString tail bio = (bio, Some tail, EmptyString).
Proof. intros H. unfold ReadString. now rewrite H. Qed.

(** The loop of [List] parses the lines that end with a newline and stops
    at the end of the stream; the bytes after the last newline are read and
    dropped.  The fuel given never runs out. *)
Lemma List_loop_lines (c : ServerConn) (now : Clock) :
  forall fuel s acc,
    (String.length s < fuel)%nat ->
    List_loop fuel c now EOF s acc
    = (x ← list_entries c now (stream_lines s).1 acc; Ret (x, None)).
Proof.
  induction fuel as [|fuel IH]; intros s acc Hf; [lia|].
  cbn [List_loop].
  destruct (cut_line s) as [[line rest]|] eqn:Hc.
  - rewrite (ReadString_line _ _ _ _ Hc), (stream_lines_cut_some _ _ _ Hc).
    cbn [fst list_entries].
    destruct (parseListLine c now line) as [r|p]; [|reflexivity].
    cbn [mbind outcome_bind obind].
    destruct (cut_line_length _ _ _ Hc) as [Hl Hpos]. apply IH. lia.
  - rewrite (ReadString_end _ _ Hc), (stream_lines_cut_none _ Hc). reflexivity.
Qed.

Lemma MList_loop_lines (c : ServerConn) :
  forall fuel s acc,
    (String.length s < fuel)%nat ->
    MList_loop fuel c EOF s acc = (mlist_entries c (stream_lines s).1 acc, None).
Proof.
  induction fuel as [|fuel IH]; intros s acc Hf; [lia|].
  cbn [MList_loop].
  destruct (cut_line s) as [[line rest]|] eqn:Hc.
  - rewrite (ReadString_line _ _ _ _ Hc), (stream_lines_cut_some _ _ _ Hc).
    cbn [fst mlist_entries].
    destruct (parseMListLine c line) as [entry err].
    destruct (cut_line_length _ _ _ Hc) as [Hl Hpos]. apply IH. lia.
  - rewrite (ReadString_end _ _ Hc), (stream_lines_cut_none _ Hc). reflexivity.
Qed.

(** The loop of [NameList] on a stream whose lines fit the buffer: one entry
    for each line that ends with a newline, and one for the bytes after the
    last newline when there are any. *)
Lemma NameList_loop_lines (c : ServerConn) :
  forall fuel s acc,
    (String.length s < fuel)%nat ->
    Forall (fun l => len l <= MaxScanTokenSize) (stream_lines s).1 ->
    len (stream_lines s).2 < MaxScanTokenSize ->
    NameList_loop fuel c EOF s acc
    = (acc ++ map (name_of_line c) (stream_lines s).1
           ++ match (stream_lines s).2 with
              | EmptyString => []
              | last => [fromServerEncoding c (dropCR last)]
              end, None).
Proof.
  induction fuel as [|fuel IH]; intros s acc Hf Hl Hlast; [lia|].
  cbn [NameList_loop].
  destruct (cut_line s) as [[line rest]|] eqn:Hc.
  - rewrite (stream_lines_cut_some _ _ _ Hc) in Hl, Hlast |- *. cbn [fst snd] in *.
    apply Forall_cons in Hl as [Hline Hl].
    destruct (Z.ltb_spec MaxScanTokenSize (len line)); [lia|].
    destruct (cut_line_length _ _ _ Hc) as [Hlen Hpos].
    rewrite IH by (try assumption; lia).
    cbn [map]. unfold name_of_line at 2. now rewrite <- !app_assoc.
  - rewrite (stream_lines_cut_none _ Hc) in Hlast |- *. cbn [fst snd] in *.
    destruct (Z.leb_spec MaxScanTokenSize (len s)); [lia|].
    cbn [map is_EOF]. destruct s; [now rewrite app_nil_r | reflexivity].
Qed.

(** A last line that fills the buffer stops the scanner. *)
Lemma NameList_loop_too_long (c : ServerConn) (tail : error) (fuel : nat) (s : string)
  (acc : list string) :
  cut_line s = None ->
  MaxScanTokenSize <= len s ->
  NameList_loop (S fuel) c tail s acc = (acc, Some ErrTooLong).
Proof.
  intros Hc Hl. cbn [NameList_loop]. rewrite Hc.
  destruct (Z.leb_spec MaxScanTokenSize (len s)); [reflexivity | lia].
Qed.

Lemma Close_done (r : response) (w : World) :
  exists err w',
    Close r w = Done err w'
    /\ w_trace w' = w_trace w ++ [EvDataClose (dc_id (r_conn r));
                                  EvReadResponse StatusClosingDataConnection].
Proof.
  unfold Close, mbind, M_bind, data_Close. cbn.
  match goal with
  | |- context [conn_ReadResponse ?e ?w1] =>
      destruct (conn_ReadResponse_done e w1) as (code & msg & err2 & w2 & -> & Ht & _)
  end.
  eexists _, w2. split; [reflexivity|]. rewrite Ht. cbn. now rewrite <- app_assoc.
Qed.

Lemma repeat_byte_length (n : nat) (b : ascii) : String.length (repeat_byte n b) = n.
Proof. induction n as [|n IH]; simpl; congruence. Qed.

Lemma repeat_byte_mem (n : nat) (b c : ascii) :
  Ascii.eqb c b = false -> mem_byte c (repeat_byte n b) = false.
Proof. intros H. induction n as [|n IH]; simpl; [reflexivity | now rewrite H, IH]. Qed.

(** C9, amended.  When the listing stream ends, cleanly, with bytes that no
    newline follows, [List] and [MList] return the entries of the lines
    before them only, whereas [NameList] returns one more entry, made of
    those last bytes (without a trailing carriage return), provided no line
    of the stream fills the buffer of its scanner. *)
Theorem unterminated_last_line (c : ServerConn) (now : Clock) (path : string)
  (w w1 : World) (conn : DataConn) (lines : list string) (last : string) :
  stream_lines (dc_data conn) = (lines, last) ->
  last <> EmptyString ->
  dc_tail conn = EOF ->
  exists err w2,
    Close (mkResponse conn) w1 = Done err w2
    /\ (cmdDataConnFrom c 0 ("LIST " +:+ toServerEncoding c path) w = Done (inl conn) w1 ->
        List c now path w
        = match list_entries c now lines [] with
          | Ret x => Done (x, None) w2
          | Panic p => Crash p w2
          end)
    /\ (cmdDataConnFrom c 0 ("MLSD " +:+ toServerEncoding c path) w = Done (inl conn) w1 ->
        MList c path w = Done (mlist_entries c lines [], None) w2)
    /\ (cmdDataConnFrom c 0 ("NLST " +:+ toServerEncoding c path) w = Done (inl conn) w1 ->
        Forall (fun l => len l <= MaxScanTokenSize) lines ->
        len last < MaxScanTokenSize ->
        NameList c path w
        = Done (map (name_of_line c) lines ++ [fromServerEncoding c (dropCR last)], None)
               w2).
Proof.
  intros Hs Hlast Htail.
  destruct (Close_done (mkResponse conn) w1) as (err & w2 & Hclose & _).
  exists err, w2. split; [exact Hclose|]. split; [|split].
  - intros Hcmd. unfold List, mbind, M_bind. rewrite Hcmd. unfold defer, lift.
    rewrite Htail, List_loop_lines, Hs by lia. cbn [fst].
    destruct (list_entries c now lines []) as [x|p];
      cbn [mbind outcome_bind obind]; now rewrite Hclose.
  - intros Hcmd. unfold MList, mbind, M_bind. rewrite Hcmd. unfold defer, mret, M_ret.
    rewrite Htail, MList_loop_lines, Hs by lia. cbn [fst]. now rewrite Hclose.
  - intros Hcmd Hshort Hlen. unfold NameList, mbind, M_bind. rewrite Hcmd.
    unfold defer, mret, M_ret.
    rewrite Htail, NameList_loop_lines by (rewrite ?Hs; cbn [fst snd]; try assumption; lia).
    rewrite Hs. cbn [fst snd app]. rewrite Hclose.
    destruct last; [congruence | reflexivity].
Qed.

(** ** What a computation writes and what it leaves alone *)

Lemma emits_ret {A} (P : event -> Prop) (a : A) : emits P (mret a).
Proof. intros w. exists []. split; [now rewrite app_nil_r | constructor]. Qed.

Lemma emits_lift {A} (P : event -> Prop) (o : outcome A) : emits P (lift o).
Proof.
  intros w. exists []. split; [|constructor]. unfold lift. destruct o; now rewrite app_nil_r.
Qed.

Lemma emits_bind {A B} (P : event -> Prop) (m : M A) (k : A -> M B) :
  emits P m -> (forall a, emits P (k a)) -> emits P (m ≫= k).
Proof.
  intros Hm Hk w. destruct (Hm w) as (evs & Ht & HP).
  unfold mbind, M_bind. destruct (m w) as [a w1|p w1]; cbn [final] in *.
  - destruct (Hk a w1) as (evs' & Ht' & HP'). exists (evs ++ evs').
    split; [now rewrite Ht', Ht, app_assoc | now apply Forall_app].
  - now exists evs.
Qed.

Lemma emits_impl {A} (P Q : event -> Prop) (m : M A) :
  (forall ev, P ev -> Q ev) -> emits P m -> emits Q m.
Proof.
  intros H Hm w. destruct (Hm w) as (evs & Ht & HP). exists evs. split; [exact Ht|].
  eapply Forall_impl; eassumption.
Qed.

Lemma emits_one {A} (P : event -> Prop) (m : M A) (ev : event) :
  (forall w, w_trace (final (m w)) = w_trace w ++ [ev]) -> P ev -> emits P m.
Proof. intros H HP w. exists [ev]. split; [apply H | now repeat constructor]. Qed.

Lemma conn_Cmd_emits (P : event -> Prop) (line : string) :
  P (EvCmd line) -> emits P (conn_Cmd line).
Proof.
  apply emits_one. intros w. unfold conn_Cmd. cbn. now destruct (w_writes w).
Qed.

Lemma conn_ReadResponse_emits (P : event -> Prop) (expect : Z) :
  P (EvReadResponse expect) -> emits P (conn_ReadResponse expect).
Proof.
  apply emits_one. intros w. unfold conn_ReadResponse, next_reply. cbn.
  destruct (w_replies w) as [|[code continued msg|e] rs]; reflexivity.
Qed.

Lemma conn_ReadCodeLine_emits (P : event -> Prop) (expect : Z) :
  P (EvReadCodeLine expect) -> emits P (conn_ReadCodeLine expect).
Proof.
  apply emits_one. intros w. unfold conn_ReadCodeLine, next_reply. cbn.
  destruct (w_replies w) as [|[code continued msg|e] rs]; reflexivity.
Qed.

Lemma net_Dial_emits (P : event -> Prop) (addr : string) :
  P (EvDial addr) -> emits P (net_Dial addr).
Proof.
  apply emits_one. intros w. unfold net_Dial. cbn.
  destruct (w_dials w) as [|[dc|e] rest]; reflexivity.
Qed.

Lemma data_Close_emits (P : event -> Prop) (dc : DataConn) :
  P (EvDataClose (dc_id dc)) -> emits P (data_Close dc).
Proof. apply emits_one. reflexivity. Qed.

Lemma cmd_emits (P : event -> Prop) (expected : Z) (line : string) :
  P (EvCmd line) -> P (EvReadResponse expected) -> emits P (cmd expected line).
Proof.
  intros H1 H2. unfold cmd. apply emits_bind; [now apply conn_Cmd_emits|].
  intros [e|]; [apply emits_ret | now apply conn_ReadResponse_emits].
Qed.

Lemma keeps_ret {A B} (f : World -> B) (a : A) : keeps f (mret a).
Proof. intros w. reflexivity. Qed.

Lemma keeps_lift {A B} (f : World -> B) (o : outcome A) : keeps f (lift o).
Proof. intros w. unfold lift. now destruct o. Qed.

Lemma keeps_bind {A B C} (f : World -> C) (m : M A) (k : A -> M B) :
  keeps f m -> (forall a, keeps f (k a)) -> keeps f (m ≫= k).
Proof.
  intros Hm Hk w. specialize (Hm w). unfold mbind, M_bind.
  destruct (m w) as [a w1|p w1]; cbn [final] in *; [|exact Hm].
  now rewrite Hk.
Qed.

Lemma conn_Cmd_keeps_open (line : string) : keeps w_open (conn_Cmd line).
Proof. intros w. unfold conn_Cmd. cbn. now destruct (w_writes w). Qed.

Lemma conn_Cmd_keeps_dials (line : string) : keeps w_dials (conn_Cmd line).
Proof. intros w. unfold conn_Cmd. cbn. now destruct (w_writes w). Qed.

Lemma conn_ReadResponse_keeps_open (expect : Z) : keeps w_open (conn_ReadResponse expect).
Proof.
  intros w. unfold conn_ReadResponse, next_reply. cbn.
  destruct (w_replies w) as [|[code continued msg|e] rs]; reflexivity.
Qed.

Lemma conn_ReadResponse_keeps_dials (expect : Z) : keeps w_dials (conn_ReadResponse expect).
Proof.
  intros w. unfold conn_ReadResponse, next_reply. cbn.
  destruct (w_replies w) as [|[code continued msg|e] rs]; reflexivity.
Qed.

Lemma conn_ReadCodeLine_keeps_open (expect : Z) : keeps w_open (conn_ReadCodeLine expect).
Proof.
  intros w. unfold conn_ReadCodeLine, next_reply. cbn.
  destruct (w_replies w) as [|[code continued msg|e] rs]; reflexivity.
Qed.

Lemma cmd_keeps_open (expected : Z) (line : string) : keeps w_open (cmd expected line).
Proof.
  unfold cmd. apply keeps_bind; [apply conn_Cmd_keeps_open|].
  intros [e|]; [apply keeps_ret | apply conn_ReadResponse_keeps_open].
Qed.

Lemma cmd_keeps_dials (expected : Z) (line : string) : keeps w_dials (cmd expected line).
Proof.
  unfold cmd. apply keeps_bind; [apply conn_Cmd_keeps_dials|].
  intros [e|]; [apply keeps_ret | apply conn_ReadResponse_keeps_dials].
Qed.

Lemma pasv_keeps {B} (f : World -> B) :
  (forall expected line, keeps f (cmd expected line)) -> keeps f pasv.
Proof.
  intros H. unfold pasv. apply keeps_bind; [apply H|].
  intros [[code line] [e|]]; [apply keeps_ret | apply keeps_lift].
Qed.

Lemma epsv_keeps {B} (f : World -> B) :
  (forall expected line, keeps f (cmd expected line)) -> keeps f epsv.
Proof.
  intros H. unfold epsv. apply keeps_bind; [apply H|].
  intros [[code line] [e|]]; [apply keeps_ret | apply keeps_lift].
Qed.

(** ** The choice between PASV and EPSV *)

Lemma pasv_port_error (line : string) (port : Z) (e : error) :
  pasv_port line = Ret (port, Some e) -> port = 0.
Proof.
  unfold pasv_port.
  destruct ((Index line "(" =? -1) || (LastIndex line ")" =? -1)); [now intros [= <- _]|].
  destruct (slice line (Index line "(" + 1) (LastIndex line ")")) as [s|p]; [|discriminate].
  cbn [mbind outcome_bind obind].
  destruct (elem_at (Split s ",") 4) as [p4|p]; [|discriminate].
  cbn [mbind outcome_bind obind].
  destruct (Atoi p4) as [v1 [e1|]]; [now intros [= <- _]|].
  destruct (elem_at (Split s ",") 5) as [p5|p]; [|discriminate].
  cbn [mbind outcome_bind obind].
  destruct (Atoi p5) as [v2 [e2|]]; [now intros [= <- _] | discriminate].
Qed.

Lemma pasv_error (w w' : World) (port : Z) (e : error) :
  pasv w = Done (port, Some e) w' -> port = 0.
Proof.
  unfold pasv, mbind, M_bind.
  destruct (cmd StatusPassiveMode "PASV" w) as [[[code line] [e0|]] w1|p w1];
    [now intros [= <- _ _] | | discriminate].
  unfold lift. destruct (pasv_port line) as [[port' [e'|]]|p] eqn:Hp; try discriminate.
  intros [= <- <- _]. exact (pasv_port_error _ _ _ Hp).
Qed.

(** X3.  [pasv] never returns a port together with an error: whenever its
    error is not nil the port is 0, which is what [openDataConn] relies on
    when it drops that error and looks at the port alone. *)
Theorem pasv_error_has_no_port (w w' : World) (port : Z) (e : error) :
  pasv w = Done (port, Some e) w' -> port = 0.
Proof. apply pasv_error. Qed.

(** X4.  On a session whose server announced EPSV or nat6, [openDataConn]
    never writes PASV: the only command it writes is EPSV. *)
Theorem openDataConn_EPSV_only (c : ServerConn) :
  has_feature c "nat6" = true \/ has_feature c "EPSV" = true ->
  emits (fun ev => forall l, ev = EvCmd l -> l = "EPSV") (openDataConn c).
Proof.
  intros Hf. unfold openDataConn.
  replace (negb (has_feature c "nat6") && negb (has_feature c "EPSV")) with false
    by (destruct Hf as [-> | ->]; [reflexivity | now rewrite andb_false_r]).
  apply emits_bind; [apply emits_ret|]. intros port.
  apply emits_bind.
  - destruct (port =? 0); [|apply emits_ret].
    unfold epsv. apply emits_bind.
    + apply cmd_emits; [now intros l [= <-] | discriminate].
    + intros [[code line] [e|]]; [apply emits_ret | apply emits_lift].
  - intros [port' [e|]]; [apply emits_ret|]. apply net_Dial_emits. discriminate.
Qed.

(** X5.  On a session whose server announced neither, [openDataConn] asks
    PASV first.  A port other than 0 is dialled at the host of the session
    and EPSV is not asked; with the port 0, which every error of [pasv]
    comes with, that error is dropped and EPSV decides. *)
Theorem openDataConn_PASV_first (c : ServerConn) (w w1 : World) (port : Z)
  (err : option error) :
  has_feature c "nat6" = false ->
  has_feature c "EPSV" = false ->
  pasv w = Done (port, err) w1 ->
  (port <> 0 ->
   openDataConn c w = net_Dial (JoinHostPort (host c) (Itoa port)) w1)
  /\ (port = 0 ->
      openDataConn c w
      = (r ← epsv;
         match r with
         | (_, Some e) => mret (inr e)
         | (port, None) => net_Dial (JoinHostPort (host c) (Itoa port))
         end) w1)
  /\ (err <> None -> port = 0).
Proof.
  intros H6 He Hp. unfold openDataConn. rewrite H6, He. cbn [negb andb].
  split; [|split].
  - intros Hport. unfold mbind, M_bind. rewrite Hp. unfold mret, M_ret.
    destruct (Z.eqb_spec port 0); [contradiction | reflexivity].
  - intros ->. unfold mbind, M_bind. rewrite Hp. reflexivity.
  - destruct err as [e|]; [|congruence]. intros _.
    exact (pasv_error _ _ _ _ Hp).
Qed.

(** ** The commands of a transfer *)

Lemma openDataConn_emits (c : ServerConn) :
  emits (fun ev => forall l, ev = EvCmd l -> l = "PASV" \/ l = "EPSV") (openDataConn c).
Proof.
  unfold openDataConn. apply emits_bind.
  - destruct (negb (has_feature c "nat6") && negb (has_feature c "EPSV")); [|apply emits_ret].
    apply emits_bind; [|intros [port e]; apply emits_ret].
    unfold pasv. apply emits_bind.
    + apply cmd_emits; [intros l [= <-]; now left | discriminate].
    + intros [[code line] [e|]]; [apply emits_ret | apply emits_lift].
  - intros port. apply emits_bind.
    + destruct (port =? 0); [|apply emits_ret].
      unfold epsv. apply emits_bind.
      * apply cmd_emits; [intros l [= <-]; now right | discriminate].
      * intros [[code line] [e|]]; [apply emits_ret | apply emits_lift].
    + intros [port' [e|]]; [apply emits_ret|]. apply net_Dial_emits. discriminate.
Qed.

(** X6.  A transfer that starts at offset 0 writes no REST: the only
    commands [cmdDataConnFrom] writes are PASV, EPSV and the transfer
    command itself. *)
Theorem cmdDataConnFrom_offset_0_commands (c : ServerConn) (line : string) :
  emits (fun ev => forall l, ev = EvCmd l -> l = "PASV" \/ l = "EPSV" \/ l = line)
        (cmdDataConnFrom c 0 line).
Proof.
  unfold cmdDataConnFrom. apply emits_bind.
  - eapply emits_impl; [|apply openDataConn_emits].
    intros ev H l Hl. destruct (H l Hl); auto.
  - intros [conn|e]; [|apply emits_ret].
    cbn [Z.eqb negb]. apply emits_bind; [apply emits_ret|].
    intros [e|]; [apply emits_ret|].
    apply emits_bind; [apply conn_Cmd_emits; intros l [= <-]; auto|].
    intros [e|].
    { apply emits_bind; [apply data_Close_emits; discriminate | intros; apply emits_ret]. }
    apply emits_bind; [apply conn_ReadCodeLine_emits; discriminate|].
    intros [[code msg] [e|]].
    { apply emits_bind; [apply data_Close_emits; discriminate | intros; apply emits_ret]. }
    destruct (negb (code =? StatusAlreadyOpen) && negb (code =? StatusAboutToSend));
      [|apply emits_ret].
    apply emits_bind; [apply data_Close_emits; discriminate | intros; apply emits_ret].
Qed.

Lemma conn_Cmd_trace (line : string) (w w' : World) (r : option error) :
  conn_Cmd line w = Done r w' -> w_trace w' = w_trace w ++ [EvCmd line].
Proof.
  unfold conn_Cmd. cbn. destruct (w_writes w); now intros [= _ <-].
Qed.

Lemma conn_ReadResponse_trace (expect : Z) (w w' : World) r :
  conn_ReadResponse expect w = Done r w' ->
  w_trace w' = w_trace w ++ [EvReadResponse expect].
Proof.
  unfold conn_ReadResponse, next_reply. cbn.
  destruct (w_replies w) as [|[code continued msg|e] rs]; now intros [= _ <-].
Qed.

Lemma conn_ReadCodeLine_trace (expect : Z) (w w' : World) r :
  conn_ReadCodeLine expect w = Done r w' ->
  w_trace w' = w_trace w ++ [EvReadCodeLine expect].
Proof.
  unfold conn_ReadCodeLine, next_reply. cbn.
  destruct (w_replies w) as [|[code continued msg|e] rs]; now intros [= _ <-].
Qed.

Lemma cmd_ok_trace (expected : Z) (line : string) (w w' : World) code msg :
  cmd expected line w = Done (code, msg, None) w' ->
  w_trace w' = w_trace w ++ [EvCmd line; EvReadResponse expected].
Proof.
  unfold cmd, mbind, M_bind.
  destruct (conn_Cmd line w) as [[e|] w1|p w1] eqn:Hc; try discriminate.
  intros Hr. apply conn_ReadResponse_trace in Hr. apply conn_Cmd_trace in Hc.
  now rewrite Hr, Hc, <- app_assoc.
Qed.

(** X7.  When a transfer at an offset other than 0 succeeds, what happened
    after the data connection was opened is exactly: REST with the offset in
    decimal written, its reply read against the code for a pending file
    action, the transfer command written, its reply line read. *)
Theorem cmdDataConnFrom_REST_then_transfer (c : ServerConn) (offset : Z) (line : string)
  (w w' : World) (conn : DataConn) :
  offset <> 0 ->
  cmdDataConnFrom c offset line w = Done (inl conn) w' ->
  exists w1,
    openDataConn c w = Done (inl conn) w1
    /\ w_trace w' = w_trace w1 ++ [EvCmd ("REST " +:+ Itoa offset);
                                   EvReadResponse StatusRequestFilePending;
                                   EvCmd line; EvReadCodeLine (-1)].
Proof.
  intros Hoff. unfold cmdDataConnFrom. unfold mbind at 1, M_bind at 1.
  destruct (openDataConn c w) as [[conn1|e] w1|p w1]; try discriminate.
  destruct (Z.eqb_spec offset 0) as [|_]; [contradiction|]. cbn [negb].
  unfold mbind, M_bind, mret, M_ret.
  destruct (cmd StatusRequestFilePending ("REST " +:+ Itoa offset) w1)
    as [[[code msg] [e|]] w2|p w2] eqn:Hrest; try discriminate.
  destruct (conn_Cmd line w2) as [[e|] w3|p w3] eqn:Hcmd.
  { destruct (data_Close conn1 w3); discriminate. }
  2: discriminate.
  destruct (conn_ReadCodeLine (-1) w3) as [[[code' msg'] [e|]] w4|p w4] eqn:Hread.
  { destruct (data_Close conn1 w4); discriminate. }
  2: discriminate.
  destruct (negb (code' =? StatusAlreadyOpen) && negb (code' =? StatusAboutToSend)).
  { destruct (data_Close conn1 w4); discriminate. }
  intros [= <- <-]. exists w1. split; [reflexivity|].
  apply cmd_ok_trace in Hrest. apply conn_Cmd_trace in Hcmd.
  apply conn_ReadCodeLine_trace in Hread.
  rewrite Hread, Hcmd, Hrest, <- !app_assoc. reflexivity.
Qed.

(** ** The data sockets of a transfer *)

Lemma conn_ReadCodeLine_done (expect : Z) (w : World) :
  exists code msg err w',
    conn_ReadCodeLine expect w = Done (code, msg, err) w'
    /\ w_trace w' = w_trace w ++ [EvReadCodeLine expect]
    /\ w_open w' = w_open w
    /\ w_replies w' = tail (w_replies w).
Proof.
  unfold conn_ReadCodeLine, next_reply. cbn.
  destruct (w_replies w) as [|[code continued msg|e] rs] eqn:E;
    do 4 eexists; (split; [reflexivity|]); cbn; rewrite ?E; auto.
Qed.

Lemma filter_fresh (id : nat) (l : list nat) :
  ~ In id l -> filter (fun i => i ≠ id) (id :: l) = l.
Proof.
  intros H. rewrite filter_cons_False by (intros Hn; now apply Hn).
  induction l as [|x l IH]; [reflexivity|].
  rewrite filter_cons_True.
  - f_equal. apply IH. intros Hin. apply H. now right.
  - intros ->. apply H. now left.
Qed.

Lemma data_Close_open (dc : DataConn) (w : World) :
  w_open (final (data_Close dc w)) = filter (fun i => i ≠ dc_id dc) (w_open w).
Proof. reflexivity. Qed.

Lemma data_Close_done (dc : DataConn) (w : World) :
  exists w', data_Close dc w = Done (dc_close dc) w'
             /\ w_open w' = filter (fun i => i ≠ dc_id dc) (w_open w)
             /\ w_replies w' = w_replies w
             /\ w_trace w' = w_trace w ++ [EvDataClose (dc_id dc)].
Proof. eexists. split; [reflexivity|]. auto. Qed.

Lemma openDataConn_open (c : ServerConn) (w : World) :
  fresh_dials w ->
  match openDataConn c w with
  | Done (inl conn) w' => w_open w' = dc_id conn :: w_open w /\ ~ In (dc_id conn) (w_open w)
  | Done (inr _) w' => w_open w' = w_open w
  | Crash _ w' => w_open w' = w_open w
  end.
Proof.
  intros Hfresh.
  assert (Hk : forall (m : M (Z * option error)),
             keeps w_open m -> keeps w_dials m ->
             forall w0, w_open w0 = w_open w -> w_dials w0 = w_dials w ->
             match m w0 with
             | Done _ w' | Crash _ w' => w_open w' = w_open w /\ w_dials w' = w_dials w
             end).
  { intros m Ho Hd w0 H1 H2. specialize (Ho w0). specialize (Hd w0).
    destruct (m w0); cbn [final] in *; split; congruence. }
  assert (Hpasv := Hk pasv (pasv_keeps _ cmd_keeps_open) (pasv_keeps _ cmd_keeps_dials)).
  assert (Hepsv := Hk epsv (epsv_keeps _ cmd_keeps_open) (epsv_keeps _ cmd_keeps_dials)).
  assert (Hdial : forall addr w0, w_open w0 = w_open w -> w_dials w0 = w_dials w ->
            match net_Dial addr w0 with
            | Done (inl conn) w' =>
                w_open w' = dc_id conn :: w_open w /\ ~ In (dc_id conn) (w_open w)
            | Done (inr _) w' => w_open w' = w_open w
            | Crash _ w' => w_open w' = w_open w
            end).
  { intros addr w0 H1 H2. unfold net_Dial. cbn. rewrite H2.
    destruct (w_dials w) as [|[dc|e] rest] eqn:Hd; cbn; try assumption.
    split; [now rewrite H1|]. apply Hfresh. rewrite Hd. now left. }
  assert (Hrest : forall port w0, w_open w0 = w_open w -> w_dials w0 = w_dials w ->
            match (r ← (if port =? 0 then epsv else mret (port, None));
                   match r with
                   | (_, Some e) => mret (inr e)
                   | (port, None) => net_Dial (JoinHostPort (host c) (Itoa port))
                   end) w0 with
            | Done (inl conn) w' =>
                w_open w' = dc_id conn :: w_open w /\ ~ In (dc_id conn) (w_open w)
            | Done (inr _) w' => w_open w' = w_open w
            | Crash _ w' => w_open w' = w_open w
            end).
  { intros port w0 H1 H2. unfold mbind, M_bind. destruct (port =? 0).
    - specialize (Hepsv w0 H1 H2).
      destruct (epsv w0) as [[port' [e|]] w1|p w1]; try tauto.
      apply Hdial; tauto.
    - unfold mret, M_ret. now apply Hdial. }
  unfold openDataConn. unfold mbind at 1, M_bind at 1.
  destruct (negb (has_feature c "nat6") && negb (has_feature c "EPSV")).
  - unfold mbind at 1, M_bind at 1.
    specialize (Hpasv w eq_refl eq_refl).
    destruct (pasv w) as [[port e] w1|p w1]; [|tauto].
    unfold mret at 1, M_ret at 1. apply Hrest; tauto.
  - unfold mret at 1, M_ret at 1. now apply Hrest.
Qed.

Lemma cmdDataConnFrom_open (c : ServerConn) (line : string) (w : World) :
  fresh_dials w ->
  match cmdDataConnFrom c 0 line w with
  | Done (inl conn) w' => w_open w' = dc_id conn :: w_open w /\ ~ In (dc_id conn) (w_open w)
  | Done (inr _) w' => w_open w' = w_open w
  | Crash _ w' => w_open w' = w_open w
  end.
Proof.
  intros Hfresh. pose proof (openDataConn_open c w Hfresh) as Hopen.
  unfold cmdDataConnFrom. unfold mbind at 1, M_bind at 1.
  destruct (openDataConn c w) as [[conn|e] w1|p w1]; try exact Hopen.
  destruct Hopen as [Hopen Hnew]. cbn [Z.eqb negb].
  unfold mbind, M_bind, mret, M_ret.
  destruct (conn_Cmd_done line w1) as (err & w2 & -> & _ & Hc & _).
  destruct err as [e|].
  { cbn. rewrite Hc, Hopen. now apply filter_fresh. }
  destruct (conn_ReadCodeLine_done (-1) w2) as (code & msg & err & w3 & -> & _ & Hr & _).
  destruct err as [e|].
  { cbn. rewrite Hr, Hc, Hopen. now apply filter_fresh. }
  destruct (negb (code =? StatusAlreadyOpen) && negb (code =? StatusAboutToSend)).
  - cbn. rewrite Hr, Hc, Hopen. now apply filter_fresh.
  - split; [congruence | assumption].
Qed.

(** X8.  A transfer that starts at offset 0 leaks no data socket: when
    [cmdDataConnFrom] returns an error, or panics, the sockets open are
    those that were open before; when it returns a connection, that one
    socket was added. *)
Theorem cmdDataConnFrom_offset_0_sockets (c : ServerConn) (line : string) (w : World) :
  fresh_dials w ->
  match cmdDataConnFrom c 0 line w with
  | Done (inl conn) w' => w_open w' = dc_id conn :: w_open w
  | Done (inr _) w' => w_open w' = w_open w
  | Crash _ w' => w_open w' = w_open w
  end.
Proof.
  intros Hfresh. pose proof (cmdDataConnFrom_open c line w Hfresh) as H.
  destruct (cmdDataConnFrom c 0 line w) as [[conn|e] w'|p w'];
    [exact (proj1 H) | exact H | exact H].
Qed.

Lemma Close_open (r : response) (w : World) :
  exists err w',
    Close r w = Done err w'
    /\ w_open w' = filter (fun i => i ≠ dc_id (r_conn r)) (w_open w).
Proof.
  unfold Close, mbind, M_bind.
  destruct (data_Close_done (r_conn r) w) as (w1 & -> & Ho & _).
  destruct (conn_ReadResponse_done StatusClosingDataConnection w1)
    as (code & msg & err2 & w2 & -> & _ & Ho2).
  eexists _, w2. split; [reflexivity | congruence].
Qed.

(** X9.  A download that starts at offset 0 and is closed leaves the data
    sockets as they were: the socket [Retr] opened is the one [Close]
    closes, and [Close] returns. *)
Theorem Retr_then_Close_sockets (c : ServerConn) (path : string) (w w1 : World)
  (r : response) :
  fresh_dials w ->
  Retr c path w = Done (inl r) w1 ->
  exists err w2, Close r w1 = Done err w2 /\ w_open w2 = w_open w.
Proof.
  intros Hfresh. unfold Retr, RetrFrom, mbind, M_bind.
  pose proof (cmdDataConnFrom_open c ("RETR " +:+ toServerEncoding c path) w Hfresh) as H.
  destruct (cmdDataConnFrom c 0 ("RETR " +:+ toServerEncoding c path) w)
    as [[conn|e] w'|p w']; try discriminate.
  intros [= <- <-]. destruct H as [Ho Hnew].
  destruct (Close_open (mkResponse conn) w') as (err & w2 & Hc & Ho2).
  exists err, w2. split; [exact Hc|]. rewrite Ho2, Ho. now apply filter_fresh.
Qed.

Lemma defer_Close_open {A} (c : ServerConn) (line : string) (absent : error -> A)
  (body : DataConn -> M A) (w : World) :
  fresh_dials w ->
  (forall conn, keeps w_open (body conn)) ->
  w_open (final ((x ← cmdDataConnFrom c 0 line;
                  match x with
                  | inr err => mret (absent err)
                  | inl conn => defer (Close (mkResponse conn)) (body conn)
                  end) w))
  = w_open w.
Proof.
  intros Hfresh Hbody. unfold mbind, M_bind.
  pose proof (cmdDataConnFrom_open c line w Hfresh) as H.
  destruct (cmdDataConnFrom c 0 line w) as [[conn|e] w1|p w1]; try exact H.
  destruct H as [Ho Hnew]. unfold defer. specialize (Hbody conn w1).
  destruct (body conn w1) as [a w2|p w2]; cbn [final] in Hbody;
    destruct (Close_open (mkResponse conn) w2) as (err & w3 & -> & Ho3);
    cbn [final]; rewrite Ho3, Hbody, Ho; now apply filter_fresh.
Qed.

(** X10.  No listing leaks a data socket: after [List], [MList] and
    [NameList] the sockets open are those that were open before, whether the
    listing returned entries, an error, or ended in a panic of the line
    parser. *)
Theorem listings_close_their_socket (c : ServerConn) (now : Clock) (path : string)
  (w : World) :
  fresh_dials w ->
  w_open (final (List c now path w)) = w_open w
  /\ w_open (final (MList c path w)) = w_open w
  /\ w_open (final (NameList c path w)) = w_open w.
Proof.
  intros Hfresh. split; [|split].
  - unfold List. apply defer_Close_open; [assumption|]. intros conn. apply keeps_lift.
  - unfold MList. apply defer_Close_open; [assumption|]. intros conn. apply keeps_ret.
  - unfold NameList. apply defer_Close_open; [assumption|]. intros conn. apply keeps_ret.
Qed.

(** X11.  An upload that starts at offset 0 leaks no data socket either,
    whatever the copy returned. *)
Theorem Stor_closes_its_socket (c : ServerConn) (path : string) (copy : option error)
  (w : World) :
  fresh_dials w ->
  w_open (final (Stor c path copy w)) = w_open w.
Proof.
  intros Hfresh. unfold Stor, StorFrom, mbind, M_bind.
  pose proof (cmdDataConnFrom_open c ("STOR " +:+ toServerEncoding c path) w Hfresh) as H.
  destruct (cmdDataConnFrom c 0 ("STOR " +:+ toServerEncoding c path) w)
    as [[conn|e] w1|p w1]; try exact H.
  destruct H as [Ho Hnew].
  destruct (data_Close_done conn w1) as (w2 & -> & Ho2 & _).
  assert (Hw2 : w_open w2 = w_open w) by (rewrite Ho2, Ho; now apply filter_fresh).
  destruct copy as [e|]; [exact Hw2|].
  destruct (conn_ReadCodeLine_done StatusClosingDataConnection w2)
    as (code & msg & err & w3 & -> & _ & Ho3 & _).
  cbn. congruence.
Qed.

(** X12.  When the copy of an upload fails, [StorFrom] closes the data
    socket and returns the error of the copy without reading the reply that
    ends the transfer: the replies still to come are those that were to
    come when the copy started. *)
Theorem StorFrom_failed_copy_reads_no_reply (c : ServerConn) (path : string) (e : error)
  (offset : Z) (w w1 : World) (conn : DataConn) :
  cmdDataConnFrom c offset ("STOR " +:+ toServerEncoding c path) w = Done (inl conn) w1 ->
  exists w2,
    StorFrom c path (Some e) offset w = Done (Some e) w2
    /\ w_replies w2 = w_replies w1
    /\ w_trace w2 = w_trace w1 ++ [EvDataClose (dc_id conn)].
Proof.
  intros H. unfold StorFrom, mbind, M_bind. rewrite H.
  destruct (data_Close_done conn w1) as (w2 & -> & _ & Hr & Ht).
  exists w2. split; [reflexivity|]. split; assumption.
Qed.

(** ** A data connection that breaks *)





(** ** The reply to EPSV *)

Lemma prefix_refl_app (a b : string) : String.prefix a (a +:+ b) = true.
Proof.
  induction a as [|x a IH]; [now destruct b|].
  rewrite str_app_cons. cbn [String.prefix]. now destruct (ascii_dec x x).
Qed.

Lemma index_first_bars (pre rest : string) :
  mem_byte "|" pre = false ->
  index_first "|||" (pre +:+ "|||" +:+ rest) = Some (String.length pre).
Proof.
  induction pre as [|d pre IH]; intros H.
  - rewrite str_app_nil_l. pose proof (prefix_refl_app "|||" rest) as Hp.
    destruct ("|||" +:+ rest) eqn:E; cbn [index_first]; now rewrite Hp.
  - cbn [mem_byte] in H. apply orb_false_elim in H as [Hd H].
    rewrite str_app_cons. cbn [index_first String.prefix].
    destruct (ascii_dec "|" d) as [<-|_]; [discriminate|].
    rewrite (IH H). reflexivity.
Qed.

Lemma epsv_port_bars (pre port post : string) :
  Contains pre "|" = false -> Contains post "|" = false ->
  epsv_port (pre +:+ "|||" +:+ port +:+ "|" +:+ post) = Ret (Atoi port).
Proof.
  intros Hpre Hpost. apply Contains_byte in Hpre. apply Contains_byte in Hpost.
  unfold epsv_port, Index, LastIndex. rewrite (index_first_bars _ _ Hpre).
  replace (pre +:+ "|||" +:+ port +:+ "|" +:+ post)
    with ((pre +:+ "|||" +:+ port) +:+ String "|" post)
    by (now rewrite !str_app_assoc).
  rewrite (index_last_app _ _ _ Hpost). cbn [index_result].
  rewrite !str_length_app.
  destruct (Z.eqb_spec (Z.of_nat (String.length pre)) (-1)); [lia|].
  destruct (Z.eqb_spec
              (Z.of_nat (String.length pre + (String.length "|||" + String.length port)))
              (-1)); [lia|].
  cbn [orb].
  replace ((pre +:+ "|||" +:+ port) +:+ String "|" post)
    with ((pre +:+ "|||") +:+ port +:+ String "|" post)
    by (now rewrite !str_app_assoc).
  replace (Z.of_nat (String.length pre) + 3) with (len (pre +:+ "|||"))
    by (unfold len; rewrite str_length_app; cbn; lia).
  replace (Z.of_nat (String.length pre + (String.length "|||" + String.length port)))
    with (len (pre +:+ "|||") + len port)
    by (unfold len; rewrite str_length_app; cbn; lia).
  rewrite slice_app. reflexivity.
Qed.

Lemma epsv_port_unclosed (pre post : string) :
  Contains pre "|" = false -> Contains post "|" = false ->
  epsv_port (pre +:+ "|||" +:+ post)
  = Panic (SliceOutOfRange (len pre + 3) (len pre + 2) (len pre + 3 + len post)).
Proof.
  intros Hpre Hpost. apply Contains_byte in Hpre. apply Contains_byte in Hpost.
  unfold epsv_port, Index, LastIndex. rewrite (index_first_bars _ _ Hpre).
  replace (pre +:+ "|||" +:+ post) with ((pre +:+ "||") +:+ String "|" post)
    by (now rewrite !str_app_assoc).
  rewrite (index_last_app _ _ _ Hpost). cbn [index_result].
  rewrite !str_length_app.
  destruct (Z.eqb_spec (Z.of_nat (String.length pre)) (-1)); [lia|].
  destruct (Z.eqb_spec (Z.of_nat (String.length pre + String.length "||")) (-1)); [lia|].
  cbn [orb]. unfold slice.
  replace (Z.of_nat (String.length pre) + 3 <=? Z.of_nat (String.length pre + String.length "||"))
    with false by (symmetry; apply Z.leb_gt; cbn; lia).
  rewrite andb_false_r. cbn [andb mbind outcome_bind obind].
  unfold len. rewrite !str_length_app. cbn [String.length].
  f_equal. f_equal; lia.
Qed.

Lemma Index_none (s sub : string) : Contains s sub = false -> Index s sub = -1.
Proof.
  unfold Contains, Index. destruct (index_first sub s); cbn [index_result]; [|reflexivity].
  intros H. apply Z.leb_gt in H. lia.
Qed.

(** X1.  [epsv] on a reply whose text is [pre], three bars, [port], a bar
    and [post], with no bar in [pre] nor in [post]: the port and the error
    are those of [strconv.Atoi] on [port].  On a reply without three bars
    in a row it is port 0 and a format error. *)
Theorem epsv_reply_port (w w1 : World) (code : Z) (line pre port post : string) :
  cmd StatusExtendedPassiveMode "EPSV" w = Done (code, line, None) w1 ->
  (line = pre +:+ "|||" +:+ port +:+ "|" +:+ post ->
   Contains pre "|" = false -> Contains post "|" = false ->
   epsv w = Done (Atoi port) w1)
  /\ (Contains line "|||" = false ->
      epsv w = Done (0, Some (ErrorString "invalid EPSV response format")) w1).
Proof.
  intros Hcmd. split.
  - intros -> Hpre Hpost. unfold epsv, mbind, M_bind. rewrite Hcmd.
    unfold lift. now rewrite epsv_port_bars.
  - intros Hno. unfold epsv, mbind, M_bind. rewrite Hcmd.
    unfold lift, epsv_port. rewrite (Index_none _ _ Hno). reflexivity.
Qed.

(** X2.  [epsv] panics on a reply that has the three bars and no bar after
    them: the slice of the port then starts behind its end. *)
Theorem epsv_unclosed_reply_panics (w w1 : World) (code : Z) (pre post : string) :
  cmd StatusExtendedPassiveMode "EPSV" w = Done (code, pre +:+ "|||" +:+ post, None) w1 ->
  Contains pre "|" = false -> Contains post "|" = false ->
  epsv w
  = Crash (SliceOutOfRange (len pre + 3) (len pre + 2) (len pre + 3 + len post)) w1.
Proof.
  intros Hcmd Hpre Hpost. unfold epsv, mbind, M_bind. rewrite Hcmd.
  unfold lift. now rewrite epsv_port_unclosed.
Qed.

(** ** The reply to PWD *)

Lemma quoted_bounds (pre dir post : string) :
  Contains pre quote = false -> Contains post quote = false ->
  Index (pre +:+ quote +:+ dir +:+ quote +:+ post) quote = len pre
  /\ LastIndex (pre +:+ quote +:+ dir +:+ quote +:+ post) quote = len pre + 1 + len dir
  /\ slice (pre +:+ quote +:+ dir +:+ quote +:+ post) (len pre + 1) (len pre + 1 + len dir)
     = Ret dir.
Proof.
  unfold quote. intros Hpre Hpost.
  apply Contains_byte in Hpre. apply Contains_byte in Hpost. split; [|split].
  - rewrite str_app_byte. unfold Index. now rewrite index_first_app.
  - rewrite (str_app_byte _ post), <- !str_app_assoc. unfold LastIndex.
    rewrite index_last_app by assumption.
    cbn [index_result]. unfold len. rewrite !str_length_app. cbn [String.length]. lia.
  - rewrite <- (str_app_assoc pre).
    replace (len pre + 1) with (len (pre +:+ String "034" EmptyString)).
    + apply slice_app.
    + unfold len. rewrite str_length_app. cbn [String.length]. lia.
Qed.

Lemma one_quote_bounds (pre post : string) :
  Contains pre quote = false -> Contains post quote = false ->
  Index (pre +:+ quote +:+ post) quote = len pre
  /\ LastIndex (pre +:+ quote +:+ post) quote = len pre.
Proof.
  unfold quote. intros Hpre Hpost.
  apply Contains_byte in Hpre. apply Contains_byte in Hpost.
  rewrite str_app_byte. unfold Index, LastIndex.
  now rewrite index_first_app, index_last_app.
Qed.

(** X14.  [CurrentDir] on a reply whose text is [pre], a double quote,
    [dir], a double quote and [post], with no double quote in [pre] nor in
    [post]: the directory is [dir] in the encoding of the client, with the
    double quotes it may hold left as they are.  On a reply without a
    double quote it is the empty string and a format error. *)
Theorem CurrentDir_quoted (c : ServerConn) (w w1 : World) (code : Z)
  (msg pre dir post : string) :
  cmd StatusPathCreated "PWD" w = Done (code, msg, None) w1 ->
  (msg = pre +:+ quote +:+ dir +:+ quote +:+ post ->
   Contains pre quote = false -> Contains post quote = false ->
   CurrentDir c w = Done (fromServerEncoding c dir, None) w1)
  /\ (Contains msg quote = false ->
      CurrentDir c w
      = Done (EmptyString, Some (ErrorString "unsupported PWD response format")) w1).
Proof.
  intros Hcmd. split.
  - intros -> Hpre Hpost. unfold CurrentDir, mbind, M_bind. rewrite Hcmd.
    destruct (quoted_bounds pre dir post Hpre Hpost) as (-> & -> & Hsl).
    destruct (Z.eqb_spec (len pre) (-1)); [unfold len in *; lia|].
    destruct (Z.eqb_spec (len pre + 1 + len dir) (-1)); [unfold len in *; lia|].
    cbn [orb]. rewrite Hsl. reflexivity.
  - intros Hno. unfold CurrentDir, mbind, M_bind. rewrite Hcmd.
    rewrite (Index_none _ _ Hno). reflexivity.
Qed.

(** X15.  [CurrentDir] panics on a reply with exactly one double quote: the
    first and the last double quote are then the same byte, and the slice
    between them starts behind its end. *)
Theorem CurrentDir_one_quote_panics (c : ServerConn) (w w1 : World) (code : Z)
  (pre post : string) :
  cmd StatusPathCreated "PWD" w = Done (code, pre +:+ quote +:+ post, None) w1 ->
  Contains pre quote = false -> Contains post quote = false ->
  CurrentDir c w
  = Crash (SliceOutOfRange (len pre + 1) (len pre) (len pre + 1 + len post)) w1.
Proof.
  intros Hcmd Hpre Hpost. unfold CurrentDir, mbind, M_bind. rewrite Hcmd.
  destruct (one_quote_bounds pre post Hpre Hpost) as (-> & ->).
  destruct (Z.eqb_spec (len pre) (-1)); [unfold len in *; lia|].
  cbn [orb]. unfold slice.
  replace (len pre + 1 <=? len pre) with false by (symmetry; apply Z.leb_gt; lia).
  rewrite andb_false_r. cbn [andb]. unfold lift, len.
  rewrite !str_length_app. cbn [String.length quote].
  f_equal. f_equal. lia.
Qed.

(** ** The reply to MLST *)

Lemma slice_tail (b : ascii) (s : string) :
  slice (String b s) 1 (len (String b s)) = Ret s.
Proof.
  unfold slice, len. cbn [String.length].
  replace ((0 <=? 1) && (1 <=? Z.of_nat (S (String.length s)))
           && (Z.of_nat (S (String.length s)) <=? Z.of_nat (S (String.length s))))
    with true by (symmetry; rewrite !andb_true_iff, !Z.leb_le; lia).
  replace (Z.to_nat (Z.of_nat (S (String.length s)) - 1)) with (String.length s) by lia.
  change (Z.to_nat 1) with 1%nat. cbn [str_drop].
  pose proof (str_take_app s EmptyString) as H. rewrite str_app_nil_r in H.
  now rewrite H.
Qed.

Lemma MInfo_after_cmd (c : ServerConn) (path : string) (w w1 : World) (code : Z)
  (resp : string) :
  cmd StatusRequestedFileActionOK ("MLST " +:+ toServerEncoding c path) w
  = Done (code, resp, None) w1 ->
  MInfo c path w
  = Done (match Split resp nl with
          | [_; String _ (String b line); _] => parseMListLine c (String b line)
          | _ => (mkEntryEx EmptyString ∅,
                  Some (ErrorString ("unexpected MLST response " +:+ resp)))
          end) w1.
Proof.
  intros Hcmd. unfold MInfo, mbind, M_bind. rewrite Hcmd.
  destruct (Split resp nl) as [|l0 [|l1 [|l2 [|l3 ls]]]];
    [reflexivity | reflexivity | now destruct l1 as [|a [|b line]] |
    | now destruct l1 as [|a [|b line]]].
  change (length [l0; l1; l2] =? 3)%nat with true. cbv iota.
  change (elem_at [l0; l1; l2] 1) with (Ret l1). unfold lift at 1.
  destruct l1 as [|a [|b line]]; try reflexivity.
  replace (1 <? len (String a (String b line))) with true
    by (symmetry; apply Z.ltb_lt; unfold len; cbn [String.length]; lia).
  rewrite slice_tail. reflexivity.
Qed.

(** X16.  [MInfo], and [Lstat] which is [MInfo], never panics: the index
    and the slice it takes are guarded by the tests before them.  When the
    MLST exchange succeeded with the text [resp], the result is that of
    [parseMListLine] on the second of the lines of [resp] without its first
    byte, whatever that byte is, provided that [resp] has exactly three
    lines and the second has more than one byte; and else the error that
    quotes [resp]. *)
Theorem MInfo_guarded (c : ServerConn) (path : string) (w : World) :
  (exists r w', MInfo c path w = Done r w' /\ Lstat c path w = Done r w')
  /\ (forall code resp w1,
        cmd StatusRequestedFileActionOK ("MLST " +:+ toServerEncoding c path) w
        = Done (code, resp, None) w1 ->
        MInfo c path w
        = Done (match Split resp nl with
                | [_; String _ (String b line); _] => parseMListLine c (String b line)
                | _ => (mkEntryEx EmptyString ∅,
                        Some (ErrorString ("unexpected MLST response " +:+ resp)))
                end) w1).
Proof.
  split; [|intros code resp w1; apply MInfo_after_cmd].
  destruct (cmd_done StatusRequestedFileActionOK ("MLST " +:+ toServerEncoding c path) w)
    as (code & resp & err & w1 & Hcmd & _).
  destruct err as [e|].
  - unfold Lstat, MInfo, mbind, M_bind. rewrite Hcmd. now eexists _, _.
  - unfold Lstat. rewrite (MInfo_after_cmd _ _ _ _ _ _ Hcmd). now eexists _, _.
Qed.

(** ** The transcoder, from the server and back *)

Lemma iso_rune_back (b : ascii) :
  in_ISO8859_15 (iso_rune (byte_val b)) = true
  /\ iso_byte (iso_rune (byte_val b)) = b.
Proof. destruct b as [[] [] [] [] [] [] [] []]; vm_compute; split; reflexivity. Qed.

Lemma transcode_back_and_there (s : string) :
  UTF8ToISO8859_15 (ISO8859_15ToUTF8 s) = s.
Proof.
  induction s as [|b s IH]; [reflexivity|].
  destruct (iso_rune_back b) as [Hin Hb].
  unfold ISO8859_15ToUTF8 in *. cbn [iso_runes].
  rewrite UTF8ToISO8859_15_cons by exact Hin. now rewrite Hb, IH.
Qed.

(** X17.  Every string of bytes survives the trip from the server encoding
    and back: [UTF8ToISO8859_15] undoes [ISO8859_15ToUTF8].  So on every
    session, whatever its features and its settings, a name as
    [fromServerEncoding] delivered it is sent by [toServerEncoding] as the
    bytes the server had sent. *)
Theorem names_received_are_sent_back_unchanged (c : ServerConn) (s : string) :
  UTF8ToISO8859_15 (ISO8859_15ToUTF8 s) = s
  /\ toServerEncoding c (fromServerEncoding c s) = s.
Proof.
  split; [apply transcode_back_and_there|].
  unfold toServerEncoding, fromServerEncoding.
  destruct (negb (has_feature c "UTF8") && TranslateEncoding c);
    [apply transcode_back_and_there | reflexivity].
Qed.

Lemma in_runes_from (n : nat) :
  forall a r, a <= r < a + Z.of_nat n -> In r (runes_from n a).
Proof.
  induction n as [|n IH]; intros a r H; [lia|].
  cbn [runes_from]. destruct (Z.eq_dec a r) as [->|Hne]; [now left|].
  right. apply IH. lia.
Qed.

Lemma EncodeRune_decodes_bmp (r : rune) :
  0 <= r <= 0xFFFF -> is_surrogate r = false -> decodes_to (EncodeRune r) r = true.
Proof.
  assert (H : forallb (fun r => is_surrogate r || decodes_to (EncodeRune r) r) bmp = true)
    by (vm_compute; reflexivity).
  rewrite forallb_forall in H. intros Hr Hs.
  assert (Hin : In r bmp) by (unfold bmp; apply in_runes_from; lia).
  specialize (H r Hin). now rewrite Hs in H.
Qed.

Lemma iso_byte_bmp (r : rune) :
  0 <= r <= 0xFFFF -> existsb (Z.eqb r) latin9_added = false -> iso_byte r = byte_of r.
Proof.
  assert (H : forallb (fun r => existsb (Z.eqb r) latin9_added
                                || Ascii.eqb (iso_byte r) (byte_of r)) bmp = true)
    by (vm_compute; reflexivity).
  rewrite forallb_forall in H. intros Hr Hs.
  assert (Hin : In r bmp) by (unfold bmp; apply in_runes_from; lia).
  specialize (H r Hin). rewrite Hs in H.
  now apply Ascii.eqb_eq.
Qed.

(** X18.  [UTF8ToISO8859_15] never refuses a character and never marks one
    as lost: a character of the Basic Multilingual Plane that is not one of
    the eight added to ISO-8859-15 is written as the low eight bits of its
    code point, whether ISO-8859-15 has it or not.  So two such characters
    whose code points agree on these bits are sent as the same byte. *)
Theorem UTF8ToISO8859_15_low_byte (r : rune) (u : list rune) :
  0 <= r <= 0xFFFF ->
  is_surrogate r = false ->
  existsb (Z.eqb r) latin9_added = false ->
  UTF8ToISO8859_15 (string_of_runes (r :: u))
  = String (byte_of r) (UTF8ToISO8859_15 (string_of_runes u))
  /\ (forall r',
         0 <= r' <= 0xFFFF -> is_surrogate r' = false ->
         existsb (Z.eqb r') latin9_added = false ->
         r' mod 256 = r mod 256 ->
         UTF8ToISO8859_15 (string_of_runes (r' :: u))
         = UTF8ToISO8859_15 (string_of_runes (r :: u))).
Proof.
  assert (Hstep : forall x, 0 <= x <= 0xFFFF -> is_surrogate x = false ->
                            existsb (Z.eqb x) latin9_added = false ->
                            UTF8ToISO8859_15 (string_of_runes (x :: u))
                            = String (byte_of x) (UTF8ToISO8859_15 (string_of_runes u))).
  { intros x Hx Hs Ha. unfold UTF8ToISO8859_15. cbn [string_of_runes].
    rewrite (decodes_to_step _ x) by now apply EncodeRune_decodes_bmp.
    now rewrite iso_byte_bmp. }
  intros Hr Hs Ha. split; [now apply Hstep|].
  intros r' Hr' Hs' Ha' Hmod. rewrite !Hstep by assumption.
  unfold byte_of. now rewrite Hmod.
Qed.

(** ** The name and the facts of an MLSD line *)

Lemma split_go_byte_clean (c : ascii) (s : string) :
  forall cur,
    mem_byte c cur = false ->
    Forall (fun f => mem_byte c f = false) (split_go (String c EmptyString) O cur s).
Proof.
  induction s as [|d s IH]; intros cur Hcur; [now repeat constructor|].
  cbn [split_go]. rewrite prefix_byte.
  destruct (Ascii.eqb c d) eqn:E.
  - constructor; [exact Hcur|]. cbn [String.length Nat.sub]. now apply IH.
  - apply IH. rewrite mem_byte_app, Hcur. cbn [mem_byte]. now rewrite E.
Qed.

Lemma str_drop_clean (c : ascii) (n : nat) :
  forall s, mem_byte c s = false -> mem_byte c (str_drop n s) = false.
Proof.
  induction n as [|n IH]; intros s H; [exact H|].
  destruct s as [|d s]; [reflexivity|]. cbn [str_drop]. apply IH.
  cbn [mem_byte] in H. now apply orb_false_elim in H as [_ H].
Qed.

Lemma EncodeRune_semicolon (b : ascii) :
  Ascii.eqb ";" b || negb (mem_byte ";" (EncodeRune (iso_rune (byte_val b)))) = true.
Proof. destruct b as [[] [] [] [] [] [] [] []]; vm_compute; reflexivity. Qed.

Lemma ISO8859_15ToUTF8_semicolon (s : string) :
  mem_byte ";" s = false -> mem_byte ";" (ISO8859_15ToUTF8 s) = false.
Proof.
  induction s as [|b s IH]; [reflexivity|].
  cbn [mem_byte]. intros H. apply orb_false_elim in H as [Hb Hs].
  rewrite ISO8859_15ToUTF8_cons, mem_byte_app, (IH Hs), orb_false_r.
  pose proof (EncodeRune_semicolon b) as He. rewrite Hb in He.
  now apply negb_true_iff in He.
Qed.

(** X19.  The name [parseMListLine] returns never holds a semicolon, on any
    line and any session: the line is split on every semicolon before the
    name is taken, so of a file name with a semicolon only what follows its
    last semicolon can be returned. *)
Theorem parseMListLine_name_has_no_semicolon (c : ServerConn) (line : string) :
  Contains (name (parseMListLine c line).1) ";" = false.
Proof.
  apply Contains_byte.
  destruct (exists_last (split_go_nonempty ";" O EmptyString (Trim line mlist_cutset)))
    as (init & final & Hsplit).
  assert (Hfinal : mem_byte ";" final = false).
  { pose proof (split_go_byte_clean ";" (Trim line mlist_cutset) EmptyString eq_refl) as H.
    rewrite Hsplit in H. apply Forall_app in H as [_ H]. now inversion H. }
  fold (Split (Trim line mlist_cutset) ";") in Hsplit.
  rewrite (parseMListLine_fields c line init final Hsplit).
  destruct (HasPrefix final " "); [|reflexivity]. cbn [fst name].
  pose proof (str_drop_clean ";" 1 final Hfinal) as Hd.
  unfold fromServerEncoding.
  destruct (negb (has_feature c "UTF8") && TranslateEncoding c);
    [now apply ISO8859_15ToUTF8_semicolon | exact Hd].
Qed.

Lemma foldl_add_fact_lookup (key v : string) (l : list (string * string)) :
  forall m,
    m !! key = Some v ->
    Forall (fun kv => kv.1 <> key) l ->
    foldl add_fact m l !! key = Some v.
Proof.
  induction l as [|[k' v'] l IH]; intros m Hm Hl; [exact Hm|].
  apply Forall_cons in Hl as [Hk Hl]. cbn [foldl]. apply IH; [|exact Hl].
  unfold add_fact. cbn [fst snd] in *. now rewrite lookup_insert_ne.
Qed.

Lemma omap_fact_of_other (key : string) (post : list string) :
  Forall (fun item => forall k' v', Split item "=" = [k'; v'] -> ToLower k' <> key) post ->
  Forall (fun kv => kv.1 <> key) (omap fact_of post).
Proof.
  induction post as [|item post IH]; intros H; [constructor|].
  apply Forall_cons in H as [Hi H]. cbn [omap list_omap].
  pose proof (eq_refl : fact_of item = match Split item "=" with
                                       | [k; v] => Some (ToLower k, v)
                                       | _ => None
                                       end) as Hf.
  destruct (Split item "=") as [|k' [|v' [|x rest]]]; rewrite Hf; auto.
  constructor; [|auto]. cbn [fst]. now apply (Hi k' v').
Qed.

(** X20.  The accessors on a parsed MLSD line.  Of the fields before the
    final one, the last that is a fact of a given key, the keys compared
    without regard to case, is the one the entry holds, also when the line
    has no valid name.  [Size] is the number [strconv.Atoi] reads in the
    value of the fact [size], and 0 when it reads none; [IsDir] tells
    whether the value of the fact [type] is, byte for byte, [dir], [cdir] or
    [pdir]; [Mode] has the bits 0400 and 0200 according to whether the value
    of the fact [perm] holds the byte [r] and the byte [w], and the
    directory bit when [IsDir] holds. *)
Theorem parsed_entry_accessors (c : ServerConn) (line : string)
  (pre post : list string) (item final k v : string) :
  Split (Trim line mlist_cutset) ";" = pre ++ item :: post ++ [final] ->
  Split item "=" = [k; v] ->
  Forall (fun item' => forall k' v', Split item' "=" = [k'; v'] -> ToLower k' <> ToLower k)
         post ->
  let e := (parseMListLine c line).1 in
  Facts e !! ToLower k = Some v
  /\ (ToLower k = "size" ->
      EntryEx_Size e = match Atoi v with
                       | (size, None) => size
                       | (_, Some _) => 0
                       end)
  /\ (ToLower k = "type" ->
      EntryEx_IsDir e
      = (String.eqb v "dir" || String.eqb v "cdir" || String.eqb v "pdir"))
  /\ (ToLower k = "perm" ->
      EntryEx_Mode e
      = (if Contains v "r" then 256 else 0) + (if Contains v "w" then 128 else 0)
        + (if EntryEx_IsDir e then ModeDir else 0)).
Proof.
  intros Hsplit Hitem Hpost e.
  assert (Hfacts : Facts e !! ToLower k = Some v).
  { subst e. change (pre ++ item :: post ++ [final]) with (pre ++ (item :: post) ++ [final])
      in Hsplit.
    rewrite app_assoc in Hsplit.
    rewrite (parseMListLine_fields c line _ final Hsplit).
    assert (Hf : facts_of (pre ++ item :: post) !! ToLower k = Some v).
    { rewrite (facts_of_stored pre post item k v Hitem).
      apply foldl_add_fact_lookup; [apply lookup_insert_eq|].
      now apply omap_fact_of_other. }
    now destruct (HasPrefix final " "). }
  split; [exact Hfacts|]. split; [|split].
  - intros Hk. unfold EntryEx_Size. rewrite <- Hk, Hfacts.
    now destruct (Atoi v) as [size [err|]].
  - intros Hk. unfold EntryEx_IsDir. now rewrite <- Hk, Hfacts.
  - intros Hk. unfold EntryEx_Mode. rewrite <- Hk, Hfacts.
    destruct (EntryEx_IsDir e); [reflexivity | lia].
Qed.

(** ** The entry of a LIST line *)

(** X21.  What an entry [parseListLine] returns holds beside its time.  The
    line has at least nine fields; the type is the one the first byte of
    field 0 stands for; the name is made of the fields from field 8 on,
    joined by one space each, so that a run of spaces in a name comes back
    as one space; the size is the number [strconv.ParseUint] reads in field
    4 for a file, and 0 for a folder or a link whatever field 4 says. *)
Theorem parseListLine_entry (c : ServerConn) (now : Clock) (line : string) (e : Entry) :
  parseListLine c now line = Ret (inl e) ->
  (9 <= length (Fields line))%nat
  /\ (exists f0 b,
         Fields line !! 0%nat = Some f0 /\ byte_at f0 0 = Ret b
         /\ entry_type_of b = Some (Type_ e))
  /\ Name e = fromServerEncoding c (Join (drop 8 (Fields line)) " ")
  /\ (if is_file (Type_ e)
      then exists f4, Fields line !! 4%nat = Some f4 /\ ParseUint f4 = (Size e, None)
      else Size e = 0).
Proof.
  unfold parseListLine. cbv zeta.
  destruct (Nat.ltb_spec (length (Fields line)) 9) as [|Hlen]; [discriminate|].
  destruct (at_least_nine _ Hlen)
    as (f0 & f1 & f2 & f3 & f4 & f5 & f6 & f7 & f8 & rest & Hfields).
  rewrite Hfields.
  match goal with
  | |- context [elem_at ?l 0] =>
      change (elem_at l 0) with (Ret f0);
      change (elem_at l 4) with (Ret f4);
      change (elem_at l 5) with (Ret f5);
      change (elem_at l 6) with (Ret f6);
      change (elem_at l 7) with (Ret f7);
      change (elems_from l 8) with (elems_from l (Z.of_nat 8));
      rewrite (elems_from_le l 8) by (simpl; lia);
      change (drop 8 l) with (f8 :: rest)
  end.
  cbn [mbind outcome_bind obind].
  destruct (byte_at f0 0) as [b|p] eqn:Hb; [|discriminate].
  cbn [mbind outcome_bind obind].
  destruct (entry_type_of b) as [ty|] eqn:Hty; [|discriminate].
  assert (Hsz : exists size err,
             (if is_file ty then Ret (ParseUint f4) else Ret (0, None))
             = Ret (size, err)
             /\ (if is_file ty then ParseUint f4 = (size, err) else size = 0)).
  { destruct (is_file ty); [|now exists 0, None].
    destruct (ParseUint f4) as [size err] eqn:E. exists size, err.
    split; reflexivity. }
  destruct Hsz as (size & err & -> & Hsize). cbn [mbind outcome_bind obind].
  destruct err as [err|]; [discriminate|].
  destruct (Parse_02_Jan_06 ("01 " +:+ f5 +:+ " 01")) as [ts|err]; [|discriminate].
  cbn [mbind outcome_bind obind].
  match goal with
  | |- context [mbind _ ?m] => destruct m as [timeStr|p]; [|discriminate]
  end.
  cbn [mbind outcome_bind obind].
  destruct (ParseInLocation__2_Jan_06_15_04 timeStr) as [t|err]; [|discriminate].
  cbn [mbind outcome_bind obind].
  intros [= <-]. cbn [Name Type_ Size].
  split; [simpl; lia|]. split; [now exists f0, b|]. split; [reflexivity|].
  destruct (is_file ty); [now exists f4 | exact Hsize].
Qed.

(** ** The commands of [Login] and of [Rename] *)

Lemma cmd_run (expected : Z) (line : string) (w : World) :
  exists code msg err w' evs,
    cmd expected line w = Done (code, msg, err) w'
    /\ w_trace w' = w_trace w ++ evs
    /\ commands evs = [line].
Proof.
  unfold cmd, mbind, M_bind.
  destruct (conn_Cmd_done line w) as (err & w1 & -> & Ht & _).
  destruct err as [e|].
  - now exists 0, EmptyString, (Some e), w1, [EvCmd line].
  - destruct (conn_ReadResponse_done expected w1) as (code & msg & err & w2 & -> & Ht2 & _).
    exists code, msg, err, w2, [EvCmd line; EvReadResponse expected].
    split; [reflexivity|]. split; [|reflexivity]. now rewrite Ht2, Ht, <- app_assoc.
Qed.

(** X22.  The commands [Login] writes, in order.  The password is written
    only when the reply to USER has the code that asks for it, and is not
    written when that reply says the user is logged in already; after a
    reply to USER with any other code nothing more is written.  [Login]
    returns nil only after TYPE I was written. *)
Theorem Login_commands (user password : string) (w : World) :
  exists r w' evs,
    Login user password w = Done r w'
    /\ w_trace w' = w_trace w ++ evs
    /\ ((commands evs = ["USER " +:+ user] /\ r <> None)
        \/ (commands evs = ["USER " +:+ user; "TYPE I"]
            /\ exists message w1,
                 cmd (-1) ("USER " +:+ user) w = Done (StatusLoggedIn, message, None) w1)
        \/ (exists message w1,
              cmd (-1) ("USER " +:+ user) w = Done (StatusUserOK, message, None) w1)
           /\ StatusUserOK <> StatusLoggedIn
           /\ ((commands evs = ["USER " +:+ user; "PASS " +:+ password] /\ r <> None)
               \/ commands evs = ["USER " +:+ user; "PASS " +:+ password; "TYPE I"])).
Proof.
  destruct (cmd_run (-1) ("USER " +:+ user) w)
    as (code & msg & err & w1 & evs1 & Hc1 & Ht1 & Hm1).
  unfold Login, mbind, M_bind. rewrite Hc1.
  destruct err as [e|].
  { exists (Some e), w1, evs1. split; [reflexivity|]. split; [exact Ht1|].
    left. split; [exact Hm1 | discriminate]. }
  destruct (Z.eqb_spec code StatusLoggedIn) as [->|Hne].
  { unfold mret at 1, M_ret at 1.
    destruct (cmd_run StatusCommandOK "TYPE I" w1)
      as (code2 & msg2 & err2 & w2 & evs2 & Hc2 & Ht2 & Hm2).
    rewrite Hc2. exists err2, w2, (evs1 ++ evs2).
    split; [reflexivity|]. split; [now rewrite Ht2, Ht1, <- app_assoc|].
    right. left. split; [|now exists msg, w1].
    unfold commands in *. now rewrite omap_app, Hm1, Hm2. }
  destruct (Z.eqb_spec code StatusUserOK) as [->|Hne2].
  2: { exists (Some (ErrorString msg)), w1, evs1. split; [reflexivity|].
       split; [exact Ht1|]. left. split; [exact Hm1 | discriminate]. }
  destruct (cmd_run StatusLoggedIn ("PASS " +:+ password) w1)
    as (code2 & msg2 & err2 & w2 & evs2 & Hc2 & Ht2 & Hm2).
  rewrite Hc2. unfold mret at 1, M_ret at 1.
  destruct err2 as [e|].
  { exists (Some e), w2, (evs1 ++ evs2).
    split; [reflexivity|]. split; [now rewrite Ht2, Ht1, <- app_assoc|].
    right. right. split; [now exists msg, w1|]. split; [exact Hne|].
    left. split; [|discriminate].
    unfold commands in *. now rewrite omap_app, Hm1, Hm2. }
  destruct (cmd_run StatusCommandOK "TYPE I" w2)
    as (code3 & msg3 & err3 & w3 & evs3 & Hc3 & Ht3 & Hm3).
  rewrite Hc3. exists err3, w3, (evs1 ++ evs2 ++ evs3).
  split; [reflexivity|]. split; [now rewrite Ht3, Ht2, Ht1, <- !app_assoc|].
  right. right. split; [now exists msg, w1|]. split; [exact Hne|]. right.
  unfold commands in *. now rewrite !omap_app, Hm1, Hm2, Hm3.
Qed.

(** X23.  [Rename] writes RNTO only after the server accepted RNFR with the
    code for a pending file action; when the exchange of RNFR fails its
    error is returned and nothing more is written.  Both names are sent in
    the encoding of the server. *)
Theorem Rename_commands (c : ServerConn) (from to : string) (w : World) :
  exists r w' evs,
    Rename c from to w = Done r w'
    /\ w_trace w' = w_trace w ++ evs
    /\ ((commands evs = ["RNFR " +:+ toServerEncoding c from] /\ r <> None)
        \/ (commands evs = ["RNFR " +:+ toServerEncoding c from;
                            "RNTO " +:+ toServerEncoding c to]
            /\ exists code msg w1,
                 cmd StatusRequestFilePending ("RNFR " +:+ toServerEncoding c from) w
                 = Done (code, msg, None) w1)).
Proof.
  destruct (cmd_run StatusRequestFilePending ("RNFR " +:+ toServerEncoding c from) w)
    as (code & msg & err & w1 & evs1 & Hc1 & Ht1 & Hm1).
  unfold Rename, mbind, M_bind. cbv zeta. rewrite Hc1.
  destruct err as [e|].
  { exists (Some e), w1, evs1. split; [reflexivity|]. split; [exact Ht1|].
    left. split; [exact Hm1 | discriminate]. }
  destruct (cmd_run StatusRequestedFileActionOK ("RNTO " +:+ toServerEncoding c to) w1)
    as (code2 & msg2 & err2 & w2 & evs2 & Hc2 & Ht2 & Hm2).
  rewrite Hc2. exists err2, w2, (evs1 ++ evs2).
  split; [reflexivity|]. split; [now rewrite Ht2, Ht1, <- app_assoc|].
  right. split; [|now exists code, msg, w1].
  unfold commands in *. now rewrite omap_app, Hm1, Hm2.
Qed.

(** ** Entries and errors of the listings *)

Lemma List_loop_error (c : ServerConn) (now : Clock) (tail : error) :
  forall fuel s acc entries e,
    List_loop fuel c now tail s acc = Ret (entries, Some e) -> entries = [].
Proof.
  induction fuel as [|fuel IH]; intros s acc entries e; [discriminate|].
  cbn [List_loop]. destruct (ReadString tail s) as [[line [err|]] bio'].
  - destruct (is_EOF err); [discriminate | now intros [= <- _]].
  - destruct (parseListLine c now line) as [r|p]; [|discriminate].
    cbn [mbind outcome_bind obind]. apply IH.
Qed.

Lemma MList_loop_error (c : ServerConn) (tail : error) :
  forall fuel s acc entries e,
    MList_loop fuel c tail s acc = (entries, Some e) -> entries = [].
Proof.
  induction fuel as [|fuel IH]; intros s acc entries e; [discriminate|].
  cbn [MList_loop]. destruct (ReadString tail s) as [[line [err|]] bio'].
  - destruct (is_EOF err); [discriminate | now intros [= <- _]].
  - destruct (parseMListLine c line) as [entry perr]. apply IH.
Qed.

Lemma MList_error (c : ServerConn) (path : string) (w w' : World)
  (entries : list EntryEx) (e : error) :
  MList c path w = Done (entries, Some e) w' -> entries = [].
Proof.
  unfold MList, mbind, M_bind.
  destruct (cmdDataConnFrom c 0 ("MLSD " +:+ toServerEncoding c path) w)
    as [[conn|err] w1|p w1]; [|now intros [= <- _ _] | discriminate].
  unfold defer, mret, M_ret.
  destruct (MList_loop _ c (dc_tail conn) (dc_data conn) []) as [es er] eqn:Hl.
  destruct (Close (mkResponse conn) w1) as [x w2|p w2]; [|discriminate].
  intros [= -> -> _]. exact (MList_loop_error _ _ _ _ _ _ _ Hl).
Qed.

(** X24.  [List] and [MList] never return entries together with an error:
    with an error the list is empty (while [NameList] keeps the names it
    read).  So [ReadDir], which drops the entries of [MList] when it
    returned an error and copies them when it did not, returns in every case
    exactly what [MList] returns. *)
Theorem ReadDir_is_MList (c : ServerConn) (now : Clock) (path : string) (w : World) :
  (forall entries e w', List c now path w = Done (entries, Some e) w' -> entries = [])
  /\ (forall entries e w', MList c path w = Done (entries, Some e) w' -> entries = [])
  /\ ReadDir c path w = MList c path w.
Proof.
  split; [|split].
  - intros entries e w'. unfold List, mbind, M_bind.
    destruct (cmdDataConnFrom c 0 ("LIST " +:+ toServerEncoding c path) w)
      as [[conn|err] w1|p w1]; [|now intros [= <- _ _] | discriminate].
    unfold defer, lift.
    destruct (List_loop _ c now (dc_tail conn) (dc_data conn) []) as [x|p] eqn:Hl;
      destruct (Close (mkResponse conn) w1) as [y w2|p' w2]; try discriminate.
    intros [= -> _]. exact (List_loop_error _ _ _ _ _ _ _ _ Hl).
  - intros entries e w'. apply MList_error.
  - unfold ReadDir, mbind, M_bind.
    destruct (MList c path w) as [[entries [e|]] w1|p w1] eqn:Hm; [| |reflexivity].
    + now rewrite (MList_error _ _ _ _ _ _ Hm).
    + unfold mret, M_ret. now rewrite map_id.
Qed.

(** X25.  Every data connection is dialled at the host of the session, with
    the port the server named: the address a PASV reply names is not
    used. *)
Theorem openDataConn_dials_the_host (c : ServerConn) :
  emits (fun ev => forall addr, ev = EvDial addr ->
                     exists port, addr = JoinHostPort (host c) (Itoa port))
        (openDataConn c).
Proof.
  unfold openDataConn. apply emits_bind.
  - destruct (negb (has_feature c "nat6") && negb (has_feature c "EPSV")); [|apply emits_ret].
    apply emits_bind; [|intros [port e]; apply emits_ret].
    unfold pasv. apply emits_bind.
    + apply cmd_emits; discriminate.
    + intros [[code line] [e|]]; [apply emits_ret | apply emits_lift].
  - intros port. apply emits_bind.
    + destruct (port =? 0); [|apply emits_ret].
      unfold epsv. apply emits_bind.
      * apply cmd_emits; discriminate.
      * intros [[code line] [e|]]; [apply emits_ret | apply emits_lift].
    + intros [port' [e|]]; [apply emits_ret|]. apply net_Dial_emits.
      intros addr [= <-]. now exists port'.
Qed.

(** ** The reply to FEAT *)

Lemma trim_space_right_printable (c : ascii) :
  printable c = true ->
  forall a, trim_space_right (a +:+ String c EmptyString) = Kept (a +:+ String c EmptyString).
Proof.
  intros Hc. unfold printable in Hc. apply andb_true_iff in Hc as [Hlt Hsp].
  apply negb_true_iff in Hsp. apply Z.ltb_lt in Hlt.
  induction a as [|x a IH].
  - rewrite str_app_nil_l. cbn [trim_space_right].
    destruct (Z.leb_spec 0x80 (byte_val c)); [lia|]. now rewrite Hsp.
  - rewrite str_app_cons. cbn [trim_space_right]. now rewrite IH.
Qed.

Lemma last_byte_app (s : string) (c : ascii) :
  last_byte s = Some c -> exists body, s = body +:+ String c EmptyString.
Proof.
  induction s as [|x s IH]; [discriminate|].
  destruct s as [|y s].
  - intros [= ->]. now exists EmptyString.
  - intros H. destruct (IH H) as [body Hb]. exists (String x body).
    now rewrite str_app_cons, <- Hb.
Qed.

Lemma last_byte_append (a b : string) :
  b <> EmptyString -> last_byte (a +:+ b) = last_byte b.
Proof.
  intros Hb. induction a as [|x a IH]; [reflexivity|].
  rewrite str_app_cons. cbn [last_byte]. rewrite IH.
  destruct (a +:+ b) eqn:E; [|reflexivity].
  destruct a; [rewrite str_app_nil_l in E; congruence | discriminate E].
Qed.

Lemma feature_name_last (name : string) :
  feature_name name -> ends_printable name.
Proof.
  intros [Hne Hall]. induction name as [|x name IH]; [congruence|].
  cbn [list_ascii_of_string forallb] in Hall. apply andb_true_iff in Hall as [Hx Hall].
  destruct name as [|y name]; [now exists x|].
  destruct (IH ltac:(discriminate) Hall) as (c & Hc & Hp). now exists c.
Qed.

Lemma feature_name_clean (name : string) :
  forallb printable (list_ascii_of_string name) = true -> mem_byte " " name = false.
Proof.
  induction name as [|x name IH]; [reflexivity|].
  cbn [list_ascii_of_string forallb mem_byte]. intros H.
  apply andb_true_iff in H as [Hx H]. rewrite (IH H), orb_false_r.
  destruct (Ascii.eqb_spec " " x) as [<-|]; [discriminate Hx | reflexivity].
Qed.

(** A line that is a space and then bytes that start and end with a
    printable byte is trimmed to these bytes. *)
Lemma TrimSpace_feature (c0 : ascii) (rest : string) :
  printable c0 = true ->
  ends_printable (String c0 rest) ->
  TrimSpace (" " +:+ String c0 rest) = String c0 rest.
Proof.
  intros H0 (c & Hlast & Hc). unfold TrimSpace.
  rewrite str_app_byte. cbn [trim_space_left].
  change (0x80 <=? byte_val " ") with false. change (asciiSpace " ") with true. cbv iota.
  pose proof H0 as H0'. unfold printable in H0'. apply andb_true_iff in H0' as [Hlt Hsp].
  apply negb_true_iff in Hsp. apply Z.ltb_lt in Hlt.
  destruct (Z.leb_spec 0x80 (byte_val c0)); [lia|]. rewrite Hsp.
  destruct (last_byte_app _ _ Hlast) as [body ->].
  now rewrite trim_space_right_printable.
Qed.

Lemma feat_line_body (features : gmap string string) (c0 : ascii) (rest : string) :
  printable c0 = true ->
  ends_printable (String c0 rest) ->
  feat_line features (" " +:+ String c0 rest)
  = (let featureElements := SplitN_2 (String c0 rest) " " in
     command ← elem_at featureElements 0;
     commandDesc ← (if (length featureElements =? 2)%nat
                    then elem_at featureElements 1
                    else Ret EmptyString);
     Ret (<[command := commandDesc]> features)).
Proof.
  intros H0 Hlast. unfold feat_line. rewrite (TrimSpace_feature _ _ H0 Hlast).
  rewrite str_app_byte.
  replace (HasPrefix (String " " (String c0 rest)) " ") with true
    by (unfold HasPrefix; now rewrite prefix_byte).
  reflexivity.
Qed.

Lemma SplitN_2_name (name : string) :
  mem_byte " " name = false -> SplitN_2 name " " = [name].
Proof.
  intros H. unfold SplitN_2. apply index_first_byte in H. now rewrite H.
Qed.

Lemma SplitN_2_params (name params : string) :
  mem_byte " " name = false ->
  SplitN_2 (name +:+ " " +:+ params) " " = [name; params].
Proof.
  intros H. unfold SplitN_2. rewrite str_app_byte, (index_first_app _ _ _ H).
  rewrite <- (str_app_byte " " params), str_take_app, <- str_app_assoc.
  replace (String.length name + String.length " ")%nat
    with (String.length (name +:+ " ")) by (now rewrite str_length_app).
  now rewrite str_drop_app.
Qed.

Lemma feat_line_item (features : gmap string string) (i : feat_item) :
  well_formed i -> feat_line features (feature_line i) = Ret (announce features i).
Proof.
  destruct i as [line|name|name params]; cbn [well_formed feature_line announce].
  - intros H. unfold feat_line. now rewrite H.
  - intros Hn. pose proof (feature_name_last _ Hn) as Hlast. destruct Hn as [Hne Hall].
    pose proof (feature_name_clean _ Hall) as Hclean.
    destruct name as [|c0 rest]; [congruence|].
    cbn [list_ascii_of_string forallb] in Hall. apply andb_true_iff in Hall as [H0 _].
    rewrite (feat_line_body _ _ _ H0 Hlast). cbv zeta.
    now rewrite (SplitN_2_name _ Hclean).
  - intros [Hn (c & Hlast & Hc)]. destruct Hn as [Hne Hall].
    pose proof (feature_name_clean _ Hall) as Hclean.
    assert (Hp : " " +:+ params <> EmptyString) by (rewrite str_app_byte; discriminate).
    assert (Hend : ends_printable (name +:+ " " +:+ params)).
    { exists c. split; [|exact Hc]. rewrite (last_byte_append _ _ Hp).
      rewrite <- Hlast. apply (last_byte_append " ").
      intros ->. discriminate Hlast. }
    pose proof (SplitN_2_params name params Hclean) as Hsplit.
    destruct name as [|c0 rest]; [congruence|].
    cbn [list_ascii_of_string forallb] in Hall. apply andb_true_iff in Hall as [H0 _].
    rewrite str_app_cons in Hend, Hsplit |- *.
    rewrite (feat_line_body _ _ _ H0 Hend). cbv zeta. now rewrite Hsplit.
Qed.

Lemma feat_lines_items (items : list feat_item) :
  Forall well_formed items ->
  forall features,
    feat_lines features (map feature_line items) = Ret (foldl announce features items).
Proof.
  induction items as [|i items IH]; intros H features; [reflexivity|].
  apply Forall_cons in H as [Hi H]. cbn [map feat_lines foldl].
  rewrite (feat_line_item _ _ Hi). cbn [mbind outcome_bind obind]. now apply IH.
Qed.

(** X26.  [feat] on a reply with the code [StatusSystem] whose lines are
    those of [items]: the features of the session are then those it had
    with, line after line, each feature announced stored under its name as
    the server wrote it, with its parameters or with the empty string; a
    line that does not start with a space changes nothing. *)
Theorem feat_features (features : gmap string string) (w w1 : World)
  (message : string) (items : list feat_item) :
  cmd (-1) "FEAT" w = Done (StatusSystem, message, None) w1 ->
  Split message nl = map feature_line items ->
  Forall well_formed items ->
  feat features w = Done (foldl announce features items, None) w1.
Proof.
  intros Hcmd Hlines Hwf. unfold feat, mbind, M_bind. rewrite Hcmd.
  rewrite Z.eqb_refl. cbn [negb]. rewrite Hlines, (feat_lines_items _ Hwf). reflexivity.
Qed.

Lemma feat_line_returns (features : gmap string string) (line : string) :
  exists features', feat_line features line = Ret features'.
Proof.
  unfold feat_line. destruct (HasPrefix line " "); cbn [negb]; [|now eexists].
  unfold SplitN_2. destruct (index_first " " (TrimSpace line)); now eexists.
Qed.

Lemma feat_lines_returns (lines : list string) :
  forall features, exists features', feat_lines features lines = Ret features'.
Proof.
  induction lines as [|line lines IH]; intros features; [now eexists|].
  cbn [feat_lines]. destruct (feat_line_returns features line) as [f1 ->].
  cbn [mbind outcome_bind obind]. apply IH.
Qed.

Lemma feat_cases (features : gmap string string) (w : World) :
  exists code message err w1,
    cmd (-1) "FEAT" w = Done (code, message, err) w1
    /\ exists features',
         feat features w = Done (features', err) w1
         /\ (err <> None \/ code <> StatusSystem -> features' = features).
Proof.
  destruct (cmd_done (-1) "FEAT" w) as (code & message & err & w1 & Hcmd & _).
  exists code, message, err, w1. split; [exact Hcmd|].
  unfold feat, mbind, M_bind. rewrite Hcmd. destruct err as [e|]; [now eexists|].
  destruct (Z.eqb_spec code StatusSystem) as [->|Hne]; cbn [negb]; [|now eexists].
  destruct (feat_lines_returns (Split message nl) features) as [f' Hf].
  exists f'. unfold lift. rewrite Hf. split; [reflexivity|].
  intros [H|H]; congruence.
Qed.

(** X27.  [feat] never panics, and the only error it returns is that of the
    exchange of FEAT itself, with the features left as they were.  A reply
    with a code other than [StatusSystem], such as the reply of a server
    that does not know FEAT, is no error: the features are left as they
    were. *)
Theorem feat_tolerant (features : gmap string string) (w : World) :
  exists code message err w1,
    cmd (-1) "FEAT" w = Done (code, message, err) w1
    /\ exists features',
         feat features w = Done (features', err) w1
         /\ (err <> None \/ code <> StatusSystem -> features' = features).
Proof. apply feat_cases. Qed.

(** ** The start of a session *)

Lemma conn_Close_done (w : World) :
  exists w', conn_Close w = Done (w_ctl_close w) w'
             /\ w_trace w' = w_trace w ++ [EvCtlClose].
Proof. now eexists. Qed.

Lemma Quit_done (w : World) :
  exists err w', Quit w = Done err w'
                 /\ w_trace w' = w_trace w ++ [EvCmd "QUIT"; EvCtlClose].
Proof.
  unfold Quit, mbind, M_bind.
  destruct (conn_Cmd_done "QUIT" w) as (err & w1 & -> & Ht & _).
  eexists _, _. split; [reflexivity|]. cbn. now rewrite Ht, <- app_assoc.
Qed.

Lemma feat_emits (features : gmap string string) :
  emits (fun ev => ev <> EvCtlClose) (feat features).
Proof.
  unfold feat. apply emits_bind; [apply cmd_emits; discriminate|].
  intros [[code message] [e|]]; [apply emits_ret|].
  destruct (negb (code =? StatusSystem)); [apply emits_ret|].
  apply emits_bind; [apply emits_lift | intros; apply emits_ret].
Qed.

(** X28.  [Connect], once the control connection is dialled, always returns,
    and never leaves that connection open when it returns an error: the
    close of the control connection is then the last thing that happened,
    after QUIT was written when the greeting or the exchange of FEAT had
    failed.  When it returns a session, the control connection was not
    closed, the host of the session is the one [net.SplitHostPort] gave,
    and translation of the encoding is off. *)
Theorem Connect_closes_on_error (split : string + error) (w : World) :
  exists r w' evs,
    Connect None split w = Done r w'
    /\ w_trace w' = w_trace w ++ evs
    /\ match r with
       | inr _ =>
           (exists e, split = inr e /\ evs = [EvCtlClose])
           \/ (exists evs', evs = evs' ++ [EvCmd "QUIT"; EvCtlClose])
       | inl c =>
           ~ In EvCtlClose evs
           /\ split = inl (host c)
           /\ TranslateEncoding c = false
       end.
Proof.
  unfold Connect. destruct split as [h|e].
  2: { unfold mbind, M_bind. destruct (conn_Close_done w) as (w1 & -> & Ht).
       exists (inr e), w1, [EvCtlClose]. split; [reflexivity|]. split; [exact Ht|].
       left. now exists e. }
  unfold mbind, M_bind.
  destruct (conn_ReadResponse_done StatusReady w) as (code & msg & err & w1 & -> & Ht1 & _).
  destruct err as [e|].
  { destruct (Quit_done w1) as (qe & w2 & -> & Ht2).
    exists (inr e), w2, ([EvReadResponse StatusReady] ++ [EvCmd "QUIT"; EvCtlClose]).
    split; [reflexivity|]. split; [now rewrite Ht2, Ht1, <- app_assoc|].
    right. now eexists. }
  destruct (feat_cases ∅ w1) as (code2 & msg2 & err2 & w2 & _ & f' & Hf & _).
  destruct (feat_emits ∅ w1) as (evs2 & Ht2 & Hev2).
  rewrite Hf in Ht2 |- *. cbn [final] in Ht2.
  destruct err2 as [e|].
  { destruct (Quit_done w2) as (qe & w3 & -> & Ht3).
    exists (inr e), w3, (([EvReadResponse StatusReady] ++ evs2) ++ [EvCmd "QUIT"; EvCtlClose]).
    split; [reflexivity|]. split; [now rewrite Ht3, Ht2, Ht1, <- !app_assoc|].
    right. now eexists. }
  exists (inl (mkServerConn h f' false false)), w2, ([EvReadResponse StatusReady] ++ evs2).
  split; [reflexivity|]. split; [now rewrite Ht2, Ht1, <- app_assoc|].
  split; [|split; reflexivity].
  intros [H|H]; [discriminate H|].
  rewrite List.Forall_forall in Hev2. now apply (Hev2 _ H).
Qed.

(** X29.  The session [Connect] returns from a server that greets and
    answers FEAT: its host is the one [net.SplitHostPort] gave, translation
    of the encoding and the listing of the dot directories are off, and its
    features are those the reply to FEAT announces, none at all when that
    reply has a code other than [StatusSystem]. *)
Theorem Connect_session (host : string) (w w1 w2 : World)
  (code0 code : Z) (msg0 message : string) :
  conn_ReadResponse StatusReady w = Done (code0, msg0, None) w1 ->
  cmd (-1) "FEAT" w1 = Done (code, message, None) w2 ->
  (code <> StatusSystem ->
   Connect None (inl host) w = Done (inl (mkServerConn host ∅ false false)) w2)
  /\ (forall items,
         code = StatusSystem ->
         Split message nl = map feature_line items ->
         Forall well_formed items ->
         Connect None (inl host) w
         = Done (inl (mkServerConn host (foldl announce ∅ items) false false)) w2).
Proof.
  intros Hgreet Hfeat. split.
  - intros Hcode. unfold Connect, mbind, M_bind. rewrite Hgreet.
    unfold feat, mbind, M_bind. rewrite Hfeat.
    destruct (Z.eqb_spec code StatusSystem); [contradiction | reflexivity].
  - intros items -> Hlines Hwf. unfold Connect, mbind, M_bind. rewrite Hgreet.
    unfold feat, mbind, M_bind. rewrite Hfeat, Z.eqb_refl. cbn [negb].
    rewrite Hlines, (feat_lines_items _ Hwf). reflexivity.
Qed.
End Client.

(** * The properties at concrete inputs

    The reply codes are those of RFC 959: 125, 150, 226, 227, 229 and 350. *)

(** C1.  The server accepts PASV and the data connection, then answers REST
    with 550: [cmdDataConnFrom] returns that error and the data connection
    number 7 stays open, no close of it is in the trace.  When instead the
    transfer command itself is answered with 550, the connection is closed
    before the error is returned. *)
Theorem cmdDataConnFrom_REST_rejected_leaves_socket_open :
  let c := mkServerConn "ftp.example.org" ∅ false false in
  let conn := mkDataConn 7 "payload" EOF None in
  let w := mkWorld [Reply 227 false "Entering Passive Mode (127,0,0,1,4,1).";
                    Reply 550 false "REST not supported"]
                   [] [inl conn] None [] [] in
  (exists w',
      cmdDataConnFrom 125 150 227 229 350 c 5 "RETR file.bin" w
      = Done (inr (TextprotoError 550 "REST not supported")) w'
      /\ w_open w' = [7%nat]
      /\ ~ In (EvDataClose 7) (w_trace w'))
  /\ (exists w',
         cmdDataConnFrom 125 150 227 229 350 c 0 "RETR file.bin" w
         = Done (inr (TextprotoError 550 "REST not supported")) w'
         /\ w_open w' = []
         /\ In (EvDataClose 7) (w_trace w')).
Proof.
  cbv zeta. split; eexists; (split; [vm_compute; reflexivity|]); cbn.
  - split; [reflexivity|]. intros H.
    repeat (destruct H as [H|H]; [discriminate H|]). exact H.
  - split; [reflexivity|]. auto 10.
Qed.

(** C2, as first stated, fails: this reply contains the parenthesized sextet
    (127,0,0,1,4,1), whose last two fields are the numbers 4 and 1, behind
    another parenthesis, and [pasv] returns the port 260, not 4*256+1. *)
Lemma pasv_sextet_behind_a_parenthesis :
  let line := pasv_line "Entering (a,b) Passive Mode " (sextet "127" "0" "0" "1" "4" "1") "" in
  let w := mkWorld [Reply 227 false line] [] [] None [] [] in
  Atoi "4" = (4, None) /\ Atoi "1" = (1, None)
  /\ exists w', pasv 227 w = Done (260, None) w' /\ 260 <> 4 * 256 + 1.
Proof.
  cbv zeta. split; [reflexivity|]. split; [reflexivity|].
  eexists. split; [vm_compute; reflexivity | lia].
Qed.

Lemma pasv_reply_port_witness :
  exists w',
    pasv 227 (mkWorld [Reply 227 false "Entering Passive Mode (127,0,0,1,4,1)."]
                      [] [] None [] [])
    = Done (1025, None) w'.
Proof.
  destruct (pasv_reply_port 227
              (mkWorld [Reply 227 false "Entering Passive Mode (127,0,0,1,4,1)."]
                       [] [] None [] [])
              227 false "Entering Passive Mode (127,0,0,1,4,1)." [] I eq_refl eq_refl)
    as [H _].
  destruct (H "Entering Passive Mode " "127" "0" "0" "1" "4" "1" "." 4 1
              eq_refl eq_refl eq_refl eq_refl eq_refl eq_refl eq_refl eq_refl eq_refl)
    as (w' & Hp & _).
  exists w'. exact Hp.
Defined.

(** C8, as first stated, fails: between the parentheses of this reply there
    are five fields, fewer than six, and the parsing step reads no index out
    of range: it returns the error of [Atoi] on the fifth field. *)
Lemma pasv_port_five_fields_no_fault :
  length (Split "1,2,3,4,x" ",") = 5%nat
  /\ slice "Entering Passive Mode (1,2,3,4,x)" 23 32 = Ret "1,2,3,4,x"
  /\ Index "Entering Passive Mode (1,2,3,4,x)" "(" = 22
  /\ LastIndex "Entering Passive Mode (1,2,3,4,x)" ")" = 32
  /\ pasv_port "Entering Passive Mode (1,2,3,4,x)" = Ret (0, Some (NumError "Atoi" "x" false)).
Proof. repeat split; vm_compute; reflexivity. Qed.

Lemma pasv_port_faults_witness :
  pasv_port "Entering Passive Mode (1,2,3)" = Panic (IndexOutOfRange 4 3).
Proof.
  assert (H1 : Index "Entering Passive Mode (1,2,3)" "(" <> -1)
    by (vm_compute; discriminate).
  assert (H2 : LastIndex "Entering Passive Mode (1,2,3)" ")" <> -1)
    by (vm_compute; discriminate).
  pose proof (pasv_port_faults "Entering Passive Mode (1,2,3)" H1 H2) as H.
  change (slice "Entering Passive Mode (1,2,3)"
                (Index "Entering Passive Mode (1,2,3)" "(" + 1)
                (LastIndex "Entering Passive Mode (1,2,3)" ")"))
    with (Ret (A := string) "1,2,3") in H.
  cbv beta iota zeta in H. destruct H as [H _]. apply H. vm_compute. reflexivity.
Defined.

(** C3, as first stated, fails: with the clock in October 2070 an entry
    listed for January, a month not later than October, should have the
    year 2070; [parseListLine] gives it the year 1970. *)
Lemma parseListLine_year_after_2068 :
  let c := mkServerConn "ftp.example.org" ∅ false false in
  let line := "-rw-r--r-- 1 user group 1024 Jan 15 10:30 file.txt" in
  Fields line !! 7%nat = Some "10:30"
  /\ Contains "10:30" ":" = true
  /\ exists e,
       parseListLine c (mkClock 2070 10) line = Ret (inl e)
       /\ t_month (Time_ e) = 1
       /\ t_year (Time_ e) = 1970
       /\ t_year (Time_ e) <> 2070.
Proof.
  cbv zeta. split; [reflexivity|]. split; [reflexivity|].
  eexists. split; [vm_compute; reflexivity|]. cbn. repeat split. lia.
Qed.

Lemma parseListLine_year_of_clock_witness :
  let c := mkServerConn "ftp.example.org" ∅ false false in
  let line := "-rw-r--r-- 1 user group 1024 Dec 15 10:30 file.txt" in
  exists r,
    parseListLine c (mkClock 2026 10) line = Ret r
    /\ forall e, r = inl e ->
         exists m,
           time_lookup shortMonthNames 0 "Dec" = Some (m - 1, EmptyString)
           /\ 1 <= m <= 12
           /\ t_month (Time_ e) = m
           /\ t_year (Time_ e) = (if 10 <? m then 2026 - 1 else 2026).
Proof.
  cbv zeta.
  apply (parseListLine_year_of_clock
           (mkServerConn "ftp.example.org" ∅ false false) (mkClock 2026 10)
           "-rw-r--r-- 1 user group 1024 Dec 15 10:30 file.txt" "Dec" "10:30").
  - vm_compute. lia.
  - reflexivity.
  - reflexivity.
  - reflexivity.
  - simpl. lia.
Defined.

(** C4, as first stated, fails: field 7 is the year 1950 written with four
    digits, and the entry [parseListLine] returns has the year 2050. *)
Lemma parseListLine_year_before_1969 :
  let c := mkServerConn "ftp.example.org" ∅ false false in
  let line := "drwxr-xr-x 2 user group 4096 Jan 15 1950 docs" in
  Fields line !! 7%nat = Some "1950"
  /\ Contains "1950" ":" = false
  /\ exists e,
       parseListLine c (mkClock 2026 10) line = Ret (inl e)
       /\ t_year (Time_ e) = 2050
       /\ t_year (Time_ e) <> 1950.
Proof.
  cbv zeta. split; [reflexivity|]. split; [reflexivity|].
  eexists. split; [vm_compute; reflexivity|]. cbn. split; [reflexivity | lia].
Qed.

Lemma parseListLine_year_listed_witness :
  let c := mkServerConn "ftp.example.org" ∅ false false in
  let line := "drwxr-xr-x 2 user group 4096 Jan 15 2015 docs" in
  match parseListLine c (mkClock 2026 10) line with
  | Panic p => (String.length "2015" < 4)%nat
  | Ret (inr _) => True
  | Ret (inl e) =>
      t_hour (Time_ e) = 0 /\ t_min (Time_ e) = 0
      /\ (exists yy y,
             slice "2015" 2 4 = Ret yy /\ time_atoi yy = Some y
             /\ t_year (Time_ e) = pivot y)
      /\ (forall y, 1969 <= y <= 2068 -> "2015" = Itoa y -> t_year (Time_ e) = y)
      /\ (HasPrefix "drwxr-xr-x" "d" = true -> Type_ e = EntryTypeFolder /\ Size e = 0)
  end.
Proof.
  cbv zeta.
  apply (parseListLine_year_listed
           (mkServerConn "ftp.example.org" ∅ false false) (mkClock 2026 10)
           "drwxr-xr-x 2 user group 4096 Jan 15 2015 docs" "drwxr-xr-x" "2015").
  - vm_compute. lia.
  - reflexivity.
  - reflexivity.
  - reflexivity.
Defined.

Lemma transcoder_round_trip_witness :
  let c := mkServerConn "ftp.example.org" ∅ true false in
  let u := [0x41; 0x20AC; 0xE9; 0x0153] in
  fromServerEncoding c (toServerEncoding c (string_of_runes u)) = string_of_runes u
  /\ toServerEncoding c (string_of_runes u) = bytes [0x41; 0xA4; 0xE9; 0xBD].
Proof.
  cbv zeta.
  assert (H : Forall (fun r => in_ISO8859_15 r = true) [0x41; 0x20AC; 0xE9; 0x0153])
    by (repeat constructor).
  assert (Hf : has_feature (mkServerConn "ftp.example.org" ∅ true false) "UTF8" = false)
    by (vm_compute; reflexivity).
  destruct (transcoder_round_trip (mkServerConn "ftp.example.org" ∅ true false)
              [0x41; 0x20AC; 0xE9; 0x0153] Hf eq_refl H) as (Hto & Hback & _).
  split; [exact Hback|]. rewrite Hto. vm_compute. reflexivity.
Defined.

(** A listing on a server that accepts PASV, the data connection and the
    transfer command: [cmdDataConnFrom] returns the connection. *)
Lemma listing_opens (verb : string) (conn : DataConn) :
  cmdDataConnFrom 125 150 227 229 350 (mkServerConn "ftp.example.org" ∅ false false) 0 verb
    (mkWorld [Reply 227 false "Entering Passive Mode (127,0,0,1,4,1).";
              Reply 150 false "Here comes the directory listing.";
              Reply 226 false "Directory send OK."]
             [] [inl conn] None [] [])
  = Done (inl conn)
         (mkWorld [Reply 226 false "Directory send OK."] [] [] None [dc_id conn]
                  [EvCmd "PASV"; EvReadResponse 227; EvDial "ftp.example.org:1025";
                   EvCmd verb; EvReadCodeLine (-1)]).
Proof. vm_compute. reflexivity. Qed.

(** On such a server, a stream that is one line without a newline, as long
    as the buffer of the scanner or longer, makes [NameList] fail. *)
Lemma NameList_too_long (last : string) :
  cut_line last = None ->
  MaxScanTokenSize <= len last ->
  exists w',
    NameList 125 150 226 227 229 350 (mkServerConn "ftp.example.org" ∅ false false)
      EmptyString
      (mkWorld [Reply 227 false "Entering Passive Mode (127,0,0,1,4,1).";
                Reply 150 false "Here comes the directory listing.";
                Reply 226 false "Directory send OK."]
               [] [inl (mkDataConn 7 last EOF None)] None [] [])
    = Done ([], Some ErrTooLong) w'.
Proof.
  intros Hcut Hlen. unfold NameList, mbind, M_bind.
  change (toServerEncoding (mkServerConn "ftp.example.org" ∅ false false) EmptyString)
    with EmptyString.
  rewrite listing_opens. unfold defer, mret, M_ret. cbn [dc_data dc_tail].
  rewrite (NameList_loop_too_long _ _ _ _ _ Hcut Hlen).
  match goal with
  | |- context [Close ?s ?r ?w1] => destruct (Close_done s r w1) as (err & w2 & -> & _)
  end.
  now exists w2.
Qed.

(** C9, as first stated, fails: the stream is one line of 65537 bytes that
    no newline ends; the scanner of [NameList] stops with [ErrTooLong] and
    no entry is returned. *)
Lemma NameList_last_line_fills_buffer :
  let c := mkServerConn "ftp.example.org" ∅ false false in
  let last := repeat_byte (Z.to_nat (MaxScanTokenSize + 1)) "a" in
  let conn := mkDataConn 7 last EOF None in
  let w := mkWorld [Reply 227 false "Entering Passive Mode (127,0,0,1,4,1).";
                    Reply 150 false "Here comes the directory listing.";
                    Reply 226 false "Directory send OK."]
                   [] [inl conn] None [] [] in
  stream_lines (dc_data conn) = ([], last)
  /\ last <> EmptyString
  /\ exists w', NameList 125 150 226 227 229 350 c EmptyString w = Done ([], Some ErrTooLong) w'.
Proof.
  intros c last conn w.
  assert (Hcut : cut_line last = None)
    by (apply cut_line_none, repeat_byte_mem; reflexivity).
  assert (Hlen : len last = MaxScanTokenSize + 1).
  { unfold len, last. rewrite repeat_byte_length. unfold MaxScanTokenSize. lia. }
  split; [exact (stream_lines_cut_none _ Hcut)|]. split.
  - intros H. rewrite H in Hlen. discriminate Hlen.
  - apply NameList_too_long; [exact Hcut | lia].
Qed.

Lemma unterminated_last_line_witness :
  let c := mkServerConn "ftp.example.org" ∅ false false in
  let line1 := "-rw-r--r-- 1 user group 10 Jan 15 2015 a.txt" in
  let line2 := "-rw-r--r-- 1 user group 20 Jan 16 2015 b.txt" in
  let conn := mkDataConn 7 (line1 +:+ nl +:+ line2) EOF None in
  let w := mkWorld [Reply 227 false "Entering Passive Mode (127,0,0,1,4,1).";
                    Reply 150 false "Here comes the directory listing.";
                    Reply 226 false "Directory send OK."]
                   [] [inl conn] None [] [] in
  (exists es w',
      List 125 150 226 227 229 350 c (mkClock 2026 10) EmptyString w = Done (es, None) w'
      /\ map Name es = ["a.txt"])
  /\ (exists w',
         NameList 125 150 226 227 229 350 c EmptyString w = Done ([line1; line2], None) w').
Proof.
  intros c line1 line2 conn w.
  assert (Hs : stream_lines (dc_data conn) = ([line1 +:+ nl], line2)) by reflexivity.
  assert (Hne : line2 <> EmptyString) by discriminate.
  split.
  - pose proof (listing_opens "LIST " conn) as Hopen.
    match type of Hopen with
    | _ = Done _ ?w1 =>
        destruct (unterminated_last_line 125 150 226 227 229 350 (fun s => s) c
                    (mkClock 2026 10) EmptyString w w1 conn _ _ Hs Hne eq_refl)
          as (err & w2 & _ & HList & _)
    end.
    specialize (HList Hopen).
    assert (He : exists e,
               list_entries c (mkClock 2026 10) [line1 +:+ nl] [] = Ret [e]
               /\ Name e = "a.txt") by (eexists; split; vm_compute; reflexivity).
    destruct He as (e & He & Hn). rewrite He in HList.
    exists [e], w2. split; [exact HList | now rewrite <- Hn].
  - pose proof (listing_opens "NLST " conn) as Hopen.
    match type of Hopen with
    | _ = Done _ ?w1 =>
        destruct (unterminated_last_line 125 150 226 227 229 350 (fun s => s) c
                    (mkClock 2026 10) EmptyString w w1 conn _ _ Hs Hne eq_refl)
          as (err & w2 & _ & _ & _ & HName)
    end.
    exists w2. rewrite (HName Hopen).
    + reflexivity.
    + repeat constructor. vm_compute. discriminate.
    + vm_compute. reflexivity.
Defined.

(** * More properties at concrete inputs

    The further reply codes are those of RFC 959 too: 257 for a path. *)

Lemma epsv_reply_port_witness :
  let w := mkWorld [Reply 229 false "Entering Extended Passive Mode (|||6446|)"]
                   [] [] None [] [] in
  exists w1, epsv 229 w = Done (6446, None) w1.
Proof.
  intros w.
  assert (H : exists w1,
             cmd 229 "EPSV" w
             = Done (229, "Entering Extended Passive Mode (|||6446|)", None) w1)
    by (eexists; reflexivity).
  destruct H as [w1 H]. exists w1.
  exact (proj1 (epsv_reply_port 229 w w1 229 _ "Entering Extended Passive Mode ("
                  "6446" ")" H)
           eq_refl eq_refl eq_refl).
Defined.

Lemma epsv_unclosed_reply_panics_witness :
  let w := mkWorld [Reply 229 false "Entering Extended Passive Mode (|||)"]
                   [] [] None [] [] in
  exists w1, epsv 229 w = Crash (SliceOutOfRange 35 34 36) w1.
Proof.
  intros w.
  assert (H : exists w1,
             cmd 229 "EPSV" w
             = Done (229, "Entering Extended Passive Mode (" +:+ "|||" +:+ ")", None) w1)
    by (eexists; reflexivity).
  destruct H as [w1 H]. exists w1.
  exact (epsv_unclosed_reply_panics 229 w w1 229 "Entering Extended Passive Mode (" ")"
           H eq_refl eq_refl).
Defined.

Lemma pasv_error_has_no_port_witness :
  let w := mkWorld [Reply 227 false "Entering Passive Mode (127,0,0,1,x,1)."]
                   [] [] None [] [] in
  exists port e w', pasv 227 w = Done (port, Some e) w' /\ port = 0.
Proof.
  intros w.
  assert (H : exists port e w', pasv 227 w = Done (port, Some e) w')
    by (eexists _, _, _; reflexivity).
  destruct H as (port & e & w' & H). exists port, e, w'.
  split; [exact H | exact (pasv_error_has_no_port 227 w w' port e H)].
Defined.

Lemma openDataConn_EPSV_only_witness :
  emits (fun ev => forall l, ev = EvCmd l -> l = "EPSV")
        (openDataConn 227 229
           (mkServerConn "ftp.example.org" (<["EPSV" := EmptyString]> ∅) false false)).
Proof.
  apply openDataConn_EPSV_only. right. vm_compute. reflexivity.
Defined.

Lemma openDataConn_PASV_first_witness :
  let c := mkServerConn "ftp.example.org" ∅ false false in
  let w := mkWorld [Reply 227 false "Entering Passive Mode (127,0,0,1,4,1)."]
                   [] [] None [] [] in
  exists w1, openDataConn 227 229 c w = net_Dial "ftp.example.org:1025" w1.
Proof.
  intros c w.
  assert (H : exists w1, pasv 227 w = Done (1025, None) w1) by (eexists; reflexivity).
  destruct H as [w1 H]. exists w1.
  assert (H6 : has_feature c "nat6" = false) by (vm_compute; reflexivity).
  assert (He : has_feature c "EPSV" = false) by (vm_compute; reflexivity).
  apply (proj1 (openDataConn_PASV_first 227 229 c w w1 1025 None H6 He H)). lia.
Defined.

Lemma cmdDataConnFrom_REST_then_transfer_witness :
  let c := mkServerConn "ftp.example.org" ∅ false false in
  let conn := mkDataConn 7 "payload" EOF None in
  let w := mkWorld [Reply 227 false "Entering Passive Mode (127,0,0,1,4,1).";
                    Reply 350 false "Restarting at 5.";
                    Reply 150 false "Opening BINARY mode data connection."]
                   [] [inl conn] None [] [] in
  exists w1 w',
    cmdDataConnFrom 125 150 227 229 350 c 5 "RETR file.bin" w = Done (inl conn) w'
    /\ openDataConn 227 229 c w = Done (inl conn) w1
    /\ w_trace w' = w_trace w1 ++ [EvCmd "REST 5"; EvReadResponse 350;
                                   EvCmd "RETR file.bin"; EvReadCodeLine (-1)].
Proof.
  intros c conn w.
  assert (H : exists w',
             cmdDataConnFrom 125 150 227 229 350 c 5 "RETR file.bin" w = Done (inl conn) w')
    by (eexists; vm_compute; reflexivity).
  destruct H as [w' H].
  destruct (cmdDataConnFrom_REST_then_transfer 125 150 227 229 350 c 5 "RETR file.bin"
              w w' conn ltac:(lia) H) as (w1 & H1 & H2).
  exists w1, w'. split; [exact H|]. split; [exact H1 | exact H2].
Defined.

(** A server that accepts PASV, the data connection number 7 and the
    transfer, while the data socket number 3 is open. *)
Lemma one_socket_open_fresh (replies : list reply) (conn : DataConn) :
  dc_id conn = 7%nat ->
  fresh_dials (mkWorld replies [] [inl conn] None [3%nat] []).
Proof.
  intros Hid dc Hin Hopen. destruct Hin as [Hin|[]]. injection Hin as <-.
  destruct Hopen as [E|[]]. rewrite Hid in E. discriminate E.
Qed.

Lemma cmdDataConnFrom_offset_0_sockets_witness :
  let c := mkServerConn "ftp.example.org" ∅ false false in
  let conn := mkDataConn 7 "payload" EOF None in
  let w := mkWorld [Reply 227 false "Entering Passive Mode (127,0,0,1,4,1).";
                    Reply 550 false "No such file."]
                   [] [inl conn] None [3%nat] [] in
  match cmdDataConnFrom 125 150 227 229 350 c 0 "RETR file.bin" w with
  | Done (inl conn) w' => w_open w' = dc_id conn :: w_open w
  | Done (inr _) w' => w_open w' = w_open w
  | Crash _ w' => w_open w' = w_open w
  end.
Proof.
  intros c conn w.
  apply (cmdDataConnFrom_offset_0_sockets 125 150 227 229 350 c "RETR file.bin" w).
  now apply one_socket_open_fresh.
Defined.

Lemma Retr_then_Close_sockets_witness :
  let c := mkServerConn "ftp.example.org" ∅ false false in
  let conn := mkDataConn 7 "payload" EOF None in
  let w := mkWorld [Reply 227 false "Entering Passive Mode (127,0,0,1,4,1).";
                    Reply 150 false "Opening BINARY mode data connection.";
                    Reply 226 false "Transfer complete."]
                   [] [inl conn] None [3%nat] [] in
  exists r w1 err w2,
    Retr 125 150 227 229 350 c "file.bin" w = Done (inl r) w1
    /\ Close 226 r w1 = Done err w2
    /\ w_open w2 = [3%nat].
Proof.
  intros c conn w.
  assert (H : exists r w1, Retr 125 150 227 229 350 c "file.bin" w = Done (inl r) w1)
    by (eexists _, _; vm_compute; reflexivity).
  destruct H as (r & w1 & H).
  destruct (Retr_then_Close_sockets 125 150 226 227 229 350 c "file.bin" w w1 r
              (one_socket_open_fresh _ conn eq_refl) H) as (err & w2 & Hc & Ho).
  exists r, w1, err, w2. split; [exact H|]. split; [exact Hc | exact Ho].
Defined.

Lemma listings_close_their_socket_witness :
  let c := mkServerConn "ftp.example.org" ∅ false false in
  let conn := mkDataConn 7 ("short" +:+ nl) EOF None in
  let w := mkWorld [Reply 227 false "Entering Passive Mode (127,0,0,1,4,1).";
                    Reply 150 false "Here comes the directory listing.";
                    Reply 226 false "Directory send OK."]
                   [] [inl conn] None [3%nat] [] in
  w_open (final (List 125 150 226 227 229 350 c (mkClock 2026 10) "pub" w)) = [3%nat]
  /\ w_open (final (MList 125 150 226 227 229 350 (fun s => s) c "pub" w)) = [3%nat]
  /\ w_open (final (NameList 125 150 226 227 229 350 c "pub" w)) = [3%nat].
Proof.
  intros c conn w.
  apply (listings_close_their_socket 125 150 226 227 229 350 (fun s => s) c
           (mkClock 2026 10) "pub" w).
  now apply one_socket_open_fresh.
Defined.

Lemma Stor_closes_its_socket_witness :
  let c := mkServerConn "ftp.example.org" ∅ false false in
  let conn := mkDataConn 7 EmptyString EOF None in
  let w := mkWorld [Reply 227 false "Entering Passive Mode (127,0,0,1,4,1).";
                    Reply 150 false "Ok to send data.";
                    Reply 226 false "Transfer complete."]
                   [] [inl conn] None [3%nat] [] in
  w_open (final (Stor 125 150 226 227 229 350 c "file.bin"
                      (Some (NetError "broken pipe")) w))
  = [3%nat].
Proof.
  intros c conn w.
  apply (Stor_closes_its_socket 125 150 226 227 229 350 c "file.bin"
           (Some (NetError "broken pipe")) w).
  now apply one_socket_open_fresh.
Defined.

Lemma StorFrom_failed_copy_reads_no_reply_witness :
  let c := mkServerConn "ftp.example.org" ∅ false false in
  let conn := mkDataConn 7 EmptyString EOF None in
  let w := mkWorld [Reply 227 false "Entering Passive Mode (127,0,0,1,4,1).";
                    Reply 150 false "Ok to send data.";
                    Reply 426 false "Connection closed; transfer aborted."]
                   [] [inl conn] None [] [] in
  exists w2,
    StorFrom 125 150 226 227 229 350 c "file.bin" (Some (NetError "broken pipe")) 0 w
    = Done (Some (NetError "broken pipe")) w2
    /\ w_replies w2 = [Reply 426 false "Connection closed; transfer aborted."].
Proof.
  intros c conn w.
  assert (H : exists w1,
             cmdDataConnFrom 125 150 227 229 350 c 0
               ("STOR " +:+ toServerEncoding c "file.bin") w = Done (inl conn) w1
             /\ w_replies w1 = [Reply 426 false "Connection closed; transfer aborted."])
    by (eexists; split; vm_compute; reflexivity).
  destruct H as (w1 & H & Hr).
  destruct (StorFrom_failed_copy_reads_no_reply 125 150 226 227 229 350 c "file.bin"
              (NetError "broken pipe") 0 w w1 conn H) as (w2 & Hs & Hr2 & _).
  exists w2. split; [exact Hs | now rewrite Hr2].
Defined.


Lemma CurrentDir_quoted_witness :
  let c := mkServerConn "ftp.example.org" ∅ false false in
  let msg := quote +:+ "/home/user" +:+ quote +:+ " is the current directory" in
  let w := mkWorld [Reply 257 false msg] [] [] None [] [] in
  exists w1, CurrentDir 257 c w = Done ("/home/user", None) w1.
Proof.
  intros c msg w.
  assert (H : exists w1, cmd 257 "PWD" w = Done (257, msg, None) w1)
    by (eexists; reflexivity).
  destruct H as [w1 H]. exists w1.
  exact (proj1 (CurrentDir_quoted 257 c w w1 257 msg EmptyString "/home/user"
                  " is the current directory" H)
           eq_refl eq_refl eq_refl).
Defined.

Lemma CurrentDir_one_quote_panics_witness :
  let c := mkServerConn "ftp.example.org" ∅ false false in
  let w := mkWorld [Reply 257 false ("/home/user" +:+ quote +:+ " created")]
                   [] [] None [] [] in
  exists w1, CurrentDir 257 c w = Crash (SliceOutOfRange 11 10 19) w1.
Proof.
  intros c w.
  assert (H : exists w1,
             cmd 257 "PWD" w = Done (257, "/home/user" +:+ quote +:+ " created", None) w1)
    by (eexists; reflexivity).
  destruct H as [w1 H]. exists w1.
  exact (CurrentDir_one_quote_panics 257 c w w1 257 "/home/user" " created"
           H eq_refl eq_refl).
Defined.

(** U+0141, the capital L with stroke, is sent as the byte of the capital
    A, as U+0041 is. *)
Lemma UTF8ToISO8859_15_low_byte_witness :
  UTF8ToISO8859_15 (string_of_runes [0x141]) = "A"
  /\ UTF8ToISO8859_15 (string_of_runes [0x41]) = UTF8ToISO8859_15 (string_of_runes [0x141]).
Proof.
  destruct (UTF8ToISO8859_15_low_byte 0x141 [] ltac:(lia) eq_refl eq_refl) as [H1 H2].
  split; [exact H1|].
  exact (H2 0x41 ltac:(lia) eq_refl eq_refl eq_refl).
Defined.

Lemma parsed_entry_accessors_witness :
  let c := mkServerConn "ftp.example.org" ∅ false false in
  let e := (parseMListLine (fun s => s) c "Type=dir;Size=12;SIZE=4096;perm=el; pub").1 in
  Facts e !! "size" = Some "4096" /\ EntryEx_Size e = 4096.
Proof.
  intros c.
  assert (Hpost : Forall (fun item' => forall k' v',
                            Split item' "=" = [k'; v'] ->
                            ToLower (fun s => s) k' <> ToLower (fun s => s) "SIZE")
                         ["perm=el"]).
  { constructor; [|constructor]. intros k' v' H. vm_compute in H.
    injection H as <- <-. vm_compute. discriminate. }
  destruct (parsed_entry_accessors (fun s => s) c "Type=dir;Size=12;SIZE=4096;perm=el; pub"
              ["Type=dir"; "Size=12"] ["perm=el"] "SIZE=4096" " pub" "SIZE" "4096"
              eq_refl eq_refl Hpost) as (Hf & Hs & _).
  split; [exact Hf | exact (Hs eq_refl)].
Defined.

Lemma parseListLine_entry_witness :
  let c := mkServerConn "ftp.example.org" ∅ false false in
  let line := "-rw-r--r-- 1 user group 10 Jan 15 2015 my  file.txt" in
  exists e,
    parseListLine c (mkClock 2026 10) line = Ret (inl e)
    /\ Name e = fromServerEncoding c (Join (drop 8 (Fields line)) " ")
    /\ Join (drop 8 (Fields line)) " " = "my file.txt".
Proof.
  intros c line.
  assert (H : exists e, parseListLine c (mkClock 2026 10) line = Ret (inl e))
    by (eexists; vm_compute; reflexivity).
  destruct H as [e H]. exists e. split; [exact H|].
  destruct (parseListLine_entry c (mkClock 2026 10) line e H) as (_ & _ & Hn & _).
  split; [exact Hn | vm_compute; reflexivity].
Defined.

(** The codes 211 for the features and 220 for the greeting; the functions
    of package strings on bytes outside ASCII are not reached. *)
Lemma feat_features_witness :
  let message := "Features:" +:+ nl +:+ " EPSV" +:+ nl +:+ " REST STREAM" +:+ nl
                 +:+ " UTF8" +:+ nl +:+ "End" in
  let w := mkWorld [Reply 211 true message] [] [] None [] [] in
  exists features w1,
    feat (fun s => s) (fun s => s) 211 ∅ w = Done (features, None) w1
    /\ features !! "EPSV" = Some EmptyString
    /\ features !! "REST" = Some "STREAM"
    /\ features !! "UTF8" = Some EmptyString
    /\ features !! "End" = None.
Proof.
  intros message w.
  pose (items := [NoFeature "Features:"; Feature "EPSV"; FeatureWith "REST" "STREAM";
                  Feature "UTF8"; NoFeature "End"]).
  assert (H : exists w1, cmd (-1) "FEAT" w = Done (211, message, None) w1)
    by (eexists; reflexivity).
  destruct H as [w1 H].
  assert (Hwf : Forall well_formed items).
  { repeat constructor; try discriminate.
    exists "M"%char. split; reflexivity. }
  exists (foldl announce ∅ items), w1.
  split; [exact (feat_features (fun s => s) (fun s => s) 211 ∅ w w1 message items
                   H eq_refl Hwf)|].
  repeat split; vm_compute; reflexivity.
Defined.

Lemma Connect_session_witness :
  let message := "Features:" +:+ nl +:+ " EPSV" +:+ nl +:+ " UTF8" +:+ nl +:+ "End" in
  let w := mkWorld [Reply 220 false "Service ready."; Reply 502 false "Command not implemented."]
                   [] [] None [] [] in
  let w' := mkWorld [Reply 220 false "Service ready."; Reply 211 true message]
                    [] [] None [] [] in
  (exists w2,
      Connect 220 (fun s => s) (fun s => s) 211 None (inl "ftp.example.org") w
      = Done (inl (mkServerConn "ftp.example.org" ∅ false false)) w2)
  /\ (exists c w2,
         Connect 220 (fun s => s) (fun s => s) 211 None (inl "ftp.example.org") w'
         = Done (inl c) w2
         /\ has_feature c "EPSV" = true /\ has_feature c "UTF8" = true
         /\ has_feature c "nat6" = false).
Proof.
  intros message w w'. split.
  - assert (H1 : exists w1,
               conn_ReadResponse 220 w = Done (220, "Service ready.", None) w1
               /\ exists w2, cmd (-1) "FEAT" w1
                             = Done (502, "Command not implemented.", None) w2)
      by (eexists; split; [reflexivity | eexists; reflexivity]).
    destruct H1 as (w1 & H1 & w2 & H2). exists w2.
    apply (proj1 (Connect_session 220 (fun s => s) (fun s => s) 211 "ftp.example.org"
                    w w1 w2 220 502 "Service ready." "Command not implemented." H1 H2)).
    lia.
  - pose (items := [NoFeature "Features:"; Feature "EPSV"; Feature "UTF8"; NoFeature "End"]).
    assert (H1 : exists w1,
               conn_ReadResponse 220 w' = Done (220, "Service ready.", None) w1
               /\ exists w2, cmd (-1) "FEAT" w1 = Done (211, message, None) w2)
      by (eexists; split; [reflexivity | eexists; reflexivity]).
    destruct H1 as (w1 & H1 & w2 & H2).
    assert (Hwf : Forall well_formed items) by (repeat constructor; discriminate).
    exists (mkServerConn "ftp.example.org" (foldl announce ∅ items) false false), w2.
    split.
    + exact (proj2 (Connect_session 220 (fun s => s) (fun s => s) 211 "ftp.example.org"
                      w' w1 w2 220 211 "Service ready." message H1 H2)
               items eq_refl eq_refl Hwf).
    + repeat split; vm_compute; reflexivity.
Defined.
